(** * The CMSIS-DAP command core of orbtrace ([orbtrace/nmigen/cmsis_dap.py])

    The core is a clocked nMigen design.  It is embedded as a step function
    on the record of its registers: one call of [step] is one tick of the
    [usb] clock domain.  Every handler of the Python class is a statement
    list acting on the next-state accumulator; as in nMigen, right-hand sides
    read the registers as they were before the tick and the last active
    assignment to a signal wins.

    A signal of [w] bits is an integer in [0, 2^w); an assignment cuts its
    right-hand side to the width of the target where the expression could
    exceed it, and a one-bit signal is a [bool].  Reading a slice above the
    top of a signal gives 0, and writing one there changes nothing. *)

From Stdlib Require Import ZArith List Bool Lia.
From coqutil Require Import Z.bitblast.
Import ListNotations.
Local Open Scope Z_scope.

(** ** Bit vectors as integers *)

Definition trunc (w v : Z) : Z := Z.land v (Z.ones w).

(** [v.bit_select(lo, w)] with a constant offset *)
Definition bits (v lo w : Z) : Z := trunc w (Z.shiftr v lo).

(** [v.word_select(k, 8)] *)
Definition word8 (v k : Z) : Z := bits v (8 * k) 8.

(** Assignment to the slice [lo, lo+w) of [v]. *)
Definition set_bits (v lo w x : Z) : Z :=
  Z.lor (Z.land v (Z.lnot (Z.shiftl (Z.ones w) lo))) (Z.shiftl (trunc w x) lo).

Definition b2z (b : bool) : Z := if b then 1 else 0.
Definition nonzero (v : Z) : bool := negb (v =? 0).

(** [Mux(sel, a, b)] *)
Definition Mux {A} (sel : Z) (a b : A) : A := if nonzero sel then a else b.

(** [C(v, w)] and [Cat(...)]: a value paired with its width, least
    significant operand first. *)
Definition C (v w : Z) : Z * Z := (trunc w v, w).
Definition sig (v w : Z) : Z * Z := (trunc w v, w).
Definition Cat (l : list (Z * Z)) : Z * Z :=
  fold_right (fun x acc => (Z.lor (fst x) (Z.shiftl (fst acc) (snd x)), snd x + snd acc))
             (0, 0) l.
Definition val (x : Z * Z) : Z := fst x.

Definition one_of (v : Z) (l : list Z) : bool := existsb (Z.eqb v) l.

(** ** Default configuration information *)

Definition DAP_CONNECT_DEFAULT : Z := 1.
Definition DAP_VERSION_STRING : Z * Z := Cat [C 0x31 8; C 0x2e 8; C 0x30 8; C 0x30 8; C 0 8].
Definition DAP_CAPABILITIES : Z := 0x01.
Definition DAP_TD_TIMER_FREQ : Z := 0x3B9ACA00.
Definition DAP_TB_SIZE : Z := 500.
Definition DAP_MAX_PACKET_COUNT : Z := 1.
Definition DAP_V1_MAX_PACKET_SIZE : Z := 64.
Definition DAP_V2_MAX_PACKET_SIZE : Z := 500.

(** ** CMSIS-DAP protocol messages *)

Definition DAP_Info : Z := 0x00.
Definition DAP_HostStatus : Z := 0x01.
Definition DAP_Connect : Z := 0x02.
Definition DAP_Disconnect : Z := 0x03.
Definition DAP_TransferConfigure : Z := 0x04.
Definition DAP_Transfer : Z := 0x05.
Definition DAP_TransferBlock : Z := 0x06.
Definition DAP_TransferAbort : Z := 0x07.
Definition DAP_WriteABORT : Z := 0x08.
Definition DAP_Delay : Z := 0x09.
Definition DAP_ResetTarget : Z := 0x0a.
Definition DAP_SWJ_Pins : Z := 0x10.
Definition DAP_SWJ_Clock : Z := 0x11.
Definition DAP_SWJ_Sequence : Z := 0x12.
Definition DAP_SWD_Configure : Z := 0x13.
Definition DAP_JTAG_Sequence : Z := 0x14.
Definition DAP_JTAG_Configure : Z := 0x15.
Definition DAP_JTAG_IDCODE : Z := 0x16.
Definition DAP_SWO_Transport : Z := 0x17.
Definition DAP_SWO_Mode : Z := 0x18.
Definition DAP_SWO_Baudrate : Z := 0x19.
Definition DAP_SWO_Control : Z := 0x1a.
Definition DAP_SWO_Status : Z := 0x1b.
Definition DAP_SWO_Data : Z := 0x1c.
Definition DAP_SWD_Sequence : Z := 0x1d.
Definition DAP_SWO_ExtendedStatus : Z := 0x1e.
Definition DAP_ExecuteCommands : Z := 0x7f.
Definition DAP_QueueCommands : Z := 0x7e.
Definition DAP_Invalid : Z := 0xff.

(** ** Commands to the debug interface *)

Definition CMD_RESET : Z := 0.
Definition CMD_PINS_WRITE : Z := 1.
Definition CMD_TRANSACT : Z := 2.
Definition CMD_SET_SWD : Z := 3.
Definition CMD_SET_JTAG : Z := 4.
Definition CMD_SET_SWJ : Z := 5.
Definition CMD_SET_PWRDOWN : Z := 6.
Definition CMD_SET_CLK : Z := 7.
Definition CMD_SET_CFG : Z := 8.
Definition CMD_WAIT : Z := 9.
Definition CMD_CLR_ERR : Z := 10.
Definition CMD_SET_RST_TMR : Z := 11.
Definition CMD_SET_TFR_CFG : Z := 12.

(** ** The decoder's states, in the order [elaborate] declares them *)

Inductive FsmState : Type :=
| IDLE
| RESPOND
| RxParams
| DAP_SWJ_Pins_PROCESS
| DAP_SWO_Data_PROCESS
| DAP_SWJ_Sequence_PROCESS
| DAP_JTAG_Sequence_PROCESS
| DAP_Transfer_PROCESS
| DAP_TransferBlock_PROCESS
| DAP_SWD_Sequence_GetCount
| DAP_TransferBlock_state
| DAP_ExecuteCommands_GetNum
| DAP_QueueCommands_GetNum
| DAP_Wait_Done
| DAP_Wait_Connect_Done
| Error
| ProtocolError.

(** ** Signals driven from outside the core

    [streamOut] is the inbound byte stream (the USB OUT endpoint), [streamIn]
    the outbound one.  The debug interface [DBGIF] is a separate module: what
    it drives ([done], [ack], [perr], [dread], [again], [ignoreData],
    [postedMode]) is an input of every tick, read at the widths this file
    uses them at (ack 3 bits, dread 32 bits).  The registers of [DBGIF] that
    the core drives ([command], [dwrite], [apndp], [rnw], [addr32], [go],
    [countdown], [pinsin]) are part of the core's state below and hold the
    values assigned to them. *)

Record Input : Type := mkInput {
  streamOut_payload : Z;
  streamOut_valid : bool;
  streamOut_first : bool;
  streamOut_last : bool;
  streamIn_ready : bool;
  isV2 : bool;
  dbgif_done : bool;
  dbgif_ack : Z;
  dbgif_perr : bool;
  dbgif_dread : Z;
  dbgif_again : bool;
  dbgif_ignoreData : bool;
  dbgif_postedMode : bool
}.

(** The response RAM is created with [init=[0xdeadbeef]]. *)
Definition tfrram_init : Z -> Z := fun a => if a =? 0 then 0xdeadbeef else 0.

(** ** The registers of the core *)

Record State : Type := mkState {
  fsm : FsmState;
  running : bool;
  connected : bool;
  rxBlock : Z;
  rxLen : Z;
  rxedLen : Z;
  txBlock : Z;
  txLen : Z;
  txedLen : Z;
  busy : bool;
  txb : Z;
  bitcount : Z;
  tmsValue : bool;
  tdoCapture : bool;
  tdiData : Z;
  tdoCount : Z;
  seqCount : Z;
  tckCycles : Z;
  bytebits : Z;
  dapIndex : Z;
  transferCount : Z;
  mask : Z;
  retries : Z;
  matchretries : Z;
  tfrReq : Z;
  tfrData : Z;
  ndev : Z;
  irlength : Z;
  waitRetry : Z;
  matchRetry : Z;
  dbgif_command : Z;
  dbgif_apndp : bool;
  dbgif_rnw : bool;
  dbgif_addr32 : Z;
  dbgif_dwrite : Z;
  dbgif_go : bool;
  dbgif_countdown : Z;
  dbgif_pinsin : Z;
  tfrram_adr : Z;
  tfrram_mem : Z -> Z;
  tfrram_dat_r : Z;
  streamIn_payload : Z;
  streamIn_valid : bool;
  streamIn_last : bool;
  done_cdc : Z
}.

Definition reset_state : State :=
  {| fsm := IDLE;
     running := false;
     connected := false;
     rxBlock := 0;
     rxLen := 0;
     rxedLen := 0;
     txBlock := 0;
     txLen := 0;
     txedLen := 0;
     busy := false;
     txb := 0;
     bitcount := 0;
     tmsValue := false;
     tdoCapture := false;
     tdiData := 0;
     tdoCount := 0;
     seqCount := 0;
     tckCycles := 0;
     bytebits := 0;
     dapIndex := 0;
     transferCount := 0;
     mask := 0;
     retries := 0;
     matchretries := 0;
     tfrReq := 0;
     tfrData := 0;
     ndev := 0;
     irlength := 0;
     waitRetry := 0;
     matchRetry := 0;
     dbgif_command := 0;
     dbgif_apndp := false;
     dbgif_rnw := false;
     dbgif_addr32 := 0;
     dbgif_dwrite := 0;
     dbgif_go := false;
     dbgif_countdown := 0;
     dbgif_pinsin := 0;
     tfrram_adr := 0;
     tfrram_mem := tfrram_init;
     tfrram_dat_r := 0;
     streamIn_payload := 0;
     streamIn_valid := false;
     streamIn_last := false;
     done_cdc := 0 |}.

Definition set_fsm (v : FsmState) (s : State) : State :=
  mkState v (running s) (connected s) (rxBlock s) (rxLen s) (rxedLen s) (txBlock s) (txLen s) (txedLen s) (busy s) (txb s) (bitcount s) (tmsValue s) (tdoCapture s) (tdiData s) (tdoCount s) (seqCount s) (tckCycles s) (bytebits s) (dapIndex s) (transferCount s) (mask s) (retries s) (matchretries s) (tfrReq s) (tfrData s) (ndev s) (irlength s) (waitRetry s) (matchRetry s) (dbgif_command s) (dbgif_apndp s) (dbgif_rnw s) (dbgif_addr32 s) (dbgif_dwrite s) (dbgif_go s) (dbgif_countdown s) (dbgif_pinsin s) (tfrram_adr s) (tfrram_mem s) (tfrram_dat_r s) (streamIn_payload s) (streamIn_valid s) (streamIn_last s) (done_cdc s).
Definition set_running (v : bool) (s : State) : State :=
  mkState (fsm s) v (connected s) (rxBlock s) (rxLen s) (rxedLen s) (txBlock s) (txLen s) (txedLen s) (busy s) (txb s) (bitcount s) (tmsValue s) (tdoCapture s) (tdiData s) (tdoCount s) (seqCount s) (tckCycles s) (bytebits s) (dapIndex s) (transferCount s) (mask s) (retries s) (matchretries s) (tfrReq s) (tfrData s) (ndev s) (irlength s) (waitRetry s) (matchRetry s) (dbgif_command s) (dbgif_apndp s) (dbgif_rnw s) (dbgif_addr32 s) (dbgif_dwrite s) (dbgif_go s) (dbgif_countdown s) (dbgif_pinsin s) (tfrram_adr s) (tfrram_mem s) (tfrram_dat_r s) (streamIn_payload s) (streamIn_valid s) (streamIn_last s) (done_cdc s).
Definition set_connected (v : bool) (s : State) : State :=
  mkState (fsm s) (running s) v (rxBlock s) (rxLen s) (rxedLen s) (txBlock s) (txLen s) (txedLen s) (busy s) (txb s) (bitcount s) (tmsValue s) (tdoCapture s) (tdiData s) (tdoCount s) (seqCount s) (tckCycles s) (bytebits s) (dapIndex s) (transferCount s) (mask s) (retries s) (matchretries s) (tfrReq s) (tfrData s) (ndev s) (irlength s) (waitRetry s) (matchRetry s) (dbgif_command s) (dbgif_apndp s) (dbgif_rnw s) (dbgif_addr32 s) (dbgif_dwrite s) (dbgif_go s) (dbgif_countdown s) (dbgif_pinsin s) (tfrram_adr s) (tfrram_mem s) (tfrram_dat_r s) (streamIn_payload s) (streamIn_valid s) (streamIn_last s) (done_cdc s).
Definition set_rxBlock (v : Z) (s : State) : State :=
  mkState (fsm s) (running s) (connected s) v (rxLen s) (rxedLen s) (txBlock s) (txLen s) (txedLen s) (busy s) (txb s) (bitcount s) (tmsValue s) (tdoCapture s) (tdiData s) (tdoCount s) (seqCount s) (tckCycles s) (bytebits s) (dapIndex s) (transferCount s) (mask s) (retries s) (matchretries s) (tfrReq s) (tfrData s) (ndev s) (irlength s) (waitRetry s) (matchRetry s) (dbgif_command s) (dbgif_apndp s) (dbgif_rnw s) (dbgif_addr32 s) (dbgif_dwrite s) (dbgif_go s) (dbgif_countdown s) (dbgif_pinsin s) (tfrram_adr s) (tfrram_mem s) (tfrram_dat_r s) (streamIn_payload s) (streamIn_valid s) (streamIn_last s) (done_cdc s).
Definition set_rxLen (v : Z) (s : State) : State :=
  mkState (fsm s) (running s) (connected s) (rxBlock s) v (rxedLen s) (txBlock s) (txLen s) (txedLen s) (busy s) (txb s) (bitcount s) (tmsValue s) (tdoCapture s) (tdiData s) (tdoCount s) (seqCount s) (tckCycles s) (bytebits s) (dapIndex s) (transferCount s) (mask s) (retries s) (matchretries s) (tfrReq s) (tfrData s) (ndev s) (irlength s) (waitRetry s) (matchRetry s) (dbgif_command s) (dbgif_apndp s) (dbgif_rnw s) (dbgif_addr32 s) (dbgif_dwrite s) (dbgif_go s) (dbgif_countdown s) (dbgif_pinsin s) (tfrram_adr s) (tfrram_mem s) (tfrram_dat_r s) (streamIn_payload s) (streamIn_valid s) (streamIn_last s) (done_cdc s).
Definition set_rxedLen (v : Z) (s : State) : State :=
  mkState (fsm s) (running s) (connected s) (rxBlock s) (rxLen s) v (txBlock s) (txLen s) (txedLen s) (busy s) (txb s) (bitcount s) (tmsValue s) (tdoCapture s) (tdiData s) (tdoCount s) (seqCount s) (tckCycles s) (bytebits s) (dapIndex s) (transferCount s) (mask s) (retries s) (matchretries s) (tfrReq s) (tfrData s) (ndev s) (irlength s) (waitRetry s) (matchRetry s) (dbgif_command s) (dbgif_apndp s) (dbgif_rnw s) (dbgif_addr32 s) (dbgif_dwrite s) (dbgif_go s) (dbgif_countdown s) (dbgif_pinsin s) (tfrram_adr s) (tfrram_mem s) (tfrram_dat_r s) (streamIn_payload s) (streamIn_valid s) (streamIn_last s) (done_cdc s).
Definition set_txBlock (v : Z) (s : State) : State :=
  mkState (fsm s) (running s) (connected s) (rxBlock s) (rxLen s) (rxedLen s) v (txLen s) (txedLen s) (busy s) (txb s) (bitcount s) (tmsValue s) (tdoCapture s) (tdiData s) (tdoCount s) (seqCount s) (tckCycles s) (bytebits s) (dapIndex s) (transferCount s) (mask s) (retries s) (matchretries s) (tfrReq s) (tfrData s) (ndev s) (irlength s) (waitRetry s) (matchRetry s) (dbgif_command s) (dbgif_apndp s) (dbgif_rnw s) (dbgif_addr32 s) (dbgif_dwrite s) (dbgif_go s) (dbgif_countdown s) (dbgif_pinsin s) (tfrram_adr s) (tfrram_mem s) (tfrram_dat_r s) (streamIn_payload s) (streamIn_valid s) (streamIn_last s) (done_cdc s).
Definition set_txLen (v : Z) (s : State) : State :=
  mkState (fsm s) (running s) (connected s) (rxBlock s) (rxLen s) (rxedLen s) (txBlock s) v (txedLen s) (busy s) (txb s) (bitcount s) (tmsValue s) (tdoCapture s) (tdiData s) (tdoCount s) (seqCount s) (tckCycles s) (bytebits s) (dapIndex s) (transferCount s) (mask s) (retries s) (matchretries s) (tfrReq s) (tfrData s) (ndev s) (irlength s) (waitRetry s) (matchRetry s) (dbgif_command s) (dbgif_apndp s) (dbgif_rnw s) (dbgif_addr32 s) (dbgif_dwrite s) (dbgif_go s) (dbgif_countdown s) (dbgif_pinsin s) (tfrram_adr s) (tfrram_mem s) (tfrram_dat_r s) (streamIn_payload s) (streamIn_valid s) (streamIn_last s) (done_cdc s).
Definition set_txedLen (v : Z) (s : State) : State :=
  mkState (fsm s) (running s) (connected s) (rxBlock s) (rxLen s) (rxedLen s) (txBlock s) (txLen s) v (busy s) (txb s) (bitcount s) (tmsValue s) (tdoCapture s) (tdiData s) (tdoCount s) (seqCount s) (tckCycles s) (bytebits s) (dapIndex s) (transferCount s) (mask s) (retries s) (matchretries s) (tfrReq s) (tfrData s) (ndev s) (irlength s) (waitRetry s) (matchRetry s) (dbgif_command s) (dbgif_apndp s) (dbgif_rnw s) (dbgif_addr32 s) (dbgif_dwrite s) (dbgif_go s) (dbgif_countdown s) (dbgif_pinsin s) (tfrram_adr s) (tfrram_mem s) (tfrram_dat_r s) (streamIn_payload s) (streamIn_valid s) (streamIn_last s) (done_cdc s).
Definition set_busy (v : bool) (s : State) : State :=
  mkState (fsm s) (running s) (connected s) (rxBlock s) (rxLen s) (rxedLen s) (txBlock s) (txLen s) (txedLen s) v (txb s) (bitcount s) (tmsValue s) (tdoCapture s) (tdiData s) (tdoCount s) (seqCount s) (tckCycles s) (bytebits s) (dapIndex s) (transferCount s) (mask s) (retries s) (matchretries s) (tfrReq s) (tfrData s) (ndev s) (irlength s) (waitRetry s) (matchRetry s) (dbgif_command s) (dbgif_apndp s) (dbgif_rnw s) (dbgif_addr32 s) (dbgif_dwrite s) (dbgif_go s) (dbgif_countdown s) (dbgif_pinsin s) (tfrram_adr s) (tfrram_mem s) (tfrram_dat_r s) (streamIn_payload s) (streamIn_valid s) (streamIn_last s) (done_cdc s).
Definition set_txb (v : Z) (s : State) : State :=
  mkState (fsm s) (running s) (connected s) (rxBlock s) (rxLen s) (rxedLen s) (txBlock s) (txLen s) (txedLen s) (busy s) v (bitcount s) (tmsValue s) (tdoCapture s) (tdiData s) (tdoCount s) (seqCount s) (tckCycles s) (bytebits s) (dapIndex s) (transferCount s) (mask s) (retries s) (matchretries s) (tfrReq s) (tfrData s) (ndev s) (irlength s) (waitRetry s) (matchRetry s) (dbgif_command s) (dbgif_apndp s) (dbgif_rnw s) (dbgif_addr32 s) (dbgif_dwrite s) (dbgif_go s) (dbgif_countdown s) (dbgif_pinsin s) (tfrram_adr s) (tfrram_mem s) (tfrram_dat_r s) (streamIn_payload s) (streamIn_valid s) (streamIn_last s) (done_cdc s).
Definition set_bitcount (v : Z) (s : State) : State :=
  mkState (fsm s) (running s) (connected s) (rxBlock s) (rxLen s) (rxedLen s) (txBlock s) (txLen s) (txedLen s) (busy s) (txb s) v (tmsValue s) (tdoCapture s) (tdiData s) (tdoCount s) (seqCount s) (tckCycles s) (bytebits s) (dapIndex s) (transferCount s) (mask s) (retries s) (matchretries s) (tfrReq s) (tfrData s) (ndev s) (irlength s) (waitRetry s) (matchRetry s) (dbgif_command s) (dbgif_apndp s) (dbgif_rnw s) (dbgif_addr32 s) (dbgif_dwrite s) (dbgif_go s) (dbgif_countdown s) (dbgif_pinsin s) (tfrram_adr s) (tfrram_mem s) (tfrram_dat_r s) (streamIn_payload s) (streamIn_valid s) (streamIn_last s) (done_cdc s).
Definition set_tmsValue (v : bool) (s : State) : State :=
  mkState (fsm s) (running s) (connected s) (rxBlock s) (rxLen s) (rxedLen s) (txBlock s) (txLen s) (txedLen s) (busy s) (txb s) (bitcount s) v (tdoCapture s) (tdiData s) (tdoCount s) (seqCount s) (tckCycles s) (bytebits s) (dapIndex s) (transferCount s) (mask s) (retries s) (matchretries s) (tfrReq s) (tfrData s) (ndev s) (irlength s) (waitRetry s) (matchRetry s) (dbgif_command s) (dbgif_apndp s) (dbgif_rnw s) (dbgif_addr32 s) (dbgif_dwrite s) (dbgif_go s) (dbgif_countdown s) (dbgif_pinsin s) (tfrram_adr s) (tfrram_mem s) (tfrram_dat_r s) (streamIn_payload s) (streamIn_valid s) (streamIn_last s) (done_cdc s).
Definition set_tdoCapture (v : bool) (s : State) : State :=
  mkState (fsm s) (running s) (connected s) (rxBlock s) (rxLen s) (rxedLen s) (txBlock s) (txLen s) (txedLen s) (busy s) (txb s) (bitcount s) (tmsValue s) v (tdiData s) (tdoCount s) (seqCount s) (tckCycles s) (bytebits s) (dapIndex s) (transferCount s) (mask s) (retries s) (matchretries s) (tfrReq s) (tfrData s) (ndev s) (irlength s) (waitRetry s) (matchRetry s) (dbgif_command s) (dbgif_apndp s) (dbgif_rnw s) (dbgif_addr32 s) (dbgif_dwrite s) (dbgif_go s) (dbgif_countdown s) (dbgif_pinsin s) (tfrram_adr s) (tfrram_mem s) (tfrram_dat_r s) (streamIn_payload s) (streamIn_valid s) (streamIn_last s) (done_cdc s).
Definition set_tdiData (v : Z) (s : State) : State :=
  mkState (fsm s) (running s) (connected s) (rxBlock s) (rxLen s) (rxedLen s) (txBlock s) (txLen s) (txedLen s) (busy s) (txb s) (bitcount s) (tmsValue s) (tdoCapture s) v (tdoCount s) (seqCount s) (tckCycles s) (bytebits s) (dapIndex s) (transferCount s) (mask s) (retries s) (matchretries s) (tfrReq s) (tfrData s) (ndev s) (irlength s) (waitRetry s) (matchRetry s) (dbgif_command s) (dbgif_apndp s) (dbgif_rnw s) (dbgif_addr32 s) (dbgif_dwrite s) (dbgif_go s) (dbgif_countdown s) (dbgif_pinsin s) (tfrram_adr s) (tfrram_mem s) (tfrram_dat_r s) (streamIn_payload s) (streamIn_valid s) (streamIn_last s) (done_cdc s).
Definition set_tdoCount (v : Z) (s : State) : State :=
  mkState (fsm s) (running s) (connected s) (rxBlock s) (rxLen s) (rxedLen s) (txBlock s) (txLen s) (txedLen s) (busy s) (txb s) (bitcount s) (tmsValue s) (tdoCapture s) (tdiData s) v (seqCount s) (tckCycles s) (bytebits s) (dapIndex s) (transferCount s) (mask s) (retries s) (matchretries s) (tfrReq s) (tfrData s) (ndev s) (irlength s) (waitRetry s) (matchRetry s) (dbgif_command s) (dbgif_apndp s) (dbgif_rnw s) (dbgif_addr32 s) (dbgif_dwrite s) (dbgif_go s) (dbgif_countdown s) (dbgif_pinsin s) (tfrram_adr s) (tfrram_mem s) (tfrram_dat_r s) (streamIn_payload s) (streamIn_valid s) (streamIn_last s) (done_cdc s).
Definition set_seqCount (v : Z) (s : State) : State :=
  mkState (fsm s) (running s) (connected s) (rxBlock s) (rxLen s) (rxedLen s) (txBlock s) (txLen s) (txedLen s) (busy s) (txb s) (bitcount s) (tmsValue s) (tdoCapture s) (tdiData s) (tdoCount s) v (tckCycles s) (bytebits s) (dapIndex s) (transferCount s) (mask s) (retries s) (matchretries s) (tfrReq s) (tfrData s) (ndev s) (irlength s) (waitRetry s) (matchRetry s) (dbgif_command s) (dbgif_apndp s) (dbgif_rnw s) (dbgif_addr32 s) (dbgif_dwrite s) (dbgif_go s) (dbgif_countdown s) (dbgif_pinsin s) (tfrram_adr s) (tfrram_mem s) (tfrram_dat_r s) (streamIn_payload s) (streamIn_valid s) (streamIn_last s) (done_cdc s).
Definition set_tckCycles (v : Z) (s : State) : State :=
  mkState (fsm s) (running s) (connected s) (rxBlock s) (rxLen s) (rxedLen s) (txBlock s) (txLen s) (txedLen s) (busy s) (txb s) (bitcount s) (tmsValue s) (tdoCapture s) (tdiData s) (tdoCount s) (seqCount s) v (bytebits s) (dapIndex s) (transferCount s) (mask s) (retries s) (matchretries s) (tfrReq s) (tfrData s) (ndev s) (irlength s) (waitRetry s) (matchRetry s) (dbgif_command s) (dbgif_apndp s) (dbgif_rnw s) (dbgif_addr32 s) (dbgif_dwrite s) (dbgif_go s) (dbgif_countdown s) (dbgif_pinsin s) (tfrram_adr s) (tfrram_mem s) (tfrram_dat_r s) (streamIn_payload s) (streamIn_valid s) (streamIn_last s) (done_cdc s).
Definition set_bytebits (v : Z) (s : State) : State :=
  mkState (fsm s) (running s) (connected s) (rxBlock s) (rxLen s) (rxedLen s) (txBlock s) (txLen s) (txedLen s) (busy s) (txb s) (bitcount s) (tmsValue s) (tdoCapture s) (tdiData s) (tdoCount s) (seqCount s) (tckCycles s) v (dapIndex s) (transferCount s) (mask s) (retries s) (matchretries s) (tfrReq s) (tfrData s) (ndev s) (irlength s) (waitRetry s) (matchRetry s) (dbgif_command s) (dbgif_apndp s) (dbgif_rnw s) (dbgif_addr32 s) (dbgif_dwrite s) (dbgif_go s) (dbgif_countdown s) (dbgif_pinsin s) (tfrram_adr s) (tfrram_mem s) (tfrram_dat_r s) (streamIn_payload s) (streamIn_valid s) (streamIn_last s) (done_cdc s).
Definition set_dapIndex (v : Z) (s : State) : State :=
  mkState (fsm s) (running s) (connected s) (rxBlock s) (rxLen s) (rxedLen s) (txBlock s) (txLen s) (txedLen s) (busy s) (txb s) (bitcount s) (tmsValue s) (tdoCapture s) (tdiData s) (tdoCount s) (seqCount s) (tckCycles s) (bytebits s) v (transferCount s) (mask s) (retries s) (matchretries s) (tfrReq s) (tfrData s) (ndev s) (irlength s) (waitRetry s) (matchRetry s) (dbgif_command s) (dbgif_apndp s) (dbgif_rnw s) (dbgif_addr32 s) (dbgif_dwrite s) (dbgif_go s) (dbgif_countdown s) (dbgif_pinsin s) (tfrram_adr s) (tfrram_mem s) (tfrram_dat_r s) (streamIn_payload s) (streamIn_valid s) (streamIn_last s) (done_cdc s).
Definition set_transferCount (v : Z) (s : State) : State :=
  mkState (fsm s) (running s) (connected s) (rxBlock s) (rxLen s) (rxedLen s) (txBlock s) (txLen s) (txedLen s) (busy s) (txb s) (bitcount s) (tmsValue s) (tdoCapture s) (tdiData s) (tdoCount s) (seqCount s) (tckCycles s) (bytebits s) (dapIndex s) v (mask s) (retries s) (matchretries s) (tfrReq s) (tfrData s) (ndev s) (irlength s) (waitRetry s) (matchRetry s) (dbgif_command s) (dbgif_apndp s) (dbgif_rnw s) (dbgif_addr32 s) (dbgif_dwrite s) (dbgif_go s) (dbgif_countdown s) (dbgif_pinsin s) (tfrram_adr s) (tfrram_mem s) (tfrram_dat_r s) (streamIn_payload s) (streamIn_valid s) (streamIn_last s) (done_cdc s).
Definition set_mask (v : Z) (s : State) : State :=
  mkState (fsm s) (running s) (connected s) (rxBlock s) (rxLen s) (rxedLen s) (txBlock s) (txLen s) (txedLen s) (busy s) (txb s) (bitcount s) (tmsValue s) (tdoCapture s) (tdiData s) (tdoCount s) (seqCount s) (tckCycles s) (bytebits s) (dapIndex s) (transferCount s) v (retries s) (matchretries s) (tfrReq s) (tfrData s) (ndev s) (irlength s) (waitRetry s) (matchRetry s) (dbgif_command s) (dbgif_apndp s) (dbgif_rnw s) (dbgif_addr32 s) (dbgif_dwrite s) (dbgif_go s) (dbgif_countdown s) (dbgif_pinsin s) (tfrram_adr s) (tfrram_mem s) (tfrram_dat_r s) (streamIn_payload s) (streamIn_valid s) (streamIn_last s) (done_cdc s).
Definition set_retries (v : Z) (s : State) : State :=
  mkState (fsm s) (running s) (connected s) (rxBlock s) (rxLen s) (rxedLen s) (txBlock s) (txLen s) (txedLen s) (busy s) (txb s) (bitcount s) (tmsValue s) (tdoCapture s) (tdiData s) (tdoCount s) (seqCount s) (tckCycles s) (bytebits s) (dapIndex s) (transferCount s) (mask s) v (matchretries s) (tfrReq s) (tfrData s) (ndev s) (irlength s) (waitRetry s) (matchRetry s) (dbgif_command s) (dbgif_apndp s) (dbgif_rnw s) (dbgif_addr32 s) (dbgif_dwrite s) (dbgif_go s) (dbgif_countdown s) (dbgif_pinsin s) (tfrram_adr s) (tfrram_mem s) (tfrram_dat_r s) (streamIn_payload s) (streamIn_valid s) (streamIn_last s) (done_cdc s).
Definition set_matchretries (v : Z) (s : State) : State :=
  mkState (fsm s) (running s) (connected s) (rxBlock s) (rxLen s) (rxedLen s) (txBlock s) (txLen s) (txedLen s) (busy s) (txb s) (bitcount s) (tmsValue s) (tdoCapture s) (tdiData s) (tdoCount s) (seqCount s) (tckCycles s) (bytebits s) (dapIndex s) (transferCount s) (mask s) (retries s) v (tfrReq s) (tfrData s) (ndev s) (irlength s) (waitRetry s) (matchRetry s) (dbgif_command s) (dbgif_apndp s) (dbgif_rnw s) (dbgif_addr32 s) (dbgif_dwrite s) (dbgif_go s) (dbgif_countdown s) (dbgif_pinsin s) (tfrram_adr s) (tfrram_mem s) (tfrram_dat_r s) (streamIn_payload s) (streamIn_valid s) (streamIn_last s) (done_cdc s).
Definition set_tfrReq (v : Z) (s : State) : State :=
  mkState (fsm s) (running s) (connected s) (rxBlock s) (rxLen s) (rxedLen s) (txBlock s) (txLen s) (txedLen s) (busy s) (txb s) (bitcount s) (tmsValue s) (tdoCapture s) (tdiData s) (tdoCount s) (seqCount s) (tckCycles s) (bytebits s) (dapIndex s) (transferCount s) (mask s) (retries s) (matchretries s) v (tfrData s) (ndev s) (irlength s) (waitRetry s) (matchRetry s) (dbgif_command s) (dbgif_apndp s) (dbgif_rnw s) (dbgif_addr32 s) (dbgif_dwrite s) (dbgif_go s) (dbgif_countdown s) (dbgif_pinsin s) (tfrram_adr s) (tfrram_mem s) (tfrram_dat_r s) (streamIn_payload s) (streamIn_valid s) (streamIn_last s) (done_cdc s).
Definition set_tfrData (v : Z) (s : State) : State :=
  mkState (fsm s) (running s) (connected s) (rxBlock s) (rxLen s) (rxedLen s) (txBlock s) (txLen s) (txedLen s) (busy s) (txb s) (bitcount s) (tmsValue s) (tdoCapture s) (tdiData s) (tdoCount s) (seqCount s) (tckCycles s) (bytebits s) (dapIndex s) (transferCount s) (mask s) (retries s) (matchretries s) (tfrReq s) v (ndev s) (irlength s) (waitRetry s) (matchRetry s) (dbgif_command s) (dbgif_apndp s) (dbgif_rnw s) (dbgif_addr32 s) (dbgif_dwrite s) (dbgif_go s) (dbgif_countdown s) (dbgif_pinsin s) (tfrram_adr s) (tfrram_mem s) (tfrram_dat_r s) (streamIn_payload s) (streamIn_valid s) (streamIn_last s) (done_cdc s).
Definition set_ndev (v : Z) (s : State) : State :=
  mkState (fsm s) (running s) (connected s) (rxBlock s) (rxLen s) (rxedLen s) (txBlock s) (txLen s) (txedLen s) (busy s) (txb s) (bitcount s) (tmsValue s) (tdoCapture s) (tdiData s) (tdoCount s) (seqCount s) (tckCycles s) (bytebits s) (dapIndex s) (transferCount s) (mask s) (retries s) (matchretries s) (tfrReq s) (tfrData s) v (irlength s) (waitRetry s) (matchRetry s) (dbgif_command s) (dbgif_apndp s) (dbgif_rnw s) (dbgif_addr32 s) (dbgif_dwrite s) (dbgif_go s) (dbgif_countdown s) (dbgif_pinsin s) (tfrram_adr s) (tfrram_mem s) (tfrram_dat_r s) (streamIn_payload s) (streamIn_valid s) (streamIn_last s) (done_cdc s).
Definition set_irlength (v : Z) (s : State) : State :=
  mkState (fsm s) (running s) (connected s) (rxBlock s) (rxLen s) (rxedLen s) (txBlock s) (txLen s) (txedLen s) (busy s) (txb s) (bitcount s) (tmsValue s) (tdoCapture s) (tdiData s) (tdoCount s) (seqCount s) (tckCycles s) (bytebits s) (dapIndex s) (transferCount s) (mask s) (retries s) (matchretries s) (tfrReq s) (tfrData s) (ndev s) v (waitRetry s) (matchRetry s) (dbgif_command s) (dbgif_apndp s) (dbgif_rnw s) (dbgif_addr32 s) (dbgif_dwrite s) (dbgif_go s) (dbgif_countdown s) (dbgif_pinsin s) (tfrram_adr s) (tfrram_mem s) (tfrram_dat_r s) (streamIn_payload s) (streamIn_valid s) (streamIn_last s) (done_cdc s).
Definition set_waitRetry (v : Z) (s : State) : State :=
  mkState (fsm s) (running s) (connected s) (rxBlock s) (rxLen s) (rxedLen s) (txBlock s) (txLen s) (txedLen s) (busy s) (txb s) (bitcount s) (tmsValue s) (tdoCapture s) (tdiData s) (tdoCount s) (seqCount s) (tckCycles s) (bytebits s) (dapIndex s) (transferCount s) (mask s) (retries s) (matchretries s) (tfrReq s) (tfrData s) (ndev s) (irlength s) v (matchRetry s) (dbgif_command s) (dbgif_apndp s) (dbgif_rnw s) (dbgif_addr32 s) (dbgif_dwrite s) (dbgif_go s) (dbgif_countdown s) (dbgif_pinsin s) (tfrram_adr s) (tfrram_mem s) (tfrram_dat_r s) (streamIn_payload s) (streamIn_valid s) (streamIn_last s) (done_cdc s).
Definition set_matchRetry (v : Z) (s : State) : State :=
  mkState (fsm s) (running s) (connected s) (rxBlock s) (rxLen s) (rxedLen s) (txBlock s) (txLen s) (txedLen s) (busy s) (txb s) (bitcount s) (tmsValue s) (tdoCapture s) (tdiData s) (tdoCount s) (seqCount s) (tckCycles s) (bytebits s) (dapIndex s) (transferCount s) (mask s) (retries s) (matchretries s) (tfrReq s) (tfrData s) (ndev s) (irlength s) (waitRetry s) v (dbgif_command s) (dbgif_apndp s) (dbgif_rnw s) (dbgif_addr32 s) (dbgif_dwrite s) (dbgif_go s) (dbgif_countdown s) (dbgif_pinsin s) (tfrram_adr s) (tfrram_mem s) (tfrram_dat_r s) (streamIn_payload s) (streamIn_valid s) (streamIn_last s) (done_cdc s).
Definition set_dbgif_command (v : Z) (s : State) : State :=
  mkState (fsm s) (running s) (connected s) (rxBlock s) (rxLen s) (rxedLen s) (txBlock s) (txLen s) (txedLen s) (busy s) (txb s) (bitcount s) (tmsValue s) (tdoCapture s) (tdiData s) (tdoCount s) (seqCount s) (tckCycles s) (bytebits s) (dapIndex s) (transferCount s) (mask s) (retries s) (matchretries s) (tfrReq s) (tfrData s) (ndev s) (irlength s) (waitRetry s) (matchRetry s) v (dbgif_apndp s) (dbgif_rnw s) (dbgif_addr32 s) (dbgif_dwrite s) (dbgif_go s) (dbgif_countdown s) (dbgif_pinsin s) (tfrram_adr s) (tfrram_mem s) (tfrram_dat_r s) (streamIn_payload s) (streamIn_valid s) (streamIn_last s) (done_cdc s).
Definition set_dbgif_apndp (v : bool) (s : State) : State :=
  mkState (fsm s) (running s) (connected s) (rxBlock s) (rxLen s) (rxedLen s) (txBlock s) (txLen s) (txedLen s) (busy s) (txb s) (bitcount s) (tmsValue s) (tdoCapture s) (tdiData s) (tdoCount s) (seqCount s) (tckCycles s) (bytebits s) (dapIndex s) (transferCount s) (mask s) (retries s) (matchretries s) (tfrReq s) (tfrData s) (ndev s) (irlength s) (waitRetry s) (matchRetry s) (dbgif_command s) v (dbgif_rnw s) (dbgif_addr32 s) (dbgif_dwrite s) (dbgif_go s) (dbgif_countdown s) (dbgif_pinsin s) (tfrram_adr s) (tfrram_mem s) (tfrram_dat_r s) (streamIn_payload s) (streamIn_valid s) (streamIn_last s) (done_cdc s).
Definition set_dbgif_rnw (v : bool) (s : State) : State :=
  mkState (fsm s) (running s) (connected s) (rxBlock s) (rxLen s) (rxedLen s) (txBlock s) (txLen s) (txedLen s) (busy s) (txb s) (bitcount s) (tmsValue s) (tdoCapture s) (tdiData s) (tdoCount s) (seqCount s) (tckCycles s) (bytebits s) (dapIndex s) (transferCount s) (mask s) (retries s) (matchretries s) (tfrReq s) (tfrData s) (ndev s) (irlength s) (waitRetry s) (matchRetry s) (dbgif_command s) (dbgif_apndp s) v (dbgif_addr32 s) (dbgif_dwrite s) (dbgif_go s) (dbgif_countdown s) (dbgif_pinsin s) (tfrram_adr s) (tfrram_mem s) (tfrram_dat_r s) (streamIn_payload s) (streamIn_valid s) (streamIn_last s) (done_cdc s).
Definition set_dbgif_addr32 (v : Z) (s : State) : State :=
  mkState (fsm s) (running s) (connected s) (rxBlock s) (rxLen s) (rxedLen s) (txBlock s) (txLen s) (txedLen s) (busy s) (txb s) (bitcount s) (tmsValue s) (tdoCapture s) (tdiData s) (tdoCount s) (seqCount s) (tckCycles s) (bytebits s) (dapIndex s) (transferCount s) (mask s) (retries s) (matchretries s) (tfrReq s) (tfrData s) (ndev s) (irlength s) (waitRetry s) (matchRetry s) (dbgif_command s) (dbgif_apndp s) (dbgif_rnw s) v (dbgif_dwrite s) (dbgif_go s) (dbgif_countdown s) (dbgif_pinsin s) (tfrram_adr s) (tfrram_mem s) (tfrram_dat_r s) (streamIn_payload s) (streamIn_valid s) (streamIn_last s) (done_cdc s).
Definition set_dbgif_dwrite (v : Z) (s : State) : State :=
  mkState (fsm s) (running s) (connected s) (rxBlock s) (rxLen s) (rxedLen s) (txBlock s) (txLen s) (txedLen s) (busy s) (txb s) (bitcount s) (tmsValue s) (tdoCapture s) (tdiData s) (tdoCount s) (seqCount s) (tckCycles s) (bytebits s) (dapIndex s) (transferCount s) (mask s) (retries s) (matchretries s) (tfrReq s) (tfrData s) (ndev s) (irlength s) (waitRetry s) (matchRetry s) (dbgif_command s) (dbgif_apndp s) (dbgif_rnw s) (dbgif_addr32 s) v (dbgif_go s) (dbgif_countdown s) (dbgif_pinsin s) (tfrram_adr s) (tfrram_mem s) (tfrram_dat_r s) (streamIn_payload s) (streamIn_valid s) (streamIn_last s) (done_cdc s).
Definition set_dbgif_go (v : bool) (s : State) : State :=
  mkState (fsm s) (running s) (connected s) (rxBlock s) (rxLen s) (rxedLen s) (txBlock s) (txLen s) (txedLen s) (busy s) (txb s) (bitcount s) (tmsValue s) (tdoCapture s) (tdiData s) (tdoCount s) (seqCount s) (tckCycles s) (bytebits s) (dapIndex s) (transferCount s) (mask s) (retries s) (matchretries s) (tfrReq s) (tfrData s) (ndev s) (irlength s) (waitRetry s) (matchRetry s) (dbgif_command s) (dbgif_apndp s) (dbgif_rnw s) (dbgif_addr32 s) (dbgif_dwrite s) v (dbgif_countdown s) (dbgif_pinsin s) (tfrram_adr s) (tfrram_mem s) (tfrram_dat_r s) (streamIn_payload s) (streamIn_valid s) (streamIn_last s) (done_cdc s).
Definition set_dbgif_countdown (v : Z) (s : State) : State :=
  mkState (fsm s) (running s) (connected s) (rxBlock s) (rxLen s) (rxedLen s) (txBlock s) (txLen s) (txedLen s) (busy s) (txb s) (bitcount s) (tmsValue s) (tdoCapture s) (tdiData s) (tdoCount s) (seqCount s) (tckCycles s) (bytebits s) (dapIndex s) (transferCount s) (mask s) (retries s) (matchretries s) (tfrReq s) (tfrData s) (ndev s) (irlength s) (waitRetry s) (matchRetry s) (dbgif_command s) (dbgif_apndp s) (dbgif_rnw s) (dbgif_addr32 s) (dbgif_dwrite s) (dbgif_go s) v (dbgif_pinsin s) (tfrram_adr s) (tfrram_mem s) (tfrram_dat_r s) (streamIn_payload s) (streamIn_valid s) (streamIn_last s) (done_cdc s).
Definition set_dbgif_pinsin (v : Z) (s : State) : State :=
  mkState (fsm s) (running s) (connected s) (rxBlock s) (rxLen s) (rxedLen s) (txBlock s) (txLen s) (txedLen s) (busy s) (txb s) (bitcount s) (tmsValue s) (tdoCapture s) (tdiData s) (tdoCount s) (seqCount s) (tckCycles s) (bytebits s) (dapIndex s) (transferCount s) (mask s) (retries s) (matchretries s) (tfrReq s) (tfrData s) (ndev s) (irlength s) (waitRetry s) (matchRetry s) (dbgif_command s) (dbgif_apndp s) (dbgif_rnw s) (dbgif_addr32 s) (dbgif_dwrite s) (dbgif_go s) (dbgif_countdown s) v (tfrram_adr s) (tfrram_mem s) (tfrram_dat_r s) (streamIn_payload s) (streamIn_valid s) (streamIn_last s) (done_cdc s).
Definition set_tfrram_adr (v : Z) (s : State) : State :=
  mkState (fsm s) (running s) (connected s) (rxBlock s) (rxLen s) (rxedLen s) (txBlock s) (txLen s) (txedLen s) (busy s) (txb s) (bitcount s) (tmsValue s) (tdoCapture s) (tdiData s) (tdoCount s) (seqCount s) (tckCycles s) (bytebits s) (dapIndex s) (transferCount s) (mask s) (retries s) (matchretries s) (tfrReq s) (tfrData s) (ndev s) (irlength s) (waitRetry s) (matchRetry s) (dbgif_command s) (dbgif_apndp s) (dbgif_rnw s) (dbgif_addr32 s) (dbgif_dwrite s) (dbgif_go s) (dbgif_countdown s) (dbgif_pinsin s) v (tfrram_mem s) (tfrram_dat_r s) (streamIn_payload s) (streamIn_valid s) (streamIn_last s) (done_cdc s).
Definition set_tfrram_mem (v : Z -> Z) (s : State) : State :=
  mkState (fsm s) (running s) (connected s) (rxBlock s) (rxLen s) (rxedLen s) (txBlock s) (txLen s) (txedLen s) (busy s) (txb s) (bitcount s) (tmsValue s) (tdoCapture s) (tdiData s) (tdoCount s) (seqCount s) (tckCycles s) (bytebits s) (dapIndex s) (transferCount s) (mask s) (retries s) (matchretries s) (tfrReq s) (tfrData s) (ndev s) (irlength s) (waitRetry s) (matchRetry s) (dbgif_command s) (dbgif_apndp s) (dbgif_rnw s) (dbgif_addr32 s) (dbgif_dwrite s) (dbgif_go s) (dbgif_countdown s) (dbgif_pinsin s) (tfrram_adr s) v (tfrram_dat_r s) (streamIn_payload s) (streamIn_valid s) (streamIn_last s) (done_cdc s).
Definition set_tfrram_dat_r (v : Z) (s : State) : State :=
  mkState (fsm s) (running s) (connected s) (rxBlock s) (rxLen s) (rxedLen s) (txBlock s) (txLen s) (txedLen s) (busy s) (txb s) (bitcount s) (tmsValue s) (tdoCapture s) (tdiData s) (tdoCount s) (seqCount s) (tckCycles s) (bytebits s) (dapIndex s) (transferCount s) (mask s) (retries s) (matchretries s) (tfrReq s) (tfrData s) (ndev s) (irlength s) (waitRetry s) (matchRetry s) (dbgif_command s) (dbgif_apndp s) (dbgif_rnw s) (dbgif_addr32 s) (dbgif_dwrite s) (dbgif_go s) (dbgif_countdown s) (dbgif_pinsin s) (tfrram_adr s) (tfrram_mem s) v (streamIn_payload s) (streamIn_valid s) (streamIn_last s) (done_cdc s).
Definition set_streamIn_payload (v : Z) (s : State) : State :=
  mkState (fsm s) (running s) (connected s) (rxBlock s) (rxLen s) (rxedLen s) (txBlock s) (txLen s) (txedLen s) (busy s) (txb s) (bitcount s) (tmsValue s) (tdoCapture s) (tdiData s) (tdoCount s) (seqCount s) (tckCycles s) (bytebits s) (dapIndex s) (transferCount s) (mask s) (retries s) (matchretries s) (tfrReq s) (tfrData s) (ndev s) (irlength s) (waitRetry s) (matchRetry s) (dbgif_command s) (dbgif_apndp s) (dbgif_rnw s) (dbgif_addr32 s) (dbgif_dwrite s) (dbgif_go s) (dbgif_countdown s) (dbgif_pinsin s) (tfrram_adr s) (tfrram_mem s) (tfrram_dat_r s) v (streamIn_valid s) (streamIn_last s) (done_cdc s).
Definition set_streamIn_valid (v : bool) (s : State) : State :=
  mkState (fsm s) (running s) (connected s) (rxBlock s) (rxLen s) (rxedLen s) (txBlock s) (txLen s) (txedLen s) (busy s) (txb s) (bitcount s) (tmsValue s) (tdoCapture s) (tdiData s) (tdoCount s) (seqCount s) (tckCycles s) (bytebits s) (dapIndex s) (transferCount s) (mask s) (retries s) (matchretries s) (tfrReq s) (tfrData s) (ndev s) (irlength s) (waitRetry s) (matchRetry s) (dbgif_command s) (dbgif_apndp s) (dbgif_rnw s) (dbgif_addr32 s) (dbgif_dwrite s) (dbgif_go s) (dbgif_countdown s) (dbgif_pinsin s) (tfrram_adr s) (tfrram_mem s) (tfrram_dat_r s) (streamIn_payload s) v (streamIn_last s) (done_cdc s).
Definition set_streamIn_last (v : bool) (s : State) : State :=
  mkState (fsm s) (running s) (connected s) (rxBlock s) (rxLen s) (rxedLen s) (txBlock s) (txLen s) (txedLen s) (busy s) (txb s) (bitcount s) (tmsValue s) (tdoCapture s) (tdiData s) (tdoCount s) (seqCount s) (tckCycles s) (bytebits s) (dapIndex s) (transferCount s) (mask s) (retries s) (matchretries s) (tfrReq s) (tfrData s) (ndev s) (irlength s) (waitRetry s) (matchRetry s) (dbgif_command s) (dbgif_apndp s) (dbgif_rnw s) (dbgif_addr32 s) (dbgif_dwrite s) (dbgif_go s) (dbgif_countdown s) (dbgif_pinsin s) (tfrram_adr s) (tfrram_mem s) (tfrram_dat_r s) (streamIn_payload s) (streamIn_valid s) v (done_cdc s).
Definition set_done_cdc (v : Z) (s : State) : State :=
  mkState (fsm s) (running s) (connected s) (rxBlock s) (rxLen s) (rxedLen s) (txBlock s) (txLen s) (txedLen s) (busy s) (txb s) (bitcount s) (tmsValue s) (tdoCapture s) (tdiData s) (tdoCount s) (seqCount s) (tckCycles s) (bytebits s) (dapIndex s) (transferCount s) (mask s) (retries s) (matchretries s) (tfrReq s) (tfrData s) (ndev s) (irlength s) (waitRetry s) (matchRetry s) (dbgif_command s) (dbgif_apndp s) (dbgif_rnw s) (dbgif_addr32 s) (dbgif_dwrite s) (dbgif_go s) (dbgif_countdown s) (dbgif_pinsin s) (tfrram_adr s) (tfrram_mem s) (tfrram_dat_r s) (streamIn_payload s) (streamIn_valid s) (streamIn_last s) v.

(** ** Statements

    A statement acts on the accumulator of next-state values, which starts
    as the current registers (a register that is not assigned keeps its
    value).  [a ;; b] runs [a] then [b], so a later assignment overrides an
    earlier one, signal by signal and, for slices, bit by bit. *)

Definition Stmt : Type := State -> State.
Definition skip : Stmt := fun n => n.
Definition andthen (a b : Stmt) : Stmt := fun n => b (a n).
Infix ";;" := andthen (at level 61, right associativity).

(** Slice assignments; the result is cut to the width of the signal, so an
    assignment through an index that points outside the signal is lost. *)
Definition txBlock_bits (lo w x : Z) : Stmt :=
  fun n => set_txBlock (trunc 112 (set_bits (txBlock n) lo w x)) n.
Definition rxBlock_bits (lo w x : Z) : Stmt :=
  fun n => set_rxBlock (trunc 56 (set_bits (rxBlock n) lo w x)) n.
Definition tfrData_bits (lo w x : Z) : Stmt :=
  fun n => set_tfrData (trunc 32 (set_bits (tfrData n) lo w x)) n.
Definition pinsin_bits (lo w x : Z) : Stmt :=
  fun n => set_dbgif_pinsin (trunc 16 (set_bits (dbgif_pinsin n) lo w x)) n.

(** Input signals at their widths. *)
Definition payload (i : Input) : Z := trunc 8 (streamOut_payload i).
Definition ack (i : Input) : Z := trunc 3 (dbgif_ack i).
Definition dread (i : Input) : Z := trunc 32 (dbgif_dread i).

(** Combinational signals of [elaborate]. *)
Definition streamOut_ready (s : State) : bool := negb (busy s).
Definition dbg_done (s : State) : bool := done_cdc s =? 3.
Definition tfrram_we (s : State) : bool := done_cdc s =? 2.

(** ** Handlers *)

Definition RESP_Invalid : Stmt :=
  txBlock_bits 0 8 (val (C DAP_Invalid 8)) ;; set_txLen 1 ;; set_busy true ;;
  set_fsm RESPOND.

Definition RESP_Info (i : Input) (s : State) : Stmt :=
  set_fsm RESPOND ;;
  let id := word8 (rxBlock s) 1 in
  if one_of id [0x01; 0x02; 0x03; 0x05; 0x06] then
    set_txLen 2 ;; txBlock_bits 8 8 (val (Cat [C 0 8]))
  else if id =? 0x04 then
    set_txLen 7 ;; txBlock_bits 8 48 (val (Cat [C 5 8; DAP_VERSION_STRING]))
  else if id =? 0xF0 then
    set_txLen 3 ;; txBlock_bits 8 16 (val (Cat [C 1 8; C DAP_CAPABILITIES 8]))
  else if id =? 0xF1 then
    set_txLen 6 ;; txBlock_bits 8 48 (val (Cat [C 8 8; C DAP_TD_TIMER_FREQ 32]))
  else if id =? 0xFD then
    set_txLen 6 ;; txBlock_bits 8 40 (val (Cat [C 4 8; C DAP_TB_SIZE 32]))
  else if id =? 0xFE then
    set_txLen 6 ;; txBlock_bits 8 16 (val (Cat [C 1 8; C DAP_MAX_PACKET_COUNT 8]))
  else if id =? 0xFF then
    if isV2 i then
      set_txLen 6 ;; txBlock_bits 8 24 (val (Cat [C 2 8; C DAP_V2_MAX_PACKET_SIZE 16]))
    else
      set_txLen 6 ;; txBlock_bits 8 24 (val (Cat [C 2 8; C DAP_V1_MAX_PACKET_SIZE 16]))
  else RESP_Invalid.

Definition RESP_HostStatus (s : State) : Stmt :=
  set_fsm RESPOND ;;
  let ty := word8 (rxBlock s) 1 in
  if ty =? 0x00 then set_connected (word8 (rxBlock s) 2 =? 1)
  else if ty =? 0x01 then set_running (word8 (rxBlock s) 2 =? 1)
  else RESP_Invalid.

Definition RESP_Connect_Setup (s : State) : Stmt :=
  RESP_Invalid ;;
  (if nonzero (Z.land DAP_CAPABILITIES (Z.shiftl 1 0)) then
     if ((word8 (rxBlock s) 1 =? 0) && (DAP_CONNECT_DEFAULT =? 1))
        || (word8 (rxBlock s) 1 =? 1)
     then
       txBlock_bits 0 16 (val (Cat [sig (word8 (rxBlock s) 0) 8; C 1 8])) ;;
       set_dbgif_command CMD_SET_SWD ;;
       set_txLen 2 ;;
       set_dbgif_go true ;;
       set_fsm DAP_Wait_Connect_Done
     else skip
   else skip) ;;
  (if nonzero (Z.land DAP_CAPABILITIES (Z.shiftl 1 1)) then
     if ((word8 (rxBlock s) 1 =? 0) && (DAP_CONNECT_DEFAULT =? 2))
        || (word8 (rxBlock s) 1 =? 2)
     then
       txBlock_bits 0 16 (val (Cat [sig (word8 (rxBlock s) 0) 8; C 2 8])) ;;
       set_dbgif_command CMD_SET_JTAG ;;
       set_txLen 2 ;;
       set_dbgif_go true ;;
       set_fsm DAP_Wait_Connect_Done
     else skip
   else skip).

Definition RESP_Wait_Connect_Done (s : State) : Stmt :=
  (if dbgif_go s && negb (dbg_done s) then set_dbgif_go false else skip) ;;
  (if negb (dbgif_go s) && dbg_done s then set_fsm RESPOND else skip).

Definition RESP_Wait_Done (i : Input) (s : State) : Stmt :=
  (if dbgif_go s && negb (dbg_done s) then set_dbgif_go false else skip) ;;
  (if negb (dbgif_go s) && dbg_done s then
     txBlock_bits 8 1 (b2z (dbgif_perr i)) ;; set_fsm RESPOND
   else skip).

Definition RESP_Disconnect : Stmt :=
  set_running false ;; set_connected false ;; set_fsm RESPOND.

Definition RESP_WriteABORT (s : State) : Stmt :=
  set_dbgif_command CMD_TRANSACT ;;
  set_dbgif_apndp false ;;
  set_dbgif_rnw false ;;
  set_dbgif_addr32 0 ;;
  set_dbgif_dwrite (bits (rxBlock s) 16 32) ;;
  set_dbgif_go true ;;
  set_fsm DAP_Wait_Done.

Definition RESP_Delay (s : State) : Stmt :=
  set_dbgif_dwrite (val (Cat [sig (bits (rxBlock s) 16 8) 8; sig (bits (rxBlock s) 8 8) 8])) ;;
  set_dbgif_command CMD_WAIT ;;
  set_dbgif_go true ;;
  set_fsm DAP_Wait_Done.

Definition RESP_ResetTarget : Stmt :=
  txBlock_bits 8 16 (val (Cat [C 0 8; C 0 7; C 1 1])) ;;
  set_txLen 3 ;;
  set_dbgif_command CMD_RESET ;;
  set_dbgif_go true ;;
  set_fsm DAP_Wait_Done.

Definition RESP_SWJ_Pins_Setup (s : State) : Stmt :=
  set_dbgif_dwrite (val (Cat [C 0 16; sig (bits (rxBlock s) 8 16) 16])) ;;
  set_dbgif_countdown (bits (txBlock s) 24 32) ;;
  set_fsm DAP_SWJ_Pins_PROCESS.

Definition RESP_SWJ_Pins_Process (i : Input) (s : State) : Stmt :=
  (if dbg_done s then
     txBlock_bits 8 8 (bits (dread i) 0 8) ;; set_txLen 2
   else skip) ;;
  set_fsm RESPOND.

Definition RESP_SWJ_Clock (s : State) : Stmt :=
  set_dbgif_dwrite (bits (rxBlock s) 8 32) ;;
  set_dbgif_command CMD_SET_CLK ;;
  set_dbgif_go true ;;
  set_fsm DAP_Wait_Done.

Definition RESP_SWJ_Sequence_Setup (s : State) : Stmt :=
  set_transferCount
    (Mux (bits (rxBlock s) 8 8)
         (val (Cat [sig (bits (rxBlock s) 8 8) 8; C 0 8])) (val (C 256 16))) ;;
  set_txb 0 ;;
  set_dbgif_dwrite 0 ;;
  set_dbgif_pinsin 0xFF10 ;;
  set_bitcount 0 ;;
  set_dbgif_command CMD_PINS_WRITE ;;
  set_fsm DAP_SWJ_Sequence_PROCESS.

Definition RESP_SWJ_Sequence_Process (i : Input) (s : State) : Stmt :=
  if txb s =? 0 then
    (* Grab next octet(s) from usb *)
    if streamOut_ready s then
      set_tfrData (payload i) ;; set_txb 1 ;; set_busy true
    else set_busy false
  else if txb s =? 1 then
    (* Write the data bit *)
    pinsin_bits 0 2 (val (Cat [C 0 1; sig (bits (tfrData s) 0 1) 1])) ;;
    set_tfrData (val (Cat [C 1 0; sig (bits (tfrData s) 1 7) 7])) ;;
    set_dbgif_go true ;;
    set_transferCount (trunc 16 (transferCount s - 1)) ;;
    set_bitcount (trunc 3 (bitcount s + 1)) ;;
    set_txb 2
  else if txb s =? 2 then
    (* Wait for bit to be accepted, then we can drop clk *)
    (if negb (dbg_done s) then set_dbgif_go false else skip) ;;
    (if negb (dbgif_go s) && dbg_done s then
       pinsin_bits 0 1 1 ;; set_dbgif_go true ;; set_txb 3
     else skip)
  else if txb s =? 3 then
    (* Now wait for clock to be complete, and move to next bit *)
    (if negb (dbg_done s) then set_dbgif_go false else skip) ;;
    (if negb (dbgif_go s) && dbg_done s then
       if nonzero (transferCount s) then set_txb (Mux (bitcount s) 1 0)
       else set_fsm DAP_Wait_Done
     else skip)
  else skip.

Definition RESP_SWD_Configure (s : State) : Stmt :=
  set_dbgif_dwrite (bits (rxBlock s) 8 8) ;;
  set_dbgif_command CMD_SET_CFG ;;
  set_dbgif_go true ;;
  set_fsm DAP_Wait_Done.

Definition RESP_SWO_Transport (s : State) : Stmt :=
  (if word8 (rxBlock s) 1 >? 2 then txBlock_bits 8 8 (val (C 0xff 8)) else skip) ;;
  set_fsm RESPOND.

Definition RESP_SWO_Mode (s : State) : Stmt :=
  (if word8 (rxBlock s) 1 >? 2 then txBlock_bits 8 8 (val (C 0xff 8)) else skip) ;;
  set_fsm RESPOND.

Definition RESP_SWO_Baudrate (s : State) : Stmt :=
  set_txBlock (trunc 112 (rxBlock s)) ;;
  set_txLen 5 ;;
  set_fsm RESPOND.

Definition RESP_SWO_Control (s : State) : Stmt :=
  (if word8 (rxBlock s) 1 >? 1 then txBlock_bits 8 8 (val (C 0xff 8)) else skip) ;;
  set_fsm RESPOND.

Definition RESP_SWO_Status : Stmt :=
  txBlock_bits 8 40 (val (Cat [C 0 8; C 0x11223344 32])) ;;
  set_txLen 6 ;;
  set_fsm RESPOND.

Definition RESP_SWO_ExtendedStatus (s : State) : Stmt :=
  if nonzero (Z.land (word8 (rxBlock s) 1) 0xf8) then RESP_Invalid
  else
    txBlock_bits 8 104
      (val (Cat [C 0 8; C 0x11223344 32; C 0x55667788 32; C 0x99aabbcc 32])) ;;
    set_txLen 14 ;;
    set_fsm RESPOND.

Definition RESP_SWO_Data_Setup (s : State) : Stmt :=
  let maxSWObytes := bits (rxBlock s) 8 16 in
  set_txLen (Mux (b2z (maxSWObytes <? 100)) maxSWObytes 100) ;;
  set_txb 0 ;;
  set_fsm DAP_SWO_Data_PROCESS.

Definition RESP_SWO_Data_Process (i : Input) (s : State) : Stmt :=
  if streamIn_ready i then
    set_streamIn_last false ;;
    (if txb s =? 0 then        (* Response header *)
       set_streamIn_payload DAP_SWO_Data ;; set_txb 1
     else if txb s =? 1 then   (* Trace status *)
       set_streamIn_payload 0 ;; set_txb 2
     else if txb s =? 2 then   (* Count H *)
       set_streamIn_payload (word8 (txLen s) 0) ;; set_txb 3
     else if txb s =? 3 then   (* Count L *)
       set_streamIn_payload (word8 (txLen s) 1) ;;
       set_txb (Mux (txLen s) 4 5) ;;
       (if txLen s =? 0 then set_streamIn_last true else skip)
     else if txb s =? 4 then   (* Data to be sent *)
       set_streamIn_payload 42 ;;
       set_txLen (trunc 16 (txLen s - 1)) ;;
       (if txLen s =? 1 then set_streamIn_last true ;; set_txb 5 else skip)
     else if txb s =? 5 then
       set_fsm IDLE
     else skip) ;;
    (if negb (txb s =? 5) then set_streamIn_valid true else skip)
  else skip.

Definition RESP_JTAG_Configure (s : State) : Stmt :=
  set_irlength (word8 (rxBlock s) 2) ;;
  set_ndev (word8 (rxBlock s) 1) ;;
  set_fsm RESPOND.

Definition RESP_JTAG_IDCODE : Stmt :=
  txBlock_bits 16 32 0x44332211 ;;
  set_txLen 6 ;;
  set_fsm RESPOND.

Definition RESP_TransferConfigure (s : State) : Stmt :=
  set_waitRetry (bits (rxBlock s) 16 16) ;;
  set_matchRetry (bits (rxBlock s) 32 16) ;;
  (* Send idleCycles to layers below *)
  set_dbgif_dwrite (bits (rxBlock s) 8 8) ;;
  set_dbgif_command CMD_SET_TFR_CFG ;;
  set_dbgif_go true ;;
  set_fsm DAP_Wait_Done.

Definition RESP_Transfer_Setup (s : State) : Stmt :=
  set_dapIndex (bits (rxBlock s) 8 8) ;;
  set_transferCount (bits (rxBlock s) 16 8) ;;
  set_tfrram_adr 0 ;;
  set_busy true ;;
  set_txb 0 ;;
  (* Filter for case someone tries to send us no transfers to perform
     in which case we send back a good ack! *)
  (if nonzero (bits (rxBlock s) 16 8) then set_fsm DAP_Transfer_PROCESS
   else
     txBlock_bits 16 8 (val (C 1 8)) ;;
     set_busy false ;;
     set_txLen 3 ;;
     set_fsm RESPOND).

Definition RESP_Transfer_Process (i : Input) (s : State) : Stmt :=
  set_busy true ;;
  set_streamIn_last false ;;
  if txb s =? 0 then
    (* Get transfer request from stream *)
    if negb (streamOut_ready s) then set_busy false
    else
      set_tfrReq (payload i) ;;
      set_retries 0 ;;
      (* This is a good transaction from the stream, so record the fact it's in flow *)
      txBlock_bits 8 8 (word8 (txBlock s) 1 + 1) ;;
      (* So now go do the read or write as appropriate *)
      (if negb (Z.testbit (payload i) 1) || Z.testbit (payload i) 4 || Z.testbit (payload i) 5
       then set_txb 1                       (* Need to collect the value *)
       else set_txb 5 ;; set_busy true)    (* It's a read, no value to collect *)
  else if one_of (txb s) [1; 2; 3; 4] then
    (* Collect the 32 bit transfer Data to go with the command *)
    if streamOut_ready s then
      tfrData_bits (8 * (txb s - 1)) 8 (payload i) ;;
      set_txb (trunc 4 (txb s + 1)) ;;
      (if Z.testbit (tfrReq s) 5 && (txb s =? 5) then
         (* This is a match register write *)
         set_mask (val (Cat [sig (payload i) 8; sig (bits (tfrData s) 0 24) 24])) ;;
         set_txb 0
       else skip)
    else set_busy false
  else if txb s =? 5 then
    (* We have the command and any needed data, action it *)
    set_dbgif_command CMD_TRANSACT ;;
    set_dbgif_apndp (Z.testbit (tfrReq s) 0) ;;
    set_dbgif_rnw (Z.testbit (tfrReq s) 1) ;;
    set_dbgif_addr32 (bits (tfrReq s) 2 2) ;;
    set_dbgif_dwrite (tfrData s) ;;
    set_dbgif_go true ;;
    set_txb (trunc 4 (txb s + 1))
  else if txb s =? 6 then
    (* We sent a command, wait for it to start being executed *)
    if negb (dbg_done s) then set_dbgif_go false ;; set_txb 7 else skip
  else if txb s =? 7 then
    (* Wait for command to complete *)
    if dbg_done s then
      (* Write return value from this command into return frame *)
      txBlock_bits 16 8 (val (Cat [sig (ack i) 3; sig (b2z (dbgif_perr i)) 1])) ;;
      (* If we're to retry, then lets do it *)
      (if ack i =? 2 then
         set_retries (trunc 16 (retries s + 1)) ;;
         set_txb (Mux (b2z (retries s <? waitRetry s)) 5 8)
       else if Z.testbit (tfrReq s) 4 then
         (* This is a transfer match request *)
         if negb (Z.land (dread i) (mask s) =? tfrData s) && (matchretries s <? matchRetry s)
         then
           (* Not a match and we've run out of attempts, so set bit 4 *)
           txBlock_bits 21 1 1 ;;
           set_txb 8
         else set_txb 5
       else
         (* Check to see if this is a new post (i.e. data to be ignored), or data *)
         (if dbgif_again i || (negb (dbgif_ignoreData i) && dbgif_rnw s) then
            set_tfrram_adr (trunc 12 (tfrram_adr s + 1))
          else skip) ;;
         (* It it was a good transfer, then keep going if appropriate *)
         (if dbgif_again i then set_txb 5      (* Just repeat this send *)
          else
            set_transferCount (trunc 16 (transferCount s - 1)) ;;
            (if (ack i =? 1) && negb (dbgif_perr i) && (transferCount s >? 1) then set_txb 0
             else if dbgif_postedMode i then
               (* Debug interface is in posting mode, better do one final read *)
               set_tfrReq 0x0E ;;       (* Read RDBUFF *)
               set_retries 0 ;;
               set_txb 5
             else
               (* All data have been processed, now lets send them back *)
               set_transferCount (trunc 16 (tfrram_adr s + b2z (dbgif_rnw s))) ;;
               set_txb 8)))
    else skip
  else if one_of (txb s) [8; 9; 10] then
    (* Transfer completed, start sending data back *)
    set_tfrram_adr 0 ;;
    (if streamIn_ready i then
       set_streamIn_payload (word8 (txBlock s) (txb s - 8)) ;;
       set_streamIn_valid true ;;
       set_txb (trunc 4 (txb s + 1)) ;;
       (if (txb s =? 10) && (transferCount s =? 0) then
          set_streamIn_last true ;; set_busy false ;; set_fsm IDLE
        else skip)
     else skip)
  else if txb s =? 11 then
    (* Collect transfer value from RAM store *)
    set_transferCount (trunc 16 (transferCount s - 1)) ;;
    set_txb (trunc 4 (txb s + 1))
  else if one_of (txb s) [12; 13; 14; 15] then
    (* Send 32 bit value to usb *)
    if streamIn_ready i then
      set_streamIn_payload (word8 (tfrram_dat_r s) (txb s - 12)) ;;
      set_streamIn_valid true ;;
      set_txb (trunc 4 (txb s + 1)) ;;
      (if txb s =? 15 then
         if transferCount s =? 0 then
           set_streamIn_last true ;; set_busy false ;; set_fsm IDLE
         else
           set_tfrram_adr (trunc 12 (tfrram_adr s + 1)) ;; set_txb 11
       else skip)
    else skip
  else skip.

Definition RESP_TransferBlock_Setup (s : State) : Stmt :=
  set_tfrram_adr 0 ;;
  set_dbgif_command CMD_TRANSACT ;;
  set_retries 0 ;;
  (* DAP Index is 1 byte in *)
  set_dapIndex (bits (rxBlock s) 8 8) ;;
  (* Transfer count is 2 bytes in *)
  set_transferCount (bits (rxBlock s) 16 16) ;;
  (* Transfer Req is 4 bytes in *)
  set_dbgif_apndp (Z.testbit (rxBlock s) 32) ;;
  set_dbgif_rnw (Z.testbit (rxBlock s) 33) ;;
  set_dbgif_addr32 (bits (rxBlock s) 34 2) ;;
  (* Zero the number of responses sent back *)
  txBlock_bits 8 16 (val (C 0 16)) ;;
  (* Decide which state to jump to depending on if we have data;
     [tfrReq] has 8 bits, so its slice at bit 33 is empty and reads 0 *)
  set_txb (Mux (bits (trunc 8 (tfrReq s)) 33 1) 4 0) ;;
  (* ...and start the retries counter for this first entry *)
  set_retries 0 ;;
  (* Filter for case someone tries to send us no transfers to perform
     in which case we send back a good ack! *)
  (if nonzero (bits (rxBlock s) 16 16) then set_fsm DAP_TransferBlock_PROCESS
   else
     txBlock_bits 8 24 (val (C 1 24)) ;;
     set_txLen 4 ;;
     set_fsm RESPOND).

Definition RESP_TransferBlock_Process (i : Input) (s : State) : Stmt :=
  set_busy true ;;
  set_streamIn_last false ;;
  if one_of (txb s) [0; 1; 2; 3] then
    (* Collect the 32 bit transfer Data to go with the command *)
    if streamOut_ready s then
      tfrData_bits (8 * txb s) 8 (payload i) ;;
      set_txb (trunc 4 (txb s + 1))
    else set_busy false
  else if txb s =? 4 then
    (* We have the command and any needed data, action it *)
    txBlock_bits 8 16 (bits (txBlock s) 8 16 + 1) ;;
    set_dbgif_dwrite (tfrData s) ;;
    set_dbgif_go true ;;
    set_retries (trunc 16 (retries s + 1)) ;;
    set_txb 5
  else if txb s =? 5 then
    (* Wait for command to be accepted *)
    if negb (dbg_done s) then set_dbgif_go false ;; set_txb 6 else skip
  else if txb s =? 6 then
    (* We sent a command, wait for it to start being executed *)
    if dbg_done s then
      (* Write return value from this command into return frame *)
      txBlock_bits 24 8 (val (Cat [sig (ack i) 3; sig (b2z (dbgif_perr i)) 1])) ;;
      (* If we're to retry, then let's do it *)
      (if ack i =? 2 then set_txb (Mux (b2z (retries s <? waitRetry s)) 4 7)
       else
         (if negb (dbgif_ignoreData i) && dbgif_rnw s then
            (* If this is something that resulted in data, then store the data *)
            set_tfrram_adr (trunc 12 (tfrram_adr s + 1))
          else skip) ;;
         (if dbgif_again i then
            (* We need to repeat this request with the same parameters *)
            set_retries 0 ;; set_dbgif_go true ;; set_txb 5
          else
            (* Keep going if appropriate *)
            set_transferCount (trunc 16 (transferCount s - 1)) ;;
            (if (ack i =? 1) && negb (dbgif_perr i) && (transferCount s >? 1) then
               set_txb (Mux (b2z (dbgif_rnw s)) 4 0)
             else if dbgif_postedMode i then
               (* Debug interface is in posting mode, better do one more read *)
               txBlock_bits 8 16 (bits (txBlock s) 8 16 - 1) ;;
               set_dbgif_rnw true ;;      (* Read RDBUFF *)
               set_retries 0 ;;
               set_dbgif_apndp false ;;
               set_dbgif_addr32 3 ;;
               set_txb 4
             else
               (* Otherwise lets wrap up *)
               set_transferCount (trunc 16 (tfrram_adr s + b2z (dbgif_rnw s))) ;;
               set_tfrram_adr 0 ;;
               set_txb 7)))
    else skip
  else if one_of (txb s) [7; 8; 9; 10] then
    (* Transfer completed, start sending data back *)
    (if streamIn_ready i then
       set_streamIn_payload (word8 (txBlock s) (txb s - 7)) ;;
       set_streamIn_valid true ;;
       set_txb (trunc 4 (txb s + 1))
     else skip) ;;
    (* For the case that this was a write there are no data to send back *)
    (if (txb s =? 10) && negb (dbgif_rnw s) then
       set_streamIn_last true ;; set_fsm IDLE
     else skip)
  else if txb s =? 11 then
    (* Collect transfer value from RAM store *)
    set_transferCount (trunc 16 (transferCount s - 1)) ;;
    set_txb 12
  else if one_of (txb s) [12; 13; 14; 15] then
    (* Send 32 bit value to usb *)
    if streamIn_ready i then
      set_streamIn_payload (word8 (tfrram_dat_r s) (txb s - 12)) ;;
      set_streamIn_valid true ;;
      set_txb (trunc 4 (txb s + 1)) ;;
      (if txb s =? 15 then
         if transferCount s =? 0 then set_streamIn_last true ;; set_fsm IDLE
         else set_txb 11 ;; set_tfrram_adr (trunc 12 (tfrram_adr s + 1))
       else skip)
    else skip
  else skip.

Definition RESP_JTAG_Sequence_Setup (s : State) : Stmt :=
  (* Collect how many sequences we'll be processing, then move to get the first one *)
  set_seqCount (word8 (rxBlock s) 1) ;;
  set_tdoCount 16 ;;            (* TDI Data goes after packet ID and status *)
  txBlock_bits 16 96 0 ;;       (* Blank out any TDI storage *)
  set_txb 0 ;;
  set_fsm DAP_JTAG_Sequence_PROCESS.

Definition RESP_JTAG_Sequence_PROCESS (i : Input) (s : State) : Stmt :=
  set_busy true ;;
  (* If we're done then go home *)
  if seqCount s =? 0 then
    (* Packet response has been built in this state machine, so send it *)
    set_txLen (Z.shiftr (tdoCount s + 7) 3) ;;
    set_busy false ;;
    set_fsm RESPOND
  else if txb s =? 0 then
    (* Get info for this sequence *)
    set_busy false ;;
    (if streamOut_ready s then
       set_tckCycles (bits (payload i) 0 6) ;;
       set_tmsValue (Z.testbit (payload i) 6) ;;
       set_tdoCapture (Z.testbit (payload i) 7) ;;
       set_txb 1
     else skip) ;;
    (* Just in case a previous sequence had tdoCapture on, round up the bits *)
    set_tdoCount (trunc 7 (Z.land (tdoCount s + 7) 0x78))
  else if txb s =? 1 then
    (* Waiting for TDI byte to arrive *)
    set_busy false ;;
    (if streamOut_ready s then
       set_tdiData (payload i) ;;
       set_txb 2 ;;
       set_busy true ;;
       set_bytebits (Mux (b2z ((tckCycles s =? 0) || (tckCycles s >? 7))) 8 (tckCycles s))
     else skip)
  else if txb s =? 2 then
    (* Clocking out TDI and, perhaps, receiving TDO *)
    set_tckCycles (trunc 6 (tckCycles s - 1)) ;;
    set_bytebits (trunc 4 (bytebits s - 1)) ;;
    (* If this is the last bit of this byte, best go get another one *)
    (if bytebits s =? 1 then set_txb 1 else skip) ;;
    (* ...and if we've got anything to record *)
    (if tdoCapture s then
       set_tdoCount (trunc 7 (tdoCount s + 1)) ;;
       txBlock_bits (tdoCount s) 1 (b2z (bytebits s =? 1))
     else skip) ;;
    set_tdiData (Z.shiftr (tdiData s) 1) ;;
    (if tckCycles s =? 1 then
       (* This sequence is done, so move to next transmission *)
       set_seqCount (trunc 8 (seqCount s - 1)) ;;
       set_txb 0
     else skip)
  else skip.

(** ** [elaborate]: the decoder *)

Definition st_IDLE (i : Input) (s : State) : Stmt :=
  set_txedLen 0 ;; set_busy false ;;
  (* Only process if this is the start of a packet *)
  if streamOut_valid i && streamOut_first i then
    set_fsm ProtocolError ;;
    set_rxedLen 1 ;;
    rxBlock_bits 0 8 (payload i) ;;
    (* Default return is packet name followed by 0 (no error) *)
    txBlock_bits 0 16 (val (Cat [sig (payload i) 8; C 0 8])) ;;
    set_txLen 2 ;;
    let op := payload i in
    if one_of op [DAP_Disconnect; DAP_ResetTarget; DAP_SWO_Status; DAP_TransferAbort] then
      set_rxLen 1 ;; set_fsm RxParams
    else if one_of op [DAP_Info; DAP_Connect; DAP_SWD_Configure; DAP_SWO_Transport;
                       DAP_SWJ_Sequence; DAP_SWO_Mode; DAP_SWO_Control;
                       DAP_SWO_ExtendedStatus; DAP_JTAG_IDCODE; DAP_JTAG_Sequence] then
      set_rxLen 2 ;; (if negb (streamOut_last i) then set_fsm RxParams else skip)
    else if one_of op [DAP_HostStatus; DAP_SWO_Data; DAP_Delay; DAP_JTAG_Configure;
                       DAP_Transfer] then
      set_rxLen 3 ;; (if negb (streamOut_last i) then set_fsm RxParams else skip)
    else if one_of op [DAP_SWO_Baudrate; DAP_SWJ_Clock; DAP_TransferBlock] then
      set_rxLen 5 ;; (if negb (streamOut_last i) then set_fsm RxParams else skip)
    else if one_of op [DAP_WriteABORT; DAP_TransferConfigure] then
      set_rxLen 6 ;; (if negb (streamOut_last i) then set_fsm RxParams else skip)
    else if one_of op [DAP_SWJ_Pins] then
      set_rxLen 7 ;; (if negb (streamOut_last i) then set_fsm RxParams else skip)
    else if one_of op [DAP_SWD_Sequence] then
      (if negb (streamOut_last i) then set_fsm DAP_SWD_Sequence_GetCount else skip)
    else if one_of op [DAP_ExecuteCommands] then
      (if negb (streamOut_last i) then set_fsm DAP_ExecuteCommands_GetNum else skip)
    else if one_of op [DAP_QueueCommands] then
      (if negb (streamOut_last i) then set_fsm DAP_QueueCommands_GetNum else skip)
    else RESP_Invalid
  else skip.

Definition st_RESPOND (i : Input) (s : State) : Stmt :=
  if txedLen s <? txLen s then
    if streamIn_ready i then
      set_streamIn_payload (word8 (txBlock s) (txedLen s)) ;;
      set_txedLen (trunc 16 (txedLen s + 1)) ;;
      set_streamIn_last (txedLen s + 1 =? txLen s) ;;
      set_streamIn_valid true
    else skip
  else
    (* Everything is transmitted, return to idle condition *)
    set_streamIn_valid false ;;
    set_streamIn_last false ;;
    set_rxedLen 0 ;;
    set_busy false ;;
    set_fsm IDLE.

(** The action dispatcher of [RxParams]. *)
Definition dispatch (i : Input) (s : State) : Stmt :=
  let op := word8 (rxBlock s) 0 in
  if op =? DAP_Info then RESP_Info i s
  else if op =? DAP_HostStatus then RESP_HostStatus s
  else if op =? DAP_Connect then RESP_Connect_Setup s
  else if op =? DAP_Disconnect then RESP_Disconnect
  else if op =? DAP_WriteABORT then RESP_WriteABORT s
  else if op =? DAP_Delay then RESP_Delay s
  else if op =? DAP_ResetTarget then RESP_ResetTarget
  else if op =? DAP_SWJ_Pins then RESP_SWJ_Pins_Setup s
  else if op =? DAP_SWJ_Clock then RESP_SWJ_Clock s
  else if op =? DAP_SWJ_Sequence then RESP_SWJ_Sequence_Setup s
  else if op =? DAP_SWD_Configure then RESP_SWD_Configure s
  else if op =? DAP_SWO_Transport then RESP_SWO_Transport s
  else if op =? DAP_SWO_Mode then RESP_SWO_Mode s
  else if op =? DAP_SWO_Baudrate then RESP_SWO_Baudrate s
  else if op =? DAP_SWO_Control then RESP_SWO_Control s
  else if op =? DAP_SWO_Status then RESP_SWO_Status
  else if op =? DAP_SWO_ExtendedStatus then RESP_SWO_ExtendedStatus s
  else if op =? DAP_SWO_Data then RESP_SWO_Data_Setup s
  else if op =? DAP_JTAG_Sequence then RESP_JTAG_Sequence_Setup s
  else if op =? DAP_JTAG_Configure then RESP_JTAG_Configure s
  else if op =? DAP_JTAG_IDCODE then RESP_JTAG_IDCODE
  else if op =? DAP_TransferConfigure then RESP_TransferConfigure s
  else if op =? DAP_Transfer then RESP_Transfer_Setup s
  else if op =? DAP_TransferBlock then RESP_TransferBlock_Setup s
  else RESP_Invalid.

Definition st_RxParams (i : Input) (s : State) : Stmt :=
  (* If we've got everything for this packet then let's process it *)
  if rxedLen s =? rxLen s then dispatch i s
  (* Grab next byte in this packet *)
  else if streamOut_valid i then
    rxBlock_bits (8 * rxedLen s) 8 (payload i) ;;
    set_rxedLen (trunc 3 (rxedLen s + 1)) ;;
    (* Don't grab more data if we've got what we were commanded for *)
    (if rxedLen s + 1 =? rxLen s then set_busy true else skip) ;;
    (* Check to make sure this packet isn't foreshortened *)
    (if streamOut_last i then
       if negb (rxedLen s + 1 =? rxLen s) then RESP_Invalid else skip
     else skip)
  else skip.

Definition decoder (i : Input) (s : State) : Stmt :=
  match fsm s with
  | IDLE => st_IDLE i s
  | RESPOND => st_RESPOND i s
  | RxParams => st_RxParams i s
  | DAP_SWJ_Pins_PROCESS => RESP_SWJ_Pins_Process i s
  | DAP_SWO_Data_PROCESS => RESP_SWO_Data_Process i s
  | DAP_SWJ_Sequence_PROCESS => RESP_SWJ_Sequence_Process i s
  | DAP_JTAG_Sequence_PROCESS => RESP_JTAG_Sequence_PROCESS i s
  | DAP_Transfer_PROCESS => RESP_Transfer_Process i s
  | DAP_TransferBlock_PROCESS => RESP_TransferBlock_Process i s
  | DAP_SWD_Sequence_GetCount => RESP_Invalid
  | DAP_TransferBlock_state => RESP_Invalid
  | DAP_ExecuteCommands_GetNum => RESP_Invalid
  | DAP_QueueCommands_GetNum => RESP_Invalid
  | DAP_Wait_Done => RESP_Wait_Done i s
  | DAP_Wait_Connect_Done => RESP_Wait_Connect_Done s
  | Error => RESP_Invalid
  | ProtocolError => RESP_Invalid
  end.

(** The response RAM ([WideRam], 500 words): the write port takes
    [dbgif.dread] while a transfer handler is active and is enabled on the
    rising edge of the synchronised [done]; the read port is clocked and
    transparent.  Both ports share [adr]. *)
Definition tfrram_ports (i : Input) (s : State) : Stmt :=
  let dat_w :=
    match fsm s with
    | DAP_Transfer_PROCESS | DAP_TransferBlock_PROCESS => dread i
    | _ => 0
    end in
  let mem' := fun a =>
    if tfrram_we s && (tfrram_adr s <? DAP_V2_MAX_PACKET_SIZE) && (a =? tfrram_adr s)
    then dat_w else tfrram_mem s a in
  set_tfrram_mem mem' ;; set_tfrram_dat_r (mem' (tfrram_adr s)).

(** One tick of the [usb] clock. *)
Definition step (i : Input) (s : State) : State :=
  (set_streamIn_valid false ;;
   set_done_cdc (val (Cat [sig (bits (done_cdc s) 1 1) 1; sig (b2z (dbgif_done i)) 1])) ;;
   tfrram_ports i s ;;
   decoder i s) s.

(** ** Running the core

    The environment gives the input signals of every tick.  [run env t0 n s]
    is the state after [n] ticks that start at time [t0] in state [s];
    [emitted] lists the bytes the core presents on the outbound stream during
    those ticks, each with its [last] flag. *)

Fixpoint run (env : nat -> Input) (t0 n : nat) (s : State) : State :=
  match n with
  | O => s
  | S n' => run env (S t0) n' (step (env t0) s)
  end.

Definition out_byte (s : State) : list (Z * bool) :=
  if streamIn_valid s then [(streamIn_payload s, streamIn_last s)] else [].

Fixpoint emitted (env : nat -> Input) (t0 n : nat) (s : State) : list (Z * bool) :=
  match n with
  | O => []
  | S n' => out_byte (step (env t0) s) ++ emitted env (S t0) n' (step (env t0) s)
  end.

(** The number of ticks, among the [n] that start at [t0], in which the
    state satisfies [p]. *)
Fixpoint ticks_in (p : State -> bool) (env : nat -> Input) (t0 n : nat) (s : State) : nat :=
  match n with
  | O => O
  | S n' => (if p s then 1 else 0)%nat + ticks_in p env (S t0) n' (step (env t0) s)
  end.

(** A frame on the inbound stream: its bytes on consecutive ticks from time
    0, [first] with the first and [last] with the final one; the other
    signals, and everything after the frame, are those of [env]. *)
Definition with_byte (b : Z) (first last : bool) (i : Input) : Input :=
  mkInput b true first last (streamIn_ready i) (isV2 i) (dbgif_done i) (dbgif_ack i)
          (dbgif_perr i) (dbgif_dread i) (dbgif_again i) (dbgif_ignoreData i)
          (dbgif_postedMode i).

Definition feed (frame : list Z) (env : nat -> Input) : nat -> Input :=
  fun t =>
    match nth_error frame t with
    | Some b => with_byte b (Nat.eqb t 0) (Nat.eqb (S t) (length frame)) (env t)
    | None => env t
    end.

(** ** Vocabulary of the statements below *)

(** [exec env P t0 T s s' out]: the [T] ticks from time [t0] take [s] to
    [s'], present the bytes [out], and [P] holds of every state on the way,
    both ends included. *)
Definition exec (env : nat -> Input) (P : State -> Prop) (t0 T : nat)
           (s s' : State) (out : list (Z * bool)) : Prop :=
  run env t0 T s = s' /\ emitted env t0 T s = out /\
  forall t, (t <= T)%nat -> P (run env t0 t s).

Ltac unfold_handlers :=
  unfold st_IDLE, st_RESPOND, st_RxParams, dispatch,
    RESP_Info, RESP_HostStatus, RESP_Connect_Setup, RESP_Wait_Connect_Done,
    RESP_Wait_Done, RESP_Disconnect, RESP_WriteABORT, RESP_Delay, RESP_ResetTarget,
    RESP_SWJ_Pins_Setup, RESP_SWJ_Pins_Process, RESP_SWJ_Clock,
    RESP_SWJ_Sequence_Setup, RESP_SWJ_Sequence_Process, RESP_SWD_Configure,
    RESP_SWO_Transport, RESP_SWO_Mode, RESP_SWO_Baudrate, RESP_SWO_Control,
    RESP_SWO_Status, RESP_SWO_ExtendedStatus, RESP_SWO_Data_Setup,
    RESP_SWO_Data_Process, RESP_JTAG_Configure, RESP_JTAG_IDCODE,
    RESP_TransferConfigure, RESP_Transfer_Setup, RESP_Transfer_Process,
    RESP_TransferBlock_Setup, RESP_TransferBlock_Process,
    RESP_JTAG_Sequence_Setup, RESP_JTAG_Sequence_PROCESS, RESP_Invalid,
    Mux, andthen, skip.

Ltac split_ifs :=
  repeat match goal with
         | |- context [if ?c then _ else _] =>
             lazymatch c with
             | context [set_streamIn_valid] => fail
             | _ => destruct c eqn:?
             end
         end.

Ltac bool_hyps :=
  repeat match goal with
         | H : _ = true |- _ => first [apply Z.ltb_lt in H | clear H]
         | H : _ = false |- _ => first [apply Z.ltb_ge in H | clear H]
         end.

(** What a command leaves alone unless it is meant to change it: the
    request line to the debug interface and the two session flags. *)
Definition session (s : State) : bool * bool * bool :=
  (dbgif_go s, running s, connected s).

(** The outbound frame: buffer, declared length and cursor. *)
Definition tx_view (s : State) : Z * Z * Z := (txBlock s, txLen s, txedLen s).


(** The bytes [k], [k+1], ... ([m] of them) of the outbound buffer [tb] as
    the response streamer presents them for a declared length [n]. *)
Fixpoint frame_bytes (tb k : Z) (m : nat) (n : Z) : list (Z * bool) :=
  match m with
  | O => []
  | S m' => (word8 tb k, k + 1 =? n) :: frame_bytes tb (k + 1) m' n
  end.

(** The consumer of the outbound stream is ready again and again. *)
Definition consumer_fair (env : nat -> Input) : Prop :=
  forall t, exists d, streamIn_ready (env (t + d)%nat) = true.

(** The frame length the decoder expects for an opcode ([IDLE] sets [rxLen]
    from this table); [None] for the opcodes it gives no length: the three
    it routes to a stub state and every opcode outside the table. *)
Definition declared_len (op : Z) : option Z :=
  if one_of op [DAP_Disconnect; DAP_ResetTarget; DAP_SWO_Status; DAP_TransferAbort] then Some 1
  else if one_of op [DAP_Info; DAP_Connect; DAP_SWD_Configure; DAP_SWO_Transport;
                     DAP_SWJ_Sequence; DAP_SWO_Mode; DAP_SWO_Control;
                     DAP_SWO_ExtendedStatus; DAP_JTAG_IDCODE; DAP_JTAG_Sequence] then Some 2
  else if one_of op [DAP_HostStatus; DAP_SWO_Data; DAP_Delay; DAP_JTAG_Configure;
                     DAP_Transfer] then Some 3
  else if one_of op [DAP_SWO_Baudrate; DAP_SWJ_Clock; DAP_TransferBlock] then Some 5
  else if one_of op [DAP_WriteABORT; DAP_TransferConfigure] then Some 6
  else if one_of op [DAP_SWJ_Pins] then Some 7
  else None.

(** The states in which the core answers [RESP_Invalid] whatever arrives. *)
Definition invalid_stub (f : FsmState) : bool :=
  match f with
  | DAP_SWD_Sequence_GetCount | DAP_TransferBlock_state | DAP_ExecuteCommands_GetNum
  | DAP_QueueCommands_GetNum | Error | ProtocolError => true
  | _ => false
  end.

(** The outbound buffer as [IDLE] prepares it: opcode, then 0. *)
Definition tx_default (tb op : Z) : Z :=
  trunc 112 (set_bits tb 0 16 (val (Cat [sig op 8; C 0 8]))).

(** The outbound buffer after [RESP_Invalid]. *)
Definition tx_invalid (tb : Z) : Z :=
  trunc 112 (set_bits tb 0 8 (val (C DAP_Invalid 8))).

(** An environment for examples: nothing on the inbound stream, the
    consumer always ready, the debug interface idle ([done] high, ack OK). *)
Definition quiet : Input :=
  mkInput 0 false false false true false true 1 false 0 false false false.
Definition quiet_env : nat -> Input := fun _ => quiet.

(** What holds of the outbound cursor in every state the core can reach:
    it stays within the declared length, and it is 0 whenever the decoder is
    in a state other than [IDLE] and [RESPOND]. *)
Definition resp_inv (s : State) : Prop :=
  0 <= txedLen s <= txLen s /\ txLen s < 65536 /\ 0 <= tdoCount s < 128 /\
  match fsm s with IDLE | RESPOND => True | _ => txedLen s = 0 end.

(** A debug interface for examples: [done] is low one tick in four, which
    the core, sampling it only in its wait states, sees as an engine that
    accepts and completes every request within a few ticks; it answers with
    the ack [ackv] and the read data [dreadv].  The consumer is always
    ready; [line t] is what the payload lines of the inbound stream carry. *)
Definition engine (ackv dreadv : Z) (line : nat -> Z) : nat -> Input :=
  fun t => mkInput (line t) false false false true false
                   (negb (Nat.eqb (t mod 4) 0)) ackv false dreadv false false false.

(** A debug interface that is busy throughout ([done] low), with [dreadv] on
    its read-back lines. *)
Definition engine_busy (dreadv : Z) : nat -> Input :=
  fun _ => mkInput 0 false false false true false false 1 false dreadv false false false.

(** The transfer handler puts a transaction to the debug interface (state 5
    of DAP_Transfer: registers loaded, [go] raised). *)
Definition issuing (s : State) : bool :=
  match fsm s with
  | DAP_Transfer_PROCESS => txb s =? 5
  | _ => false
  end.

(** The state after DAP_TransferConfigure with wait retry 0 and match retry
    3, run from reset against the example engine. *)
Definition configured_match3 : State :=
  run (feed [DAP_TransferConfigure; 0; 0; 0; 3; 0] (engine 1 0 (fun _ => 0))) 0 16
      reset_state.


(** The two-stage synchroniser of [done]: the newer sample enters at bit 1,
    the older one moves to bit 0. *)
Definition next_cdc (c : Z) (d : bool) : Z :=
  val (Cat [sig (bits c 1 1) 1; sig (b2z d) 1]).








(** ** Vocabulary of the further properties *)

(** What only the configuration commands may change: the retry ceilings,
    the registers of the debug interface other than [go], the session flags
    and the JTAG chain description. *)
Definition cfg_view (s : State)
  : Z * Z * Z * Z * bool * bool * Z * bool * bool * Z * Z :=
  (waitRetry s, matchRetry s, dbgif_command s, dbgif_dwrite s, dbgif_apndp s,
   dbgif_rnw s, dbgif_addr32 s, running s, connected s, ndev s, irlength s).


(** The command whose frame stands complete in [RxParams], if the decoder is
    about to dispatch. *)
Definition dispatching (s : State) : option Z :=
  match fsm s with
  | RxParams => if rxedLen s =? rxLen s then Some (word8 (rxBlock s) 0) else None
  | _ => None
  end.

(** The commands whose handler hands a request to the debug interface when
    it is dispatched. *)
Definition engine_ops : list Z :=
  [DAP_Connect; DAP_WriteABORT; DAP_Delay; DAP_ResetTarget; DAP_SWJ_Clock;
   DAP_SWD_Configure; DAP_TransferConfigure].

(** The states in which a tick may raise [go]: the dispatch of one of
    [engine_ops], and the three handlers that drive the debug interface
    themselves. *)
Definition may_raise_go (s : State) : bool :=
  match dispatching s with
  | Some op => one_of op engine_ops
  | None =>
      match fsm s with
      | DAP_SWJ_Sequence_PROCESS | DAP_Transfer_PROCESS | DAP_TransferBlock_PROCESS => true
      | _ => false
      end
  end.

(** The decoder is taking a frame in: idle, or in [RxParams] with bytes
    still to come. *)
Definition collecting (s : State) : bool :=
  match fsm s with
  | IDLE => true
  | RxParams => negb (rxedLen s =? rxLen s)
  | _ => false
  end.

(** A byte of a frame. *)
Definition byte (b : Z) : Prop := 0 <= b < 256.


Ltac dispatch_case :=
  match goal with
  | H : (word8 (rxBlock _) 0 =? _) = true |- _ =>
      apply Z.eqb_eq in H; rewrite H; reflexivity
  end.

Ltac dispatch_to H :=
  match goal with
  | E : fsm ?s = RxParams, R : rxedLen ?s = rxLen ?s, Hop : word8 (rxBlock ?s) 0 = _
    |- context [step ?i ?s] =>
      unfold step, decoder; rewrite E; unfold st_RxParams;
      assert (Hd : dispatch i s = H)
        by (unfold dispatch; rewrite Hop; reflexivity);
      rewrite R, Z.eqb_refl, Hd; clear Hd
  end.

Ltac frame_byte B k H :=
  pose proof (B k ltac:(simpl; lia)) as H; simpl in H.

(** The sub-IDs DAP_Info has a case for. *)
Definition info_ids : list Z :=
  [0x01; 0x02; 0x03; 0x05; 0x06; 0x04; 0xF0; 0xF1; 0xFD; 0xFE; 0xFF].

(** What the SWO data streamer works on, and what it must leave alone. *)
Definition swo_view (s : State)
  : FsmState * Z * Z * (Z * Z * Z * Z * bool * bool * Z * bool * bool * Z * Z) * bool :=
  (fsm s, txb s, txLen s, cfg_view s, dbgif_go s).

(** * [SWOManchPHY] (trace/swo.py)

    The Manchester decoder itself is an external instance; the Python module
    adds one register and one comparison.  The instance toggles [byteAvail]
    for every byte it has completed; [source.valid] is high in the ticks in
    which [byteAvail] differs from its value one tick earlier.  The stream has
    no back-pressure: [source.ready] is not read. *)

Record PhyIn := mkPhyIn {
  byteAvail : bool;      (* o_byteAvail of the instance *)
  completeByte : Z       (* o_completeByte, 8 bits *)
}.

(** [self.sync += byteavail_last.eq(byteavail)] *)
Definition phy_step (i : PhyIn) (byteavail_last : bool) : bool := byteAvail i.


Fixpoint phy_run (env : nat -> PhyIn) (t0 n : nat) (last : bool) : bool :=
  match n with
  | O => last
  | S n' => phy_run env (S t0) n' (phy_step (env t0) last)
  end.


(** * [Wrapper.get_instance] (nmigen_glue/wrapper.py)

    The connections are pairs of a migen signal and an nmigen signal;
    [nmigen_name_map] and [nmigen_dir_map] come from the Verilog back end and
    are taken as given.  A lookup of a signal that is not in a map raises
    [KeyError], a port name met twice fails the assertion.  The dict
    [connections] is an association list in insertion order. *)

From Stdlib Require String.


Section Wrapper.
Import Stdlib.Strings.String.
Local Open Scope string_scope.

Variables M N : Type.
Variable nmigen_name_map : N -> option (string * string).
Variable nmigen_dir_map : N -> option string.

(** [f'{direction}_{name}'], with the two subscripts it needs *)
Definition port_name (n : N) : option string :=
  match nmigen_name_map n with
  | None => None
  | Some (_, name) =>
      match nmigen_dir_map n with
      | None => None
      | Some direction => Some (direction ++ "_" ++ name)
      end
  end.


End Wrapper.

(** * Properties *)

(** ** Bit slices *)

Lemma trunc_range w v : 0 <= w -> 0 <= trunc w v < 2 ^ w.
Proof.
  intros Hw. unfold trunc. rewrite Z.land_ones by lia.
  apply Z.mod_pos_bound, Z.pow_pos_nonneg; lia.
Qed.

Lemma trunc_small w v : 0 <= v < 2 ^ w -> trunc w v = v.
Proof.
  intros Hv. unfold trunc. destruct (Z.ltb_spec w 0) as [Hw | Hw].
  - rewrite Z.pow_neg_r in Hv by lia. lia.
  - rewrite Z.land_ones by lia. apply Z.mod_small; lia.
Qed.

Lemma trunc_trunc w v : trunc w (trunc w v) = trunc w v.
Proof. unfold trunc. now rewrite <- Z.land_assoc, Z.land_diag. Qed.

Lemma bits_range v lo w : 0 <= w -> 0 <= bits v lo w < 2 ^ w.
Proof. intros; unfold bits; apply trunc_range; lia. Qed.

Lemma trunc16_range v : 0 <= trunc 16 v < 65536.
Proof. apply (trunc_range 16); lia. Qed.

Lemma trunc7_range v : 0 <= trunc 7 v < 128.
Proof. apply (trunc_range 7); lia. Qed.

Lemma bits16_range v lo : 0 <= bits v lo 16 < 65536.
Proof. apply (bits_range v lo 16); lia. Qed.

Lemma shiftr3_range v : 0 <= v < 128 -> 0 <= Z.shiftr (v + 7) 3 <= 16.
Proof.
  intros Hv. rewrite Z.shiftr_div_pow2 by lia. change (2 ^ 3) with 8. split.
  - apply Z.div_pos; lia.
  - enough ((v + 7) / 8 < 17) by lia. apply Z.div_lt_upper_bound; lia.
Qed.


(** Reading a slice that lies inside the slice just written. *)
Lemma bits_set_bits_inside v lo w x lo' w' :
  0 <= lo -> lo <= lo' -> 0 <= w' -> lo' + w' <= lo + w ->
  bits (set_bits v lo w x) lo' w' = bits x (lo' - lo) w'.
Proof. intros. unfold bits, set_bits, trunc. Z.bitblast. Qed.

(** Reading a slice that is disjoint from the slice just written. *)
Lemma bits_set_bits_outside v lo w x lo' w' :
  0 <= lo -> 0 <= lo' -> 0 <= w -> 0 <= w' -> lo' + w' <= lo \/ lo + w <= lo' ->
  bits (set_bits v lo w x) lo' w' = bits v lo' w'.
Proof. intros. unfold bits, set_bits, trunc. Z.bitblast. Qed.

Lemma bits_trunc W v lo w :
  0 <= lo -> 0 <= w -> lo + w <= W -> bits (trunc W v) lo w = bits v lo w.
Proof. intros. unfold bits, trunc. Z.bitblast. Qed.


(** Bytes of the two frame buffers after a slice assignment. *)
Lemma word8_tx_inside v lo w x k :
  0 <= lo -> lo <= 8 * k -> 8 * k + 8 <= lo + w -> lo + w <= 112 ->
  word8 (trunc 112 (set_bits v lo w x)) k = bits x (8 * k - lo) 8.
Proof.
  intros. unfold word8. rewrite bits_trunc by lia.
  apply bits_set_bits_inside; lia.
Qed.

Lemma word8_tx_outside v lo w x k :
  0 <= lo -> 0 <= w -> 0 <= k -> 8 * k + 8 <= lo \/ lo + w <= 8 * k ->
  word8 (trunc 112 (set_bits v lo w x)) k = word8 (trunc 112 v) k.
Proof.
  intros. unfold word8, bits, set_bits, trunc. Z.bitblast.
Qed.

Lemma word8_trunc W v k : 0 <= k -> 8 * k + 8 <= W -> word8 (trunc W v) k = word8 v k.
Proof. intros. unfold word8. apply bits_trunc; lia. Qed.


(** ** Executions *)

Lemma run_add env n m : forall t0 s,
  run env t0 (n + m) s = run env (t0 + n) m (run env t0 n s).
Proof.
  induction n as [|n IH]; intros t0 s; simpl.
  - now rewrite Nat.add_0_r.
  - rewrite IH. now rewrite Nat.add_succ_r.
Qed.

Lemma emitted_add env n m : forall t0 s,
  emitted env t0 (n + m) s = emitted env t0 n s ++ emitted env (t0 + n) m (run env t0 n s).
Proof.
  induction n as [|n IH]; intros t0 s; simpl.
  - now rewrite Nat.add_0_r.
  - rewrite IH, <- app_assoc. now rewrite Nat.add_succ_r.
Qed.


Lemma exec_nil env (P : State -> Prop) t0 s : P s -> exec env P t0 0 s s [].
Proof.
  intros HP. repeat split. intros t Ht. replace t with 0%nat by lia. exact HP.
Qed.

Lemma exec_step env (P : State -> Prop) t0 s :
  P s -> P (step (env t0) s) ->
  exec env P t0 1 s (step (env t0) s) (out_byte (step (env t0) s)).
Proof.
  intros H0 H1. repeat split.
  - simpl. now rewrite app_nil_r.
  - intros t Ht. destruct t as [|[|t]]; simpl; trivial. lia.
Qed.

Lemma exec_app env (P : State -> Prop) t0 T1 T2 s s1 s2 o1 o2 :
  exec env P t0 T1 s s1 o1 -> exec env P (t0 + T1) T2 s1 s2 o2 ->
  exec env P t0 (T1 + T2) s s2 (o1 ++ o2).
Proof.
  intros (R1 & E1 & A1) (R2 & E2 & A2). repeat split.
  - rewrite run_add, R1. exact R2.
  - rewrite emitted_add, E1, R1, E2. reflexivity.
  - intros t Ht. destruct (Nat.le_gt_cases t T1) as [Hle | Hgt].
    + now apply A1.
    + replace t with (T1 + (t - T1))%nat by lia.
      rewrite run_add, R1. apply A2. lia.
Qed.

Lemma exec_weaken env (P Q : State -> Prop) t0 T s s' o :
  (forall x, P x -> Q x) -> exec env P t0 T s s' o -> exec env Q t0 T s s' o.
Proof. intros HPQ (R & E & A). repeat split; auto. Qed.

(** ** Single ticks *)

Lemma step_RESPOND_send i s :
  fsm s = RESPOND -> 0 <= txedLen s < txLen s -> txLen s < 65536 ->
  streamIn_ready i = true ->
  fsm (step i s) = RESPOND /\
  tx_view (step i s) = (txBlock s, txLen s, txedLen s + 1) /\
  session (step i s) = session s /\
  out_byte (step i s) = [(word8 (txBlock s) (txedLen s), txedLen s + 1 =? txLen s)].
Proof.
  intros E Hlt Hmax Hr. unfold step, decoder. rewrite E. unfold_handlers.
  assert (Hc : (txedLen s <? txLen s) = true) by (apply Z.ltb_lt; lia).
  rewrite Hc, Hr. unfold session, tx_view, out_byte; simpl.
  rewrite trunc_small by lia. auto.
Qed.

Lemma step_RESPOND_stall i s :
  fsm s = RESPOND -> txedLen s < txLen s -> streamIn_ready i = false ->
  fsm (step i s) = RESPOND /\ tx_view (step i s) = tx_view s /\
  session (step i s) = session s /\ out_byte (step i s) = [].
Proof.
  intros E Hlt Hr. unfold step, decoder. rewrite E. unfold_handlers.
  apply Z.ltb_lt in Hlt. rewrite Hlt, Hr.
  unfold session, tx_view, out_byte; simpl. auto.
Qed.

Lemma step_RESPOND_done i s :
  fsm s = RESPOND -> txLen s <= txedLen s ->
  fsm (step i s) = IDLE /\ busy (step i s) = false /\
  session (step i s) = session s /\ out_byte (step i s) = [].
Proof.
  intros E Hge. unfold step, decoder. rewrite E. unfold_handlers.
  apply Z.ltb_ge in Hge. rewrite Hge.
  unfold session, out_byte; simpl. auto.
Qed.

(** ** The response streamer *)

(** While the consumer stalls, the streamer holds the frame. *)
Lemma respond_wait env d : forall t0 s,
  fsm s = RESPOND -> txedLen s < txLen s ->
  streamIn_ready (env (t0 + d)%nat) = true ->
  exists T s',
    exec env (fun x => session x = session s) t0 T s s' [] /\
    fsm s' = RESPOND /\ tx_view s' = tx_view s /\
    streamIn_ready (env (t0 + T)%nat) = true.
Proof.
  induction d as [|d IH]; intros t0 s E Hlt Hr.
  - exists 0%nat, s. split; [now apply exec_nil|]. auto.
  - destruct (streamIn_ready (env t0)) eqn:R0.
    + exists 0%nat, s. rewrite Nat.add_0_r. split; [now apply exec_nil|]. auto.
    + destruct (step_RESPOND_stall (env t0) s E Hlt R0) as (E1 & V1 & S1 & O1).
      assert (Hlt1 : txedLen (step (env t0) s) < txLen (step (env t0) s)).
      { unfold tx_view in V1. injection V1 as _ HL HE. lia. }
      destruct (IH (S t0) (step (env t0) s) E1 Hlt1) as (T & s' & X & E' & V' & R').
      { now rewrite Nat.add_succ_comm. }
      exists (1 + T)%nat, s'. split; [|split; [exact E'|split]].
      * change (@nil (Z * bool)) with (@nil (Z * bool) ++ []). 
        eapply exec_app.
        -- rewrite <- O1. apply exec_step; [reflexivity|exact S1].
        -- rewrite Nat.add_1_r. eapply exec_weaken; [|exact X].
           intros x Hx. now rewrite Hx.
      * now rewrite V'.
      * now rewrite <- Nat.add_succ_comm.
Qed.

(** From any point of a response, a fair consumer receives the rest of the
    frame, the final byte marked [last], and the core returns to [IDLE]
    with the inbound stream open. *)
Lemma respond_drain env :
  consumer_fair env ->
  forall m t0 s,
    fsm s = RESPOND -> 0 <= txedLen s -> txLen s < 65536 ->
    txLen s - txedLen s = Z.of_nat m ->
    exists T s',
      exec env (fun x => session x = session s) t0 T s s'
           (frame_bytes (txBlock s) (txedLen s) m (txLen s)) /\
      fsm s' = IDLE /\ busy s' = false.
Proof.
  intros Hfair. induction m as [|m IH]; intros t0 s E H0 Hmax Hm.
  - destruct (step_RESPOND_done (env t0) s E) as (E1 & B1 & S1 & O1); [lia|].
    exists 1%nat, (step (env t0) s). split; [|auto].
    simpl. rewrite <- O1. apply exec_step; [reflexivity|exact S1].
  - destruct (Hfair t0) as [d Hd].
    destruct (respond_wait env d t0 s E) as (T1 & s1 & X1 & E1 & V1 & R1); [lia|exact Hd|].
    unfold tx_view in V1. injection V1 as HB HL HE.
    destruct (step_RESPOND_send (env (t0 + T1)%nat) s1 E1) as (E2 & V2 & S2 & O2);
      [lia|lia|exact R1|].
    unfold tx_view in V2. injection V2 as HB2 HL2 HE2.
    destruct (IH (t0 + T1 + 1)%nat (step (env (t0 + T1)%nat) s1) E2) as (T3 & s3 & X3 & E3 & B3);
      [lia|lia|lia|].
    assert (Hs1 : session s1 = session s).
    { destruct X1 as (R & _ & A). rewrite <- R. apply A. lia. }
    exists (T1 + (1 + T3))%nat, s3. split; [|auto].
    change (frame_bytes (txBlock s) (txedLen s) (S m) (txLen s))
      with ([] ++ [(word8 (txBlock s) (txedLen s), txedLen s + 1 =? txLen s)]
               ++ frame_bytes (txBlock s) (txedLen s + 1) m (txLen s)).
    eapply exec_app; [exact X1|]. eapply exec_app.
    + rewrite <- HB, <- HL, <- HE, <- O2. apply exec_step; [exact Hs1|].
      now rewrite S2.
    + rewrite HB2, HL2, HE2, HB, HL, HE in X3.
      eapply exec_weaken; [|exact X3].
      intros x Hx. simpl in Hx. now rewrite Hx, S2.
Qed.

(** ** The frame decoder *)

Lemma word8_tx_default_0 tb op : word8 (tx_default tb op) 0 = trunc 8 op.
Proof. unfold tx_default, word8, bits, set_bits, val, Cat, sig, C, trunc; simpl. Z.bitblast. Qed.

Lemma word8_tx_default_1 tb op : word8 (tx_default tb op) 1 = 0.
Proof. unfold tx_default, word8, bits, set_bits, val, Cat, sig, C, trunc; simpl. Z.bitblast. Qed.

Lemma word8_tx_default_hi tb op k :
  2 <= k < 14 -> word8 (tx_default tb op) k = word8 tb k.
Proof.
  intros Hk. unfold tx_default. rewrite word8_tx_outside by lia.
  apply word8_trunc; lia.
Qed.

Lemma word8_tx_invalid_0 tb : word8 (tx_invalid tb) 0 = DAP_Invalid.
Proof.
  unfold tx_invalid, word8, bits, set_bits, val, C, trunc, fst.
  change DAP_Invalid with (Z.ones 8). Z.bitblast.
Qed.

(** The first byte of a packet whose opcode has a declared length, when the
    packet does not end there already (or is a one-byte command). *)
Lemma step_IDLE_accept i s L :
  fsm s = IDLE -> streamOut_valid i = true -> streamOut_first i = true ->
  declared_len (payload i) = Some L ->
  (streamOut_last i = true -> L = 1) ->
  fsm (step i s) = RxParams /\ rxLen (step i s) = L /\ rxedLen (step i s) = 1 /\
  rxBlock (step i s) = trunc 56 (set_bits (rxBlock s) 0 8 (payload i)) /\
  tx_view (step i s) = (tx_default (txBlock s) (payload i), 2, 0) /\
  session (step i s) = session s /\ out_byte (step i s) = [].
Proof.
  intros E Hv Hf HL Hlast. unfold step, decoder. rewrite E.
  unfold declared_len in HL. revert HL. unfold_handlers. rewrite Hv, Hf. simpl andb.
  unfold session, tx_view, out_byte, tx_default.
  destruct (streamOut_last i); simpl negb;
  split_ifs; simpl; intros HL; try discriminate; injection HL as <-;
    try (specialize (Hlast eq_refl); discriminate); auto 10.
Qed.

(** The first byte is also the last, and the opcode needs more. *)
Lemma step_IDLE_short i s L :
  fsm s = IDLE -> streamOut_valid i = true -> streamOut_first i = true ->
  declared_len (payload i) = Some L -> L <> 1 -> streamOut_last i = true ->
  fsm (step i s) = ProtocolError /\ txedLen (step i s) = 0 /\
  session (step i s) = session s /\ out_byte (step i s) = [].
Proof.
  intros E Hv Hf HL HL1 Hlast. unfold step, decoder. rewrite E.
  unfold declared_len in HL. revert HL. unfold_handlers. rewrite Hv, Hf, Hlast. simpl andb.
  unfold session, out_byte.
  split_ifs; simpl; intros HL; try discriminate; injection HL as <-;
    try congruence; auto.
Qed.

(** The first byte carries an opcode without a declared length. *)
Lemma step_IDLE_unknown i s :
  fsm s = IDLE -> streamOut_valid i = true -> streamOut_first i = true ->
  declared_len (payload i) = None ->
  txedLen (step i s) = 0 /\ session (step i s) = session s /\ out_byte (step i s) = [] /\
  (invalid_stub (fsm (step i s)) = true \/
   (fsm (step i s) = RESPOND /\ txLen (step i s) = 1 /\
    word8 (txBlock (step i s)) 0 = DAP_Invalid)).
Proof.
  intros E Hv Hf HL. unfold step, decoder. rewrite E.
  unfold declared_len in HL. revert HL. unfold_handlers. rewrite Hv, Hf. simpl andb.
  unfold session, out_byte.
  split_ifs; simpl; intros HL; try discriminate; repeat split; auto.
  right. repeat split.
  unfold txBlock_bits; simpl.
  match goal with |- word8 (trunc 112 (set_bits ?tb 0 8 _)) 0 = _ =>
    apply (word8_tx_invalid_0 tb) end.
Qed.

(** A stub state answers Invalid. *)
Lemma step_invalid_stub i s :
  invalid_stub (fsm s) = true ->
  fsm (step i s) = RESPOND /\
  tx_view (step i s) = (tx_invalid (txBlock s), 1, txedLen s) /\
  session (step i s) = session s /\ out_byte (step i s) = [].
Proof.
  intros E. unfold step, decoder, session, tx_view, out_byte, tx_invalid.
  destruct (fsm s); try discriminate; unfold_handlers; simpl; auto.
Qed.

(** [RxParams] takes the next byte of a frame that is not complete. *)
Lemma step_RxParams_collect i s :
  fsm s = RxParams -> 0 <= rxedLen s < 7 -> rxedLen s <> rxLen s ->
  streamOut_valid i = true ->
  (streamOut_last i = true -> rxedLen s + 1 = rxLen s) ->
  fsm (step i s) = RxParams /\ rxLen (step i s) = rxLen s /\
  rxedLen (step i s) = rxedLen s + 1 /\
  rxBlock (step i s) = trunc 56 (set_bits (rxBlock s) (8 * rxedLen s) 8 (payload i)) /\
  tx_view (step i s) = tx_view s /\
  session (step i s) = session s /\ out_byte (step i s) = [].
Proof.
  intros E Hr Hne Hv Hlast. unfold step, decoder. rewrite E. unfold_handlers.
  apply Z.eqb_neq in Hne. rewrite Hne, Hv.
  unfold session, tx_view, out_byte.
  assert (Ht : trunc 3 (rxedLen s + 1) = rxedLen s + 1) by (apply trunc_small; lia).
  destruct (streamOut_last i) eqn:Hl.
  - specialize (Hlast eq_refl). apply Z.eqb_eq in Hlast. rewrite Hlast. simpl.
    rewrite Ht. auto 10.
  - destruct (rxedLen s + 1 =? rxLen s); simpl; rewrite Ht; auto 10.
Qed.

(** [RxParams] meets the end of the packet before the declared length. *)
Lemma step_RxParams_short i s :
  fsm s = RxParams -> rxedLen s <> rxLen s -> rxedLen s + 1 <> rxLen s ->
  streamOut_valid i = true -> streamOut_last i = true ->
  fsm (step i s) = RESPOND /\
  tx_view (step i s) = (tx_invalid (txBlock s), 1, txedLen s) /\
  session (step i s) = session s /\ out_byte (step i s) = [].
Proof.
  intros E Hne Hne1 Hv Hlast. unfold step, decoder. rewrite E. unfold_handlers.
  apply Z.eqb_neq in Hne. apply Z.eqb_neq in Hne1. rewrite Hne, Hne1, Hv, Hlast.
  unfold session, tx_view, out_byte, tx_invalid. simpl. auto.
Qed.

Lemma declared_len_range op L : declared_len op = Some L -> 1 <= L <= 7.
Proof.
  unfold declared_len. split_ifs; intros H; try discriminate; injection H as <-; lia.
Qed.

Lemma feed_at frame env t b :
  nth_error frame t = Some b ->
  feed frame env t = with_byte b (Nat.eqb t 0) (Nat.eqb (S t) (length frame)) (env t).
Proof. intros H. unfold feed. now rewrite H. Qed.

Lemma with_byte_payload b f l i : payload (with_byte b f l i) = trunc 8 b.
Proof. reflexivity. Qed.

Lemma with_byte_valid b f l i : streamOut_valid (with_byte b f l i) = true.
Proof. reflexivity. Qed.

Lemma with_byte_first b f l i : streamOut_first (with_byte b f l i) = f.
Proof. reflexivity. Qed.

Lemma with_byte_last b f l i : streamOut_last (with_byte b f l i) = l.
Proof. reflexivity. Qed.

Lemma feed_ready frame env t : streamIn_ready (feed frame env t) = streamIn_ready (env t).
Proof. unfold feed. destruct (nth_error frame t); reflexivity. Qed.

Lemma feed_fair frame env : consumer_fair env -> consumer_fair (feed frame env).
Proof.
  intros H t. destruct (H t) as [d Hd]. exists d. now rewrite feed_ready.
Qed.

Lemma word8_rx_write rb j p k :
  0 <= j < 7 -> 0 <= k < 7 ->
  word8 (trunc 56 (set_bits rb (8 * j) 8 p)) k
  = if k =? j then trunc 8 p else word8 rb k.
Proof.
  intros Hj Hk. unfold word8. rewrite bits_trunc by lia.
  destruct (Z.eqb_spec k j) as [-> | Hne].
  - rewrite bits_set_bits_inside by lia. rewrite Z.sub_diag.
    unfold bits. now rewrite Z.shiftr_0_r.
  - apply bits_set_bits_outside; lia.
Qed.

(** [RxParams] collects the bytes [j], [j+1], ... of the frame, as long as
    the packet ends, if at all, exactly at the declared length. *)
Lemma rx_collect frame env L : forall n j s,
  fsm s = RxParams -> rxLen s = L -> rxedLen s = Z.of_nat j ->
  Z.of_nat (j + n) <= L <= 7 -> (j + n <= length frame)%nat ->
  (Z.of_nat (length frame) = L \/ (j + n < length frame)%nat) ->
  exists s',
    exec (feed frame env) (fun x => session x = session s) j n s s' [] /\
    fsm s' = RxParams /\ rxLen s' = L /\ rxedLen s' = Z.of_nat (j + n) /\
    tx_view s' = tx_view s /\
    forall k, (k < j + n)%nat ->
      word8 (rxBlock s') (Z.of_nat k)
      = if (k <? j)%nat then word8 (rxBlock s) (Z.of_nat k) else trunc 8 (nth k frame 0).
Proof.
  induction n as [|n IH]; intros j s E HL Hj Hle Hlen Hend.
  - exists s. rewrite Nat.add_0_r in *. split; [now apply exec_nil|].
    repeat split; auto. intros k Hk. apply Nat.ltb_lt in Hk. now rewrite Hk.
  - destruct (nth_error frame j) as [b|] eqn:Hb.
    2:{ apply nth_error_None in Hb. lia. }
    pose proof (feed_at frame env j b Hb) as Hin.
    destruct (step_RxParams_collect (feed frame env j) s E) as (E1 & L1 & R1 & B1 & V1 & S1 & O1).
    + lia.
    + lia.
    + rewrite Hin. reflexivity.
    + rewrite Hin, with_byte_last. intros Hlast. apply Nat.eqb_eq in Hlast. lia.
    + destruct (IH (S j) (step (feed frame env j) s) E1) as (s' & X & E' & L' & R' & V' & B');
        try lia.
      exists s'. replace (j + S n)%nat with (S j + n)%nat by lia.
      split; [|repeat split; auto].
      * change (@nil (Z * bool)) with (@nil (Z * bool) ++ []).
        change (S n) with (1 + n)%nat. eapply exec_app.
        -- rewrite <- O1. apply exec_step; [reflexivity|exact S1].
        -- rewrite Nat.add_1_r. eapply exec_weaken; [|exact X].
           intros x Hx. now rewrite Hx.
      * now rewrite V'.
      * intros k Hk. rewrite (B' k Hk). rewrite B1, Hin.
        rewrite with_byte_payload.
        destruct (Nat.ltb_spec k (S j)) as [Hlt | Hge].
        -- rewrite Hj, word8_rx_write by lia.
           destruct (Nat.ltb_spec k j) as [Hlt' | Hge'].
           ++ destruct (Z.eqb_spec (Z.of_nat k) (Z.of_nat j)); [lia|reflexivity].
           ++ assert (k = j) by lia. subst k. rewrite Z.eqb_refl.
              now rewrite trunc_trunc, (nth_error_nth _ _ _ Hb).
        -- destruct (Nat.ltb_spec k j); [lia|reflexivity].
Qed.

(** A frame of exactly the declared length is collected into [rxBlock]
    without a byte sent and without touching the session; the decoder then
    stands in [RxParams], about to dispatch. *)
Lemma decode_frame env frame op L s :
  fsm s = IDLE -> nth_error frame 0 = Some op ->
  declared_len (trunc 8 op) = Some L -> Z.of_nat (length frame) = L ->
  exists s',
    exec (feed frame env) (fun x => session x = session s) 0 (length frame) s s' [] /\
    fsm s' = RxParams /\ rxedLen s' = rxLen s' /\
    tx_view s' = (tx_default (txBlock s) (trunc 8 op), 2, 0) /\
    forall k, (k < length frame)%nat ->
      word8 (rxBlock s') (Z.of_nat k) = trunc 8 (nth k frame 0).
Proof.
  intros E Hop HL Hlen.
  pose proof (declared_len_range _ _ HL) as HLr.
  pose proof (feed_at frame env 0 op Hop) as Hin.
  destruct (step_IDLE_accept (feed frame env 0) s L E) as (E1 & L1 & R1 & B1 & V1 & S1 & O1).
  - now rewrite Hin.
  - now rewrite Hin.
  - now rewrite Hin, with_byte_payload.
  - rewrite Hin, with_byte_last. intros Hl. apply Nat.eqb_eq in Hl. lia.
  - destruct (rx_collect frame env L (length frame - 1) 1 (step (feed frame env 0) s))
      as (s' & X & E' & L' & R' & V' & B'); auto; try lia.
    exists s'. split; [|repeat split].
    + change (@nil (Z * bool)) with (@nil (Z * bool) ++ []).
      replace (length frame) with (1 + (length frame - 1))%nat at 1 by lia.
      eapply exec_app.
      * rewrite <- O1. apply exec_step; [reflexivity|exact S1].
      * eapply exec_weaken; [|exact X]. intros x Hx. now rewrite Hx.
    + exact E'.
    + rewrite R', L'. lia.
    + rewrite V', V1, Hin, with_byte_payload. reflexivity.
    + intros k Hk. rewrite B' by lia. destruct k as [|k]; simpl Nat.ltb; cbv iota.
      * rewrite B1, Hin, with_byte_payload. change (Z.of_nat 0) with 0.
        change (set_bits (rxBlock s) 0 8) with (set_bits (rxBlock s) (8 * 0) 8).
        rewrite word8_rx_write by lia. simpl. rewrite trunc_trunc.
        destruct frame; [discriminate|]. simpl in Hop. now injection Hop as ->.
      * reflexivity.
Qed.

(** A packet that ends before the declared length leaves the decoder in
    [RESPOND] with the Invalid answer prepared. *)
Lemma truncated_frame env frame op L s :
  fsm s = IDLE -> nth_error frame 0 = Some op ->
  declared_len (trunc 8 op) = Some L -> Z.of_nat (length frame) < L ->
  exists T s',
    exec (feed frame env) (fun x => session x = session s) 0 T s s' [] /\
    fsm s' = RESPOND /\ txLen s' = 1 /\ txedLen s' = 0 /\
    word8 (txBlock s') 0 = DAP_Invalid.
Proof.
  intros E Hop HL Hlen.
  pose proof (declared_len_range _ _ HL) as HLr.
  pose proof (feed_at frame env 0 op Hop) as Hin.
  assert (Hpos : (0 < length frame)%nat).
  { destruct frame; [discriminate|simpl; lia]. }
  destruct (Nat.eq_dec (length frame) 1) as [H1 | H1].
  - (* the first byte is the last *)
    destruct (step_IDLE_short (feed frame env 0) s L E) as (E1 & T1 & S1 & O1).
    + now rewrite Hin.
    + now rewrite Hin.
    + now rewrite Hin, with_byte_payload.
    + lia.
    + rewrite Hin, with_byte_last. apply Nat.eqb_eq. lia.
    + destruct (step_invalid_stub (feed frame env 1) (step (feed frame env 0) s))
        as (E2 & V2 & S2 & O2); [now rewrite E1|].
      unfold tx_view in V2. injection V2 as HB HLn HE.
      exists 2%nat, (step (feed frame env 1) (step (feed frame env 0) s)).
      split; [|repeat split; auto].
      * change (@nil (Z * bool)) with (@nil (Z * bool) ++ []).
        change 2%nat with (1 + 1)%nat. eapply exec_app.
        -- rewrite <- O1. apply exec_step; [reflexivity|exact S1].
        -- rewrite <- O2. apply exec_step; [exact S1|]. now rewrite S2.
      * lia.
      * rewrite HB. apply word8_tx_invalid_0.
  - (* the packet ends inside RxParams *)
    destruct (step_IDLE_accept (feed frame env 0) s L E) as (E1 & L1 & R1 & B1 & V1 & S1 & O1).
    + now rewrite Hin.
    + now rewrite Hin.
    + now rewrite Hin, with_byte_payload.
    + rewrite Hin, with_byte_last. intros Hl. apply Nat.eqb_eq in Hl. lia.
    + destruct (rx_collect frame env L (length frame - 2) 1 (step (feed frame env 0) s))
        as (s2 & X & E2 & L2 & R2 & V2 & _); auto; try lia.
      replace (1 + (length frame - 2))%nat with (length frame - 1)%nat in * by lia.
      destruct (nth_error frame (length frame - 1)) as [b|] eqn:Hb.
      2:{ apply nth_error_None in Hb. lia. }
      pose proof (feed_at frame env _ b Hb) as Hin2.
      destruct (step_RxParams_short (feed frame env (length frame - 1)) s2 E2)
        as (E3 & V3 & S3 & O3).
      * lia.
      * lia.
      * now rewrite Hin2.
      * rewrite Hin2, with_byte_last. apply Nat.eqb_eq. lia.
      * unfold tx_view in V1, V2, V3. injection V1 as HB1 HL1 HE1.
        injection V3 as HB3 HL3 HE3. injection V2 as HB2 HL2 HE2.
        assert (Hs2 : session s2 = session (step (feed frame env 0) s)).
        { destruct X as (R & _ & A). rewrite <- R. apply A. lia. }
        exists (1 + ((length frame - 2) + 1))%nat,
               (step (feed frame env (length frame - 1)) s2).
        split; [|repeat split; auto].
        -- change (@nil (Z * bool)) with (@nil (Z * bool) ++ [] ++ []).
           eapply exec_app; [|eapply exec_app].
           ++ rewrite <- O1. apply exec_step; [reflexivity|exact S1].
           ++ eapply exec_weaken; [|exact X]. intros x Hx. now rewrite Hx.
           ++ replace (0 + 1 + (length frame - 2))%nat with (length frame - 1)%nat by lia.
              rewrite <- O3. apply exec_step.
              ** now rewrite Hs2.
              ** now rewrite S3, Hs2.
        -- lia.
        -- rewrite HB3. apply word8_tx_invalid_0.
Qed.

(** A packet whose opcode has no declared length does the same. *)
Lemma unknown_frame env frame op s :
  fsm s = IDLE -> nth_error frame 0 = Some op -> declared_len (trunc 8 op) = None ->
  exists T s',
    exec (feed frame env) (fun x => session x = session s) 0 T s s' [] /\
    fsm s' = RESPOND /\ txLen s' = 1 /\ txedLen s' = 0 /\
    word8 (txBlock s') 0 = DAP_Invalid.
Proof.
  intros E Hop HL.
  pose proof (feed_at frame env 0 op Hop) as Hin.
  destruct (step_IDLE_unknown (feed frame env 0) s E) as (T1 & S1 & O1 & [Hstub | (E1 & L1 & B1)]).
  - now rewrite Hin.
  - now rewrite Hin.
  - now rewrite Hin, with_byte_payload.
  - destruct (step_invalid_stub (feed frame env 1) (step (feed frame env 0) s) Hstub)
      as (E2 & V2 & S2 & O2).
    unfold tx_view in V2. injection V2 as HB HLn HE.
    exists 2%nat, (step (feed frame env 1) (step (feed frame env 0) s)).
    split; [|repeat split; auto].
    + change (@nil (Z * bool)) with (@nil (Z * bool) ++ []).
      change 2%nat with (1 + 1)%nat. eapply exec_app.
      * rewrite <- O1. apply exec_step; [reflexivity|exact S1].
      * rewrite <- O2. apply exec_step; [exact S1|]. now rewrite S2.
    + lia.
    + rewrite HB. apply word8_tx_invalid_0.
  - exists 1%nat, (step (feed frame env 0) s). split; [|repeat split; auto].
    rewrite <- O1. apply exec_step; [reflexivity|exact S1].
Qed.

Lemma quiet_env_fair : consumer_fair quiet_env.
Proof. intros t. exists 0%nat. reflexivity. Qed.


(** ** Framing errors *)

(** C3. A packet that is truncated (it ends before the declared frame
    length of its opcode) or whose opcode has no declared length is answered
    with the single byte 0xFF, marked [last]; the request line [go] of the
    debug interface keeps its value on every tick of the exchange; and after
    the response the core is in [IDLE] with [busy] low, that is, with the
    inbound stream open. *)
Theorem framing_error_answered_invalid env frame op s :
  fsm s = IDLE -> consumer_fair env -> nth_error frame 0 = Some op ->
  (declared_len (trunc 8 op) = None \/
   exists L, declared_len (trunc 8 op) = Some L /\ Z.of_nat (length frame) < L) ->
  exists T,
    emitted (feed frame env) 0 T s = [(DAP_Invalid, true)] /\
    fsm (run (feed frame env) 0 T s) = IDLE /\
    busy (run (feed frame env) 0 T s) = false /\
    forall t, (t <= T)%nat -> dbgif_go (run (feed frame env) 0 t s) = dbgif_go s.
Proof.
  intros E Hfair Hop Hbad.
  assert (Hresp : exists T s',
    exec (feed frame env) (fun x => session x = session s) 0 T s s' [] /\
    fsm s' = RESPOND /\ txLen s' = 1 /\ txedLen s' = 0 /\
    word8 (txBlock s') 0 = DAP_Invalid).
  { destruct Hbad as [Hnone | (L & HL & Hlen)].
    - now apply unknown_frame with (op := op).
    - now apply truncated_frame with (op := op) (L := L). }
  destruct Hresp as (T1 & s1 & X1 & E1 & L1 & D1 & B1).
  destruct (respond_drain (feed frame env) (feed_fair frame env Hfair) 1 T1 s1 E1)
    as (T2 & s2 & X2 & E2 & B2); try lia.
  assert (Hs1 : session s1 = session s).
  { destruct X1 as (R & _ & A). rewrite <- R. apply A. lia. }
  assert (X : exec (feed frame env) (fun x => session x = session s) 0 (T1 + T2) s s2
                   ([] ++ frame_bytes (txBlock s1) (txedLen s1) 1 (txLen s1))).
  { eapply exec_app; [exact X1|]. eapply exec_weaken; [|exact X2].
    intros x Hx. now rewrite Hx. }
  exists (T1 + T2)%nat. destruct X as (R & Em & A). repeat split.
  - rewrite Em. simpl. now rewrite D1, L1, B1.
  - now rewrite R.
  - now rewrite R.
  - intros t Ht. specialize (A t Ht). unfold session in A. congruence.
Qed.

Lemma framing_error_answered_invalid_witness :
  exists T,
    emitted (feed [DAP_SWJ_Pins; 1; 2] quiet_env) 0 T reset_state = [(DAP_Invalid, true)] /\
    fsm (run (feed [DAP_SWJ_Pins; 1; 2] quiet_env) 0 T reset_state) = IDLE /\
    busy (run (feed [DAP_SWJ_Pins; 1; 2] quiet_env) 0 T reset_state) = false /\
    forall t, (t <= T)%nat ->
      dbgif_go (run (feed [DAP_SWJ_Pins; 1; 2] quiet_env) 0 t reset_state)
      = dbgif_go reset_state.
Proof.
  apply (framing_error_answered_invalid quiet_env [DAP_SWJ_Pins; 1; 2] DAP_SWJ_Pins
           reset_state).
  - reflexivity.
  - exact quiet_env_fair.
  - reflexivity.
  - right. exists 7. split; [reflexivity | simpl; lia].
Defined.

(** ** Commands answered from the frame alone *)

Lemma bits16_bytes v lo :
  0 <= lo -> bits v lo 16 = Z.lor (bits v lo 8) (Z.shiftl (bits v (lo + 8) 8) 8).
Proof. intros. unfold bits, trunc. Z.bitblast. Qed.

Lemma step_dispatch_Disconnect i s :
  fsm s = RxParams -> rxedLen s = rxLen s -> word8 (rxBlock s) 0 = DAP_Disconnect ->
  fsm (step i s) = RESPOND /\ tx_view (step i s) = tx_view s /\
  session (step i s) = (dbgif_go s, false, false) /\ out_byte (step i s) = [].
Proof.
  intros E Hr Hop. unfold step, decoder. rewrite E. unfold st_RxParams, dispatch.
  rewrite Hr, Z.eqb_refl, Hop. unfold session, tx_view, out_byte. simpl. auto.
Qed.

Lemma step_dispatch_Info_FF i s :
  fsm s = RxParams -> rxedLen s = rxLen s -> word8 (rxBlock s) 0 = DAP_Info ->
  word8 (rxBlock s) 1 = 0xFF ->
  fsm (step i s) = RESPOND /\
  tx_view (step i s)
  = (trunc 112 (set_bits (txBlock s) 8 24
       (val (Cat [C 2 8; C (if isV2 i then DAP_V2_MAX_PACKET_SIZE
                            else DAP_V1_MAX_PACKET_SIZE) 16]))), 6, txedLen s) /\
  session (step i s) = session s /\ out_byte (step i s) = [].
Proof.
  intros E Hr Hop Hid. unfold step, decoder. rewrite E. unfold st_RxParams.
  assert (Hd : dispatch i s = RESP_Info i s)
    by (unfold dispatch; rewrite Hop; reflexivity).
  rewrite Hr, Z.eqb_refl, Hd. unfold RESP_Info. rewrite Hid.
  unfold session, tx_view, out_byte. destruct (isV2 i); simpl; auto.
Qed.

Lemma step_dispatch_JTAG_Sequence i s :
  fsm s = RxParams -> rxedLen s = rxLen s -> word8 (rxBlock s) 0 = DAP_JTAG_Sequence ->
  fsm (step i s) = DAP_JTAG_Sequence_PROCESS /\
  seqCount (step i s) = word8 (rxBlock s) 1 /\ tdoCount (step i s) = 16 /\
  tx_view (step i s) = (trunc 112 (set_bits (txBlock s) 16 96 0), txLen s, txedLen s) /\
  session (step i s) = session s /\ out_byte (step i s) = [].
Proof.
  intros E Hr Hop. unfold step, decoder. rewrite E. unfold st_RxParams, dispatch.
  rewrite Hr, Z.eqb_refl, Hop. unfold session, tx_view, out_byte. simpl. auto 10.
Qed.

Lemma step_JTAG_Sequence_finished i s :
  fsm s = DAP_JTAG_Sequence_PROCESS -> seqCount s = 0 ->
  fsm (step i s) = RESPOND /\
  tx_view (step i s) = (txBlock s, Z.shiftr (tdoCount s + 7) 3, txedLen s) /\
  session (step i s) = session s /\ out_byte (step i s) = [].
Proof.
  intros E Hc. unfold step, decoder. rewrite E. unfold RESP_JTAG_Sequence_PROCESS.
  rewrite Hc. unfold session, tx_view, out_byte. simpl. auto.
Qed.

Lemma step_dispatch_Transfer_none i s :
  fsm s = RxParams -> rxedLen s = rxLen s -> word8 (rxBlock s) 0 = DAP_Transfer ->
  word8 (rxBlock s) 2 = 0 ->
  fsm (step i s) = RESPOND /\
  tx_view (step i s) = (trunc 112 (set_bits (txBlock s) 16 8 (val (C 1 8))), 3, txedLen s) /\
  session (step i s) = session s /\ out_byte (step i s) = [].
Proof.
  intros E Hr Hop Hn. unfold step, decoder. rewrite E. unfold st_RxParams.
  assert (Hd : dispatch i s = RESP_Transfer_Setup s)
    by (unfold dispatch; rewrite Hop; reflexivity).
  rewrite Hr, Z.eqb_refl, Hd. unfold RESP_Transfer_Setup.
  change (bits (rxBlock s) 16 8) with (word8 (rxBlock s) 2). rewrite Hn.
  unfold session, tx_view, out_byte. simpl. auto.
Qed.

Lemma step_dispatch_TransferBlock_none i s :
  fsm s = RxParams -> rxedLen s = rxLen s -> word8 (rxBlock s) 0 = DAP_TransferBlock ->
  word8 (rxBlock s) 2 = 0 -> word8 (rxBlock s) 3 = 0 ->
  fsm (step i s) = RESPOND /\
  tx_view (step i s)
  = (trunc 112 (set_bits (trunc 112 (set_bits (txBlock s) 8 16 (val (C 0 16))))
                         8 24 (val (C 1 24))), 4, txedLen s) /\
  session (step i s) = session s /\ out_byte (step i s) = [].
Proof.
  intros E Hr Hop Hn2 Hn3. unfold step, decoder. rewrite E. unfold st_RxParams.
  assert (Hd : dispatch i s = RESP_TransferBlock_Setup s)
    by (unfold dispatch; rewrite Hop; reflexivity).
  rewrite Hr, Z.eqb_refl, Hd. unfold RESP_TransferBlock_Setup.
  assert (Hz : bits (rxBlock s) 16 16 = 0).
  { rewrite bits16_bytes by lia.
    change (bits (rxBlock s) 16 8) with (word8 (rxBlock s) 2).
    change (bits (rxBlock s) (16 + 8) 8) with (word8 (rxBlock s) 3).
    now rewrite Hn2, Hn3. }
  rewrite Hz. unfold session, tx_view, out_byte. simpl. auto.
Qed.

Lemma exec_end env P t0 T s s' o : exec env P t0 T s s' o -> P s'.
Proof. intros (R & _ & A). rewrite <- R. apply A. lia. Qed.

(** One more tick in which nothing is sent. *)
Lemma exec_snoc env (P : State -> Prop) t0 T s s1 o :
  exec env P t0 T s s1 o ->
  P (step (env (t0 + T)%nat) s1) -> out_byte (step (env (t0 + T)%nat) s1) = [] ->
  exec env P t0 (T + 1) s (step (env (t0 + T)%nat) s1) o.
Proof.
  intros X HP HO. rewrite <- (app_nil_r o). eapply exec_app; [exact X|].
  rewrite <- HO. apply exec_step; [|exact HP]. exact (exec_end _ _ _ _ _ _ _ X).
Qed.

(** Once a response of [m] bytes stands in the outbound buffer, a fair
    consumer receives it and the core returns to [IDLE]; [go] and the
    session flags are as they were when the response was prepared. *)
Lemma finish_response env go T1 s s1 m :
  consumer_fair env ->
  exec env (fun x => dbgif_go x = go) 0 T1 s s1 [] ->
  fsm s1 = RESPOND -> txedLen s1 = 0 -> txLen s1 = Z.of_nat m -> txLen s1 < 65536 ->
  exists T s2,
    exec env (fun x => dbgif_go x = go) 0 T s s2 (frame_bytes (txBlock s1) 0 m (txLen s1)) /\
    fsm s2 = IDLE /\ busy s2 = false /\
    running s2 = running s1 /\ connected s2 = connected s1.
Proof.
  intros Hfair X1 E1 D1 L1 Hmax.
  destruct (respond_drain env Hfair m T1 s1 E1) as (T2 & s2 & X2 & E2 & B2); try lia.
  pose proof (exec_end _ _ _ _ _ _ _ X1) as Hgo. simpl in Hgo.
  pose proof (exec_end _ _ _ _ _ _ _ X2) as Hs2. simpl in Hs2.
  unfold session in Hs2. injection Hs2 as G2 R2 C2.
  exists (T1 + T2)%nat, s2. split; [|auto].
  change (frame_bytes (txBlock s1) 0 m (txLen s1))
    with ([] ++ frame_bytes (txBlock s1) 0 m (txLen s1)).
  eapply exec_app; [exact X1|]. rewrite <- D1 at 1.
  eapply exec_weaken; [|exact X2].
  intros x Hx. simpl in Hx. unfold session in Hx. congruence.
Qed.

Lemma session_go s s' : session s' = session s -> dbgif_go s' = dbgif_go s.
Proof. unfold session. congruence. Qed.

Lemma exec_go env s t0 T s' o :
  exec env (fun x => session x = session s) t0 T s s' o ->
  exec env (fun x => dbgif_go x = dbgif_go s) t0 T s s' o.
Proof. apply exec_weaken. intros x. apply session_go. Qed.

(** ** DAP_Disconnect *)

Lemma disconnect_once env s :
  fsm s = IDLE -> consumer_fair env ->
  exists T,
    emitted (feed [DAP_Disconnect] env) 0 T s = [(DAP_Disconnect, false); (0, true)] /\
    fsm (run (feed [DAP_Disconnect] env) 0 T s) = IDLE /\
    connected (run (feed [DAP_Disconnect] env) 0 T s) = false /\
    running (run (feed [DAP_Disconnect] env) 0 T s) = false.
Proof.
  intros E Hfair. set (fenv := feed [DAP_Disconnect] env).
  destruct (decode_frame env [DAP_Disconnect] DAP_Disconnect 1 s E)
    as (s1 & X1 & E1 & R1 & V1 & B1); try reflexivity.
  fold fenv in X1. apply exec_go in X1.
  specialize (B1 0%nat ltac:(simpl; lia)). simpl in B1.
  destruct (step_dispatch_Disconnect (fenv 1%nat) s1 E1 R1 B1) as (E2 & V2 & S2 & O2).
  unfold tx_view in V1, V2. injection V2 as HB2 HL2 HE2. injection V1 as HB1 HL1 HE1.
  unfold session in S2. injection S2 as G2 Rn2 C2.
  pose proof (exec_end _ _ _ _ _ _ _ X1) as Hgo. simpl in Hgo.
  assert (X2 : exec fenv (fun x => dbgif_go x = dbgif_go s) 0 (1 + 1) s (step (fenv 1%nat) s1) []).
  { apply (exec_snoc fenv _ 0 1 s s1 []); [exact X1| |exact O2]. simpl. congruence. }
  destruct (finish_response fenv (dbgif_go s) _ _ _ 2 (feed_fair _ _ Hfair) X2 E2)
    as (T & s3 & X3 & E3 & _ & Rn3 & C3); try lia.
  exists T. destruct X3 as (R & Em & _). rewrite R, Em. repeat split; try congruence.
  simpl. rewrite HL2, HL1, HB2, HB1, word8_tx_default_0, word8_tx_default_1. reflexivity.
Qed.

(** C9. Two DAP_Disconnect commands in a row, from any idle state: each is
    answered with the normal two-byte response (opcode, status 0), and after
    each the core is idle again with [connected] and [running] both low, so
    the second leaves the flags as the first left them. *)
Theorem disconnect_twice env1 env2 s :
  fsm s = IDLE -> consumer_fair env1 -> consumer_fair env2 ->
  exists T1 T2,
    let s1 := run (feed [DAP_Disconnect] env1) 0 T1 s in
    let s2 := run (feed [DAP_Disconnect] env2) 0 T2 s1 in
    emitted (feed [DAP_Disconnect] env1) 0 T1 s = [(DAP_Disconnect, false); (0, true)] /\
    fsm s1 = IDLE /\ connected s1 = false /\ running s1 = false /\
    emitted (feed [DAP_Disconnect] env2) 0 T2 s1 = [(DAP_Disconnect, false); (0, true)] /\
    fsm s2 = IDLE /\ connected s2 = false /\ running s2 = false /\
    (connected s2, running s2) = (connected s1, running s1).
Proof.
  intros E F1 F2.
  destruct (disconnect_once env1 s E F1) as (T1 & Em1 & E1 & C1 & R1).
  destruct (disconnect_once env2 _ E1 F2) as (T2 & Em2 & E2 & C2 & R2).
  exists T1, T2. cbv zeta. repeat split; try assumption. congruence.
Qed.

Lemma disconnect_twice_witness :
  exists T1 T2,
    let s1 := run (feed [DAP_Disconnect] quiet_env) 0 T1 (set_connected true (set_running true reset_state)) in
    let s2 := run (feed [DAP_Disconnect] quiet_env) 0 T2 s1 in
    emitted (feed [DAP_Disconnect] quiet_env) 0 T1 (set_connected true (set_running true reset_state))
    = [(DAP_Disconnect, false); (0, true)] /\
    fsm s1 = IDLE /\ connected s1 = false /\ running s1 = false /\
    emitted (feed [DAP_Disconnect] quiet_env) 0 T2 s1 = [(DAP_Disconnect, false); (0, true)] /\
    fsm s2 = IDLE /\ connected s2 = false /\ running s2 = false /\
    (connected s2, running s2) = (connected s1, running s1).
Proof.
  apply (disconnect_twice quiet_env quiet_env (set_connected true (set_running true reset_state))).
  - reflexivity.
  - exact quiet_env_fair.
  - exact quiet_env_fair.
Defined.

(** ** DAP_JTAG_Sequence without sequences *)

(** C7. A DAP_JTAG_Sequence frame whose sequence count is 0: two ticks
    after the frame the response of declared length 2 is prepared, nothing
    having been sent before; the consumer then receives exactly the opcode
    and the status byte 0; and [go] keeps its value on every tick, so the
    debug interface is never asked to move a pin. *)
Theorem jtag_sequence_empty env s :
  fsm s = IDLE -> consumer_fair env ->
  let fenv := feed [DAP_JTAG_Sequence; 0] env in
  fsm (run fenv 0 4 s) = RESPOND /\ txLen (run fenv 0 4 s) = 2 /\
  emitted fenv 0 4 s = [] /\
  exists T,
    emitted fenv 0 T s = [(DAP_JTAG_Sequence, false); (0, true)] /\
    fsm (run fenv 0 T s) = IDLE /\
    forall t, (t <= T)%nat -> dbgif_go (run fenv 0 t s) = dbgif_go s.
Proof.
  intros E Hfair fenv.
  destruct (decode_frame env [DAP_JTAG_Sequence; 0] DAP_JTAG_Sequence 2 s E)
    as (s1 & X1 & E1 & R1 & V1 & B1); try reflexivity.
  fold fenv in X1. apply exec_go in X1.
  pose proof (B1 0%nat ltac:(simpl; lia)) as B10. simpl in B10.
  pose proof (B1 1%nat ltac:(simpl; lia)) as B11. simpl in B11.
  destruct (step_dispatch_JTAG_Sequence (fenv 2%nat) s1 E1 R1 B10)
    as (E2 & C2 & D2 & V2 & S2 & O2).
  rewrite B11 in C2. change (trunc 8 0) with 0 in C2.
  destruct (step_JTAG_Sequence_finished (fenv 3%nat) _ E2 C2) as (E3 & V3 & S3 & O3).
  rewrite D2 in V3. change (Z.shiftr (16 + 7) 3) with 2 in V3.
  unfold tx_view in V1, V2, V3.
  injection V3 as HB3 HL3 HE3. injection V2 as HB2 HL2 HE2. injection V1 as HB1 HL1 HE1.
  pose proof (exec_end _ _ _ _ _ _ _ X1) as Hgo. simpl in Hgo.
  apply session_go in S2. apply session_go in S3.
  assert (X2 : exec fenv (fun x => dbgif_go x = dbgif_go s) 0 (2 + 1) s (step (fenv 2%nat) s1) []).
  { apply (exec_snoc fenv _ 0 2 s s1 []); [exact X1| |exact O2]. simpl. congruence. }
  assert (X3 : exec fenv (fun x => dbgif_go x = dbgif_go s) 0 (2 + 1 + 1) s
                    (step (fenv 3%nat) (step (fenv 2%nat) s1)) []).
  { apply (exec_snoc fenv _ 0 (2 + 1) s _ []); [exact X2| |exact O3]. simpl. congruence. }
  destruct (finish_response fenv (dbgif_go s) _ _ _ 2 (feed_fair _ _ Hfair) X3 E3)
    as (T & s4 & X4 & E4 & _); try lia.
  destruct X3 as (R3 & Em3 & _). change (2 + 1 + 1)%nat with 4%nat in *.
  rewrite R3, Em3. repeat split; auto.
  exists T. destruct X4 as (R & Em & A). rewrite R, Em. repeat split; auto.
  simpl. rewrite HL3, HB3, HB2, HB1.
  rewrite !word8_tx_outside, !word8_trunc by lia.
  rewrite word8_tx_default_0, word8_tx_default_1. reflexivity.
Qed.

Lemma jtag_sequence_empty_witness :
  let fenv := feed [DAP_JTAG_Sequence; 0] quiet_env in
  fsm (run fenv 0 4 reset_state) = RESPOND /\ txLen (run fenv 0 4 reset_state) = 2 /\
  emitted fenv 0 4 reset_state = [] /\
  exists T,
    emitted fenv 0 T reset_state = [(DAP_JTAG_Sequence, false); (0, true)] /\
    fsm (run fenv 0 T reset_state) = IDLE /\
    forall t, (t <= T)%nat -> dbgif_go (run fenv 0 t reset_state) = dbgif_go reset_state.
Proof.
  apply (jtag_sequence_empty quiet_env reset_state).
  - reflexivity.
  - exact quiet_env_fair.
Defined.

(** ** Transfers without elements *)

(** C10. A DAP_Transfer frame with transfer count 0 is answered with the
    three bytes 0x05, 0x00, 0x01, and a DAP_TransferBlock frame with a 16-bit
    count of 0 with the four bytes 0x06, 0x01, 0x00, 0x00; in both cases [go]
    keeps its value on every tick from the first byte of the frame to the
    return to [IDLE], so the debug interface is not started. *)
Theorem transfer_count_zero env s idx req :
  fsm s = IDLE -> consumer_fair env ->
  (let fenv := feed [DAP_Transfer; idx; 0] env in
   exists T,
     emitted fenv 0 T s = [(0x05, false); (0x00, false); (0x01, true)] /\
     fsm (run fenv 0 T s) = IDLE /\
     forall t, (t <= T)%nat -> dbgif_go (run fenv 0 t s) = dbgif_go s) /\
  (let fenv := feed [DAP_TransferBlock; idx; 0; 0; req] env in
   exists T,
     emitted fenv 0 T s = [(0x06, false); (0x01, false); (0x00, false); (0x00, true)] /\
     fsm (run fenv 0 T s) = IDLE /\
     forall t, (t <= T)%nat -> dbgif_go (run fenv 0 t s) = dbgif_go s).
Proof.
  intros E Hfair. split; intros fenv.
  - destruct (decode_frame env [DAP_Transfer; idx; 0] DAP_Transfer 3 s E)
      as (s1 & X1 & E1 & R1 & V1 & B1); try reflexivity.
    fold fenv in X1. apply exec_go in X1.
    pose proof (B1 0%nat ltac:(simpl; lia)) as B10. simpl in B10.
    pose proof (B1 2%nat ltac:(simpl; lia)) as B12. simpl in B12.
    change (trunc 8 0) with 0 in B12.
    destruct (step_dispatch_Transfer_none (fenv 3%nat) s1 E1 R1 B10 B12)
      as (E2 & V2 & S2 & O2).
    unfold tx_view in V1, V2. injection V2 as HB2 HL2 HE2. injection V1 as HB1 HL1 HE1.
    pose proof (exec_end _ _ _ _ _ _ _ X1) as Hgo. simpl in Hgo.
    apply session_go in S2.
    assert (X2 : exec fenv (fun x => dbgif_go x = dbgif_go s) 0 (3 + 1) s
                      (step (fenv 3%nat) s1) []).
    { apply (exec_snoc fenv _ 0 3 s s1 []); [exact X1| |exact O2]. simpl. congruence. }
    destruct (finish_response fenv (dbgif_go s) _ _ _ 3 (feed_fair _ _ Hfair) X2 E2)
      as (T & s3 & X3 & E3 & _); try lia.
    exists T. destruct X3 as (R & Em & A). rewrite R, Em. repeat split; auto.
    simpl. rewrite HL2, HB2, HB1.
    rewrite (word8_tx_inside _ 16 8 _ 2) by lia.
    rewrite !word8_tx_outside, !word8_trunc by lia.
    rewrite word8_tx_default_0, word8_tx_default_1. reflexivity.
  - destruct (decode_frame env [DAP_TransferBlock; idx; 0; 0; req] DAP_TransferBlock 5 s E)
      as (s1 & X1 & E1 & R1 & V1 & B1); try reflexivity.
    fold fenv in X1. apply exec_go in X1.
    pose proof (B1 0%nat ltac:(simpl; lia)) as B10. simpl in B10.
    pose proof (B1 2%nat ltac:(simpl; lia)) as B12. simpl in B12.
    pose proof (B1 3%nat ltac:(simpl; lia)) as B13. simpl in B13.
    change (trunc 8 0) with 0 in B12, B13.
    destruct (step_dispatch_TransferBlock_none (fenv 5%nat) s1 E1 R1 B10 B12 B13)
      as (E2 & V2 & S2 & O2).
    unfold tx_view in V1, V2. injection V2 as HB2 HL2 HE2. injection V1 as HB1 HL1 HE1.
    pose proof (exec_end _ _ _ _ _ _ _ X1) as Hgo. simpl in Hgo.
    apply session_go in S2.
    assert (X2 : exec fenv (fun x => dbgif_go x = dbgif_go s) 0 (5 + 1) s
                      (step (fenv 5%nat) s1) []).
    { apply (exec_snoc fenv _ 0 5 s s1 []); [exact X1| |exact O2]. simpl. congruence. }
    destruct (finish_response fenv (dbgif_go s) _ _ _ 4 (feed_fair _ _ Hfair) X2 E2)
      as (T & s3 & X3 & E3 & _); try lia.
    exists T. destruct X3 as (R & Em & A). rewrite R, Em. repeat split; auto.
    simpl. rewrite HL2, HB2, HB1.
    rewrite (word8_tx_inside _ 8 24 _ 1), (word8_tx_inside _ 8 24 _ 2),
      (word8_tx_inside _ 8 24 _ 3) by lia.
    repeat first [rewrite word8_tx_outside by lia | rewrite word8_trunc by lia].
    rewrite word8_tx_default_0. reflexivity.
Qed.

Lemma transfer_count_zero_witness :
  (let fenv := feed [DAP_Transfer; 0; 0] quiet_env in
   exists T,
     emitted fenv 0 T reset_state = [(0x05, false); (0x00, false); (0x01, true)] /\
     fsm (run fenv 0 T reset_state) = IDLE /\
     forall t, (t <= T)%nat -> dbgif_go (run fenv 0 t reset_state) = dbgif_go reset_state) /\
  (let fenv := feed [DAP_TransferBlock; 0; 0; 0; 2] quiet_env in
   exists T,
     emitted fenv 0 T reset_state
     = [(0x06, false); (0x01, false); (0x00, false); (0x00, true)] /\
     fsm (run fenv 0 T reset_state) = IDLE /\
     forall t, (t <= T)%nat -> dbgif_go (run fenv 0 t reset_state) = dbgif_go reset_state).
Proof.
  apply (transfer_count_zero quiet_env reset_state 0 2).
  - reflexivity.
  - exact quiet_env_fair.
Defined.

(** ** DAP_Info, maximum packet size *)

(** C5. DAP_Info with sub-ID 0xFF: the response is the opcode, the length
    byte 2 and the 16-bit packet size, low byte first: 500 when the v2
    indication is high on the tick the command is dispatched, 64 otherwise.
    The declared response length is 6 in both cases, so two bytes follow that
    the handler does not write (bytes 4 and 5 of the outbound buffer as they
    were); nothing but the flag selects between the two answers. *)
Theorem info_max_packet_size env s :
  fsm s = IDLE -> consumer_fair env ->
  let fenv := feed [DAP_Info; 0xFF] env in
  let size := if isV2 (env 2%nat) then 500 else 64 in
  exists T,
    emitted fenv 0 T s
    = [(DAP_Info, false); (2, false); (size mod 256, false); (size / 256, false);
       (word8 (txBlock s) 4, false); (word8 (txBlock s) 5, true)] /\
    fsm (run fenv 0 T s) = IDLE.
Proof.
  intros E Hfair fenv size.
  destruct (decode_frame env [DAP_Info; 0xFF] DAP_Info 2 s E)
    as (s1 & X1 & E1 & R1 & V1 & B1); try reflexivity.
  fold fenv in X1. apply exec_go in X1.
  pose proof (B1 0%nat ltac:(simpl; lia)) as B10. simpl in B10.
  pose proof (B1 1%nat ltac:(simpl; lia)) as B11. simpl in B11.
  change (trunc 8 255) with 0xFF in B11.
  destruct (step_dispatch_Info_FF (fenv 2%nat) s1 E1 R1 B10 B11) as (E2 & V2 & S2 & O2).
  change (fenv 2%nat) with (env 2%nat) in V2 at 2.
  unfold tx_view in V1, V2. injection V2 as HB2 HL2 HE2. injection V1 as HB1 HL1 HE1.
  pose proof (exec_end _ _ _ _ _ _ _ X1) as Hgo. simpl in Hgo.
  apply session_go in S2.
  assert (X2 : exec fenv (fun x => dbgif_go x = dbgif_go s) 0 (2 + 1) s
                    (step (fenv 2%nat) s1) []).
  { apply (exec_snoc fenv _ 0 2 s s1 []); [exact X1| |exact O2]. simpl. congruence. }
  destruct (finish_response fenv (dbgif_go s) _ _ _ 6 (feed_fair _ _ Hfair) X2 E2)
    as (T & s3 & X3 & E3 & _); try lia.
  exists T. destruct X3 as (R & Em & A). rewrite R, Em. split; [|exact E3].
  simpl. rewrite HL2, HB2, HB1.
  rewrite (word8_tx_inside _ 8 24 _ 1), (word8_tx_inside _ 8 24 _ 2),
    (word8_tx_inside _ 8 24 _ 3) by lia.
  repeat first [rewrite word8_tx_outside by lia | rewrite word8_trunc by lia].
  rewrite word8_tx_default_0, !word8_tx_default_hi by lia.
  subst size. destruct (isV2 (env 2%nat)); reflexivity.
Qed.

Lemma info_max_packet_size_witness :
  let fenv := feed [DAP_Info; 0xFF] quiet_env in
  let size := if isV2 (quiet_env 2%nat) then 500 else 64 in
  exists T,
    emitted fenv 0 T reset_state
    = [(DAP_Info, false); (2, false); (size mod 256, false); (size / 256, false);
       (word8 (txBlock reset_state) 4, false); (word8 (txBlock reset_state) 5, true)] /\
    fsm (run fenv 0 T reset_state) = IDLE.
Proof.
  apply (info_max_packet_size quiet_env reset_state).
  - reflexivity.
  - exact quiet_env_fair.
Defined.

(** ** The cursor of the response streamer *)

Lemma resp_inv_step i s : resp_inv s -> resp_inv (step i s).
Proof.
  unfold resp_inv. intros (H1 & H2 & H3 & H4).
  unfold step, decoder.
  destruct (fsm s) eqn:E; unfold_handlers.
  all: split_ifs; simpl; try rewrite E; bool_hyps.
  all: try lia.
  all: pose proof (trunc16_range (txLen s - 1)); pose proof (trunc7_range (tdoCount s + 1));
    pose proof (trunc7_range (Z.land (tdoCount s + 7) 120));
    pose proof (bits16_range (rxBlock s) 8);
    pose proof (shiftr3_range (tdoCount s) H3); try lia.
  all: rewrite trunc_small by lia; lia.
Qed.

Lemma run_S env n : forall t0 s,
  run env t0 (S n) s = step (env (t0 + n)%nat) (run env t0 n s).
Proof.
  intros t0 s. replace (S n) with (n + 1)%nat by lia. now rewrite run_add.
Qed.

Lemma resp_inv_run env n : resp_inv (run env 0 n reset_state).
Proof.
  induction n as [|n IH].
  - unfold resp_inv. simpl. lia.
  - rewrite run_S. now apply resp_inv_step.
Qed.

(** C8. In every state reachable from reset, under any inputs, the cursor
    [txedLen] is at most the declared length [txLen]; and a tick of the
    response streamer presents a byte exactly when the cursor is below the
    length and the consumer is ready, that byte being the one under the
    cursor, with [last] set exactly when cursor + 1 equals the declared
    length, after which the cursor has advanced by one. *)
Theorem response_cursor_invariant (env : nat -> Input) (n : nat) (i : Input) :
  let s := run env 0 n reset_state in
  txedLen s <= txLen s /\
  (fsm s = RESPOND ->
   streamIn_valid (step i s) = (txedLen s <? txLen s) && streamIn_ready i /\
   (streamIn_valid (step i s) = true ->
    streamIn_payload (step i s) = word8 (txBlock s) (txedLen s) /\
    streamIn_last (step i s) = (txedLen s + 1 =? txLen s) /\
    txedLen (step i s) = txedLen s + 1 /\
    txedLen (step i s) <= txLen (step i s))).
Proof.
  intros s. destruct (resp_inv_run env n) as (H1 & H2 & _). fold s in H1, H2.
  split; [lia|]. intros E. unfold step, decoder. rewrite E. unfold st_RESPOND, andthen.
  destruct (txedLen s <? txLen s) eqn:Hlt; [destruct (streamIn_ready i)|]; simpl.
  - split; [reflexivity|]. intros _. apply Z.ltb_lt in Hlt.
    rewrite trunc_small by lia. repeat split; lia.
  - split; [reflexivity|]. discriminate.
  - split; [reflexivity|]. discriminate.
Qed.

Lemma response_cursor_invariant_witness :
  let s := run (feed [DAP_Disconnect] quiet_env) 0 3 reset_state in
  fsm s = RESPOND /\
  (streamIn_valid (step quiet s) = (txedLen s <? txLen s) && streamIn_ready quiet /\
   (streamIn_valid (step quiet s) = true ->
    streamIn_payload (step quiet s) = word8 (txBlock s) (txedLen s) /\
    streamIn_last (step quiet s) = (txedLen s + 1 =? txLen s) /\
    txedLen (step quiet s) = txedLen s + 1 /\
    txedLen (step quiet s) <= txLen (step quiet s))).
Proof.
  split; [reflexivity|].
  exact (proj2 (response_cursor_invariant (feed [DAP_Disconnect] quiet_env) 3 quiet)
               eq_refl).
Defined.

(** ** DAP_SWJ_Pins *)

(** C6, evaluated.  A DAP_SWJ_Pins frame while the debug interface is busy
    ([done] low) and shows 0xAB on its read-back lines: the core answers at
    once, two ticks after the frame, with 0 as second byte, and [go] is low
    on every tick from reset to the end of the response: no request is put
    to the debug interface and none is waited for. *)
Theorem swj_pins_answers_without_handshake :
  let fenv := feed [DAP_SWJ_Pins; 0x01; 0x01; 0; 0; 0; 0] (engine_busy 0xAB) in
  fsm (run fenv 0 9 reset_state) = RESPOND /\
  emitted fenv 0 12 reset_state = [(DAP_SWJ_Pins, false); (0, true)] /\
  fsm (run fenv 0 12 reset_state) = IDLE /\
  forallb (fun t => negb (dbgif_go (run fenv 0 t reset_state))) (List.seq 0 13) = true /\
  forallb (fun t => negb (dbg_done (run fenv 0 t reset_state))) (List.seq 0 13) = true.
Proof. vm_compute. repeat split; reflexivity. Qed.

(** With an idle debug interface the second byte is whatever stands on the
    read-back lines on the tick after dispatch; [go] is not raised either. *)
Lemma swj_pins_idle_engine :
  let fenv := feed [DAP_SWJ_Pins; 0x01; 0x01; 0; 0; 0; 0] (engine 1 0xAB (fun _ => 0)) in
  emitted fenv 0 12 reset_state = [(DAP_SWJ_Pins, false); (0xAB, true)] /\
  forallb (fun t => negb (dbgif_go (run fenv 0 t reset_state))) (List.seq 0 13) = true.
Proof. vm_compute. repeat split; reflexivity. Qed.

Lemma step_dispatch_SWJ_Pins i s :
  fsm s = RxParams -> rxedLen s = rxLen s -> word8 (rxBlock s) 0 = DAP_SWJ_Pins ->
  fsm (step i s) = DAP_SWJ_Pins_PROCESS /\ tx_view (step i s) = tx_view s /\
  session (step i s) = session s /\ dbgif_command (step i s) = dbgif_command s /\
  out_byte (step i s) = [].
Proof.
  intros E Hr Hop. unfold step, decoder. rewrite E. unfold st_RxParams.
  assert (Hd : dispatch i s = RESP_SWJ_Pins_Setup s)
    by (unfold dispatch; rewrite Hop; reflexivity).
  rewrite Hr, Z.eqb_refl, Hd. unfold session, tx_view, out_byte. simpl. auto 10.
Qed.

Lemma step_SWJ_Pins_Process i s :
  fsm s = DAP_SWJ_Pins_PROCESS ->
  fsm (step i s) = RESPOND /\ session (step i s) = session s /\
  dbgif_command (step i s) = dbgif_command s /\ txedLen (step i s) = txedLen s /\
  txLen (step i s) = (if dbg_done s then 2 else txLen s) /\
  out_byte (step i s) = [].
Proof.
  intros E. unfold step, decoder. rewrite E. unfold RESP_SWJ_Pins_Process.
  unfold session, out_byte. destruct (dbg_done s); simpl; auto 10.
Qed.

(** For every DAP_SWJ_Pins frame, from any idle state and whatever the
    debug interface does: the response is prepared two ticks after the frame,
    and neither [go] nor the command register has changed by then. *)
Lemma swj_pins_never_waits env s a b c d e f :
  fsm s = IDLE ->
  let fenv := feed [DAP_SWJ_Pins; a; b; c; d; e; f] env in
  fsm (run fenv 0 9 s) = RESPOND /\ txLen (run fenv 0 9 s) = 2 /\
  dbgif_command (run fenv 0 9 s) = dbgif_command (run fenv 0 7 s) /\
  forall t, (t <= 9)%nat -> dbgif_go (run fenv 0 t s) = dbgif_go s.
Proof.
  intros E fenv.
  destruct (decode_frame env [DAP_SWJ_Pins; a; b; c; d; e; f] DAP_SWJ_Pins 7 s E)
    as (s1 & X1 & E1 & R1 & V1 & B1); try reflexivity.
  fold fenv in X1. apply exec_go in X1.
  pose proof (B1 0%nat ltac:(simpl; lia)) as B10. simpl in B10.
  destruct (step_dispatch_SWJ_Pins (fenv 7%nat) s1 E1 R1 B10) as (E2 & V2 & S2 & C2 & O2).
  destruct (step_SWJ_Pins_Process (fenv 8%nat) _ E2) as (E3 & S3 & C3 & D3 & L3 & O3).
  unfold tx_view in V1, V2. injection V2 as HB2 HL2 HE2. injection V1 as HB1 HL1 HE1.
  pose proof (exec_end _ _ _ _ _ _ _ X1) as Hgo. simpl in Hgo.
  apply session_go in S2. apply session_go in S3.
  assert (X2 : exec fenv (fun x => dbgif_go x = dbgif_go s) 0 (7 + 1) s (step (fenv 7%nat) s1) []).
  { apply (exec_snoc fenv _ 0 7 s s1 []); [exact X1| |exact O2]. simpl. congruence. }
  assert (X3 : exec fenv (fun x => dbgif_go x = dbgif_go s) 0 (7 + 1 + 1) s
                    (step (fenv 8%nat) (step (fenv 7%nat) s1)) []).
  { apply (exec_snoc fenv _ 0 (7 + 1) s _ []); [exact X2| |exact O3]. simpl. congruence. }
  destruct X1 as (R1' & _). simpl length in R1'.
  destruct X3 as (R3 & _ & A3). change (7 + 1 + 1)%nat with 9%nat in *.
  rewrite R3, R1'. repeat split; auto.
  - rewrite L3. destruct (dbg_done (step (fenv 7%nat) s1)); congruence.
  - congruence.
Qed.

(** ** DAP_JTAG_Sequence with more captured bits than the buffer holds *)

(** C4, evaluated.  A DAP_JTAG_Sequence frame (opcode, sequence count 2,
    [last]) after which the payload lines carry 0x80: two sequences of 64
    clocks with TDO capture.  The 7-bit cursor [tdoCount] runs from 16 past
    the 112 bits of the outbound buffer and wraps to 0, so the captured bits
    overwrite the opcode and the status byte: the response is 0x80, 0x80,
    and its first byte is neither the opcode 0x14 nor 0xFF. *)
Theorem jtag_sequence_overwrites_opcode :
  let fenv := feed [DAP_JTAG_Sequence; 2] (engine 1 0 (fun _ => 0x80)) in
  declared_len DAP_JTAG_Sequence = Some 2 /\
  emitted fenv 0 170 reset_state = [(0x80, false); (0x80, true)] /\
  fsm (run fenv 0 170 reset_state) = IDLE.
Proof. vm_compute. repeat split; reflexivity. Qed.

(** ** DAP_Transfer, value match *)

(** A value-match read whose value matches is put to the debug interface
    again: the handler goes back to state 5 with the element still to do. *)
Lemma step_Transfer_match_hit i s :
  fsm s = DAP_Transfer_PROCESS -> txb s = 7 -> dbg_done s = true ->
  ack i <> 2 -> Z.testbit (tfrReq s) 4 = true ->
  Z.land (dread i) (mask s) = tfrData s ->
  fsm (step i s) = DAP_Transfer_PROCESS /\ txb (step i s) = 5 /\
  transferCount (step i s) = transferCount s /\
  tfrReq (step i s) = tfrReq s /\ tfrData (step i s) = tfrData s.
Proof.
  intros E Ht Hd Ha Hm Heq. unfold step, decoder. rewrite E.
  unfold RESP_Transfer_Process. rewrite Ht, Hd, Hm, Heq, (Z.eqb_refl (tfrData s)).
  apply Z.eqb_neq in Ha. rewrite Ha. simpl. auto 10.
Qed.

(** A value-match read whose value does not match, with match retries
    configured and none used: the handler gives up at once. *)
Lemma step_Transfer_match_miss i s :
  fsm s = DAP_Transfer_PROCESS -> txb s = 7 -> dbg_done s = true ->
  ack i <> 2 -> Z.testbit (tfrReq s) 4 = true ->
  Z.land (dread i) (mask s) <> tfrData s -> matchretries s < matchRetry s ->
  fsm (step i s) = DAP_Transfer_PROCESS /\ txb (step i s) = 8 /\
  matchretries (step i s) = matchretries s /\
  bits (txBlock (step i s)) 21 1 = 1.
Proof.
  intros E Ht Hd Ha Hm Hne Hlt. unfold step, decoder. rewrite E.
  unfold RESP_Transfer_Process. rewrite Ht, Hd, Hm.
  apply Z.eqb_neq in Ha. apply Z.eqb_neq in Hne. apply Z.ltb_lt in Hlt.
  rewrite Ha, Hne, Hlt. simpl. repeat split; auto.
  rewrite bits_trunc, bits_set_bits_inside by lia. reflexivity.
Qed.

(** C1, evaluated.  One-element DAP_Transfer commands with the request byte
    0x12 (read with value match), the match mask being 0 as it is after
    reset.

    (a) Expected value 0, engine answering OK: the value matches on the first
    attempt, yet the element is put to the debug interface again and again
    (246 times in 1000 ticks), the transfer count stays 1 and no response
    byte is sent.

    (b) Expected value 0x12121212, match retry configured to 3: the value
    never matches; the element is put to the debug interface once, not
    retried, and the response carries the status 0x21. *)
Theorem value_match_retries_inverted :
  (let e := feed [DAP_Transfer; 0; 1]
                 (engine 1 0 (fun t => if Nat.eqb t 5 then 0x12 else 0)) in
   fsm reset_state = IDLE /\
   ticks_in issuing e 0 1000 reset_state = 246%nat /\
   emitted e 0 1000 reset_state = [] /\
   fsm (run e 0 1000 reset_state) = DAP_Transfer_PROCESS /\
   transferCount (run e 0 1000 reset_state) = 1) /\
  (let e := feed [DAP_Transfer; 0; 1] (engine 1 7 (fun _ => 0x12)) in
   fsm configured_match3 = IDLE /\ matchRetry configured_match3 = 3 /\
   mask configured_match3 = 0 /\
   ticks_in issuing e 0 60 configured_match3 = 1%nat /\
   firstn 3 (emitted e 0 60 configured_match3)
   = [(DAP_Transfer, false); (1, false); (0x21, false)] /\
   fsm (run e 0 60 configured_match3) = IDLE).
Proof. vm_compute. repeat split; reflexivity. Qed.

(** ** DAP_Transfer against an engine that answers WAIT *)




























(** ** What every tick keeps *)

(** The synchroniser runs beside the decoder in every state. *)
Lemma done_cdc_step i s : done_cdc (step i s) = next_cdc (done_cdc s) (dbgif_done i).
Proof.
  unfold step, decoder.
  destruct (fsm s) eqn:E; unfold_handlers.
  all: split_ifs; reflexivity.
Qed.

Lemma next_cdc_twice c d1 d2 : (next_cdc (next_cdc c d1) d2 =? 3) = d1 && d2.
Proof.
  unfold next_cdc at 2. unfold val, Cat, sig, fold_right, fst, snd.
  pose proof (trunc_range 1 (bits c 1 1) ltac:(lia)) as Hr. change (2 ^ 1) with 2 in Hr.
  assert (Ht : trunc 1 (bits c 1 1) = 0 \/ trunc 1 (bits c 1 1) = 1) by lia.
  destruct Ht as [-> | ->]; destruct d1, d2; reflexivity.
Qed.

(** X1. The core sees [done] high on a tick exactly when the debug
    interface showed it high on both of the two ticks before: whatever the
    state and the inputs, the synchronised [dbg_done] two ticks on is the
    conjunction of the two samples. *)
Theorem done_seen_after_two_samples (env : nat -> Input) (s : State) (t : nat) :
  dbg_done (run env 0 (t + 2) s)
  = dbgif_done (env t) && dbgif_done (env (t + 1)%nat).
Proof.
  replace (t + 2)%nat with (S (S t)) by lia. rewrite !run_S.
  replace (0 + S t)%nat with (t + 1)%nat by lia. rewrite Nat.add_0_l.
  unfold dbg_done. rewrite !done_cdc_step. apply next_cdc_twice.
Qed.

(** X2. A tick changes the session flags [running] and [connected] only
    when it dispatches DAP_HostStatus or DAP_Disconnect. *)
Theorem session_flags_change_only_by_command (i : Input) (s : State) :
  (running (step i s) = running s /\ connected (step i s) = connected s) \/
  dispatching s = Some DAP_HostStatus \/ dispatching s = Some DAP_Disconnect.
Proof.
  unfold step, decoder, dispatching.
  destruct (fsm s) eqn:E; unfold_handlers.
  all: split_ifs; simpl; try (left; split; reflexivity).
  all: first [right; left; dispatch_case | right; right; dispatch_case].
Qed.

(** X3. A tick changes the retry ceilings [waitRetry] and [matchRetry] only
    when it dispatches DAP_TransferConfigure. *)
Theorem retry_ceilings_change_only_by_command (i : Input) (s : State) :
  (waitRetry (step i s) = waitRetry s /\ matchRetry (step i s) = matchRetry s) \/
  dispatching s = Some DAP_TransferConfigure.
Proof.
  unfold step, decoder, dispatching.
  destruct (fsm s) eqn:E; unfold_handlers.
  all: split_ifs; simpl; try (left; split; reflexivity).
  all: right; dispatch_case.
Qed.

(** X4. [go] rises only where the code asks the debug interface for
    something: on the dispatch of Connect, WriteABORT, Delay, ResetTarget,
    SWJ_Clock, SWD_Configure or TransferConfigure, or inside the SWJ_Sequence,
    Transfer and TransferBlock handlers.  In every other state of the decoder
    (idle, collecting a frame, responding, waiting, the Info, HostStatus,
    SWJ_Pins, SWO and JTAG handlers, the Invalid stubs) a tick that finds
    [go] low leaves it low. *)
Theorem go_rises_only_where_requested (i : Input) (s : State) :
  dbgif_go (step i s) = false \/ dbgif_go s = true \/ may_raise_go s = true.
Proof.
  unfold step, decoder, may_raise_go, dispatching.
  destruct (fsm s) eqn:E; unfold_handlers; try (right; right; reflexivity).
  all: destruct (dbgif_go s) eqn:G; [right; left; reflexivity|].
  all: split_ifs; simpl; rewrite ?G; try (left; reflexivity).
  all: right; right;
    match goal with
    | H : (word8 (rxBlock _) 0 =? _) = true |- _ =>
        apply Z.eqb_eq in H; rewrite H; reflexivity
    end.
Qed.

(** ** The idle decoder *)




(** ** Waiting for the debug interface, in general *)






(** ** The response streamer, with what it keeps *)

(** The streamer delivers the rest of the frame and keeps, on the way, any
    property that a tick in [RESPOND] keeps. *)
Lemma respond_drain_inv env (P : State -> Prop) :
  consumer_fair env ->
  (forall i x, fsm x = RESPOND -> P x -> P (step i x)) ->
  forall m t0 s,
    fsm s = RESPOND -> P s -> 0 <= txedLen s -> txLen s < 65536 ->
    txLen s - txedLen s = Z.of_nat m ->
    exists T s',
      exec env P t0 T s s' (frame_bytes (txBlock s) (txedLen s) m (txLen s)) /\
      fsm s' = IDLE /\ busy s' = false.
Proof.
  intros Hfair HP.
  assert (Hwait : forall d t0 s, fsm s = RESPOND -> P s -> txedLen s < txLen s ->
            streamIn_ready (env (t0 + d)%nat) = true ->
            exists T s', exec env P t0 T s s' [] /\ fsm s' = RESPOND /\
                         tx_view s' = tx_view s /\
                         streamIn_ready (env (t0 + T)%nat) = true).
  { induction d as [|d IH]; intros t0 s E Ps Hlt Hr.
    - exists 0%nat, s. split; [now apply exec_nil|]. auto.
    - destruct (streamIn_ready (env t0)) eqn:R0.
      + exists 0%nat, s. rewrite Nat.add_0_r. split; [now apply exec_nil|]. auto.
      + destruct (step_RESPOND_stall (env t0) s E Hlt R0) as (E1 & V1 & _ & O1).
        assert (Hlt1 : txedLen (step (env t0) s) < txLen (step (env t0) s)).
        { unfold tx_view in V1. injection V1 as _ HL HE. lia. }
        destruct (IH (S t0) _ E1 (HP _ _ E Ps) Hlt1) as (T & s' & X & E' & V' & R').
        { now rewrite Nat.add_succ_comm. }
        exists (1 + T)%nat, s'. split; [|split; [exact E'|split]].
        * change (@nil (Z * bool)) with (@nil (Z * bool) ++ []).
          eapply exec_app; [rewrite <- O1; apply exec_step; auto|].
          now rewrite Nat.add_1_r.
        * now rewrite V'.
        * now rewrite <- Nat.add_succ_comm. }
  induction m as [|m IH]; intros t0 s E Ps H0 Hmax Hm.
  - destruct (step_RESPOND_done (env t0) s E) as (E1 & B1 & _ & O1); [lia|].
    exists 1%nat, (step (env t0) s). split; [|auto].
    simpl. rewrite <- O1. apply exec_step; auto.
  - destruct (Hfair t0) as [d Hd].
    destruct (Hwait d t0 s E Ps) as (T1 & s1 & X1 & E1 & V1 & R1); [lia|exact Hd|].
    unfold tx_view in V1. injection V1 as HB HL HE.
    pose proof (exec_end _ _ _ _ _ _ _ X1) as Ps1.
    destruct (step_RESPOND_send (env (t0 + T1)%nat) s1 E1) as (E2 & V2 & _ & O2);
      [lia|lia|exact R1|].
    unfold tx_view in V2. injection V2 as HB2 HL2 HE2.
    destruct (IH (t0 + T1 + 1)%nat (step (env (t0 + T1)%nat) s1) E2 (HP _ _ E1 Ps1))
      as (T3 & s3 & X3 & E3 & B3); [lia|lia|lia|].
    exists (T1 + (1 + T3))%nat, s3. split; [|auto].
    change (frame_bytes (txBlock s) (txedLen s) (S m) (txLen s))
      with ([] ++ [(word8 (txBlock s) (txedLen s), txedLen s + 1 =? txLen s)]
               ++ frame_bytes (txBlock s) (txedLen s + 1) m (txLen s)).
    eapply exec_app; [exact X1|]. eapply exec_app.
    + rewrite <- HB, <- HL, <- HE, <- O2. apply exec_step; auto.
    + rewrite HB2, HL2, HE2, HB, HL, HE in X3. exact X3.
Qed.

(** ** The handshake with the debug interface *)

(** X6. A request is not withdrawn before the debug interface has been seen
    to take it: in every state of the decoder, a tick lowers [go] only when
    the synchronised [done] is low. *)
Theorem go_falls_only_once_engine_busy (i : Input) (s : State) :
  dbgif_go s = true -> dbgif_go (step i s) = false -> dbg_done s = false.
Proof.
  intros G. unfold step, decoder.
  destruct (dbg_done s) eqn:D; [|reflexivity].
  destruct (fsm s) eqn:E; unfold_handlers.
  all: rewrite ?G, ?D.
  all: split_ifs; simpl; rewrite ?G; intros; simpl in *; congruence.
Qed.

Lemma go_falls_only_once_engine_busy_witness :
  dbg_done (set_fsm DAP_Wait_Done (set_dbgif_go true reset_state)) = false.
Proof.
  apply (go_falls_only_once_engine_busy quiet); reflexivity.
Defined.



(** One tick of [RESPOND] keeps the configuration. *)
Lemma step_RESPOND_cfg i s :
  fsm s = RESPOND -> cfg_view (step i s) = cfg_view s /\ dbgif_go (step i s) = dbgif_go s.
Proof.
  intros E. unfold step, decoder. rewrite E. unfold st_RESPOND, andthen, skip, cfg_view.
  split_ifs; simpl; split; reflexivity.
Qed.


(** ** From a frame to its answer *)

Lemma step_collecting i s :
  collecting s = true ->
  cfg_view (step i s) = cfg_view s /\ dbgif_go (step i s) = dbgif_go s.
Proof.
  unfold collecting, step, decoder, cfg_view.
  destruct (fsm s) eqn:E; try discriminate; intros C.
  - unfold_handlers. split_ifs; simpl; split; reflexivity.
  - unfold st_RxParams. apply negb_true_iff in C. rewrite C.
    unfold_handlers. split_ifs; simpl; split; reflexivity.
Qed.

Lemma run_inv env (P : State -> Prop) (c : State -> bool) :
  (forall i x, c x = true -> P x -> P (step i x)) ->
  forall n t0 s,
    (forall t, (t < n)%nat -> c (run env t0 t s) = true) -> P s ->
    forall t, (t <= n)%nat -> P (run env t0 t s).
Proof.
  intros Hstep. induction n as [|n IH]; intros t0 s Hc Ps t Ht.
  - replace t with 0%nat by lia. exact Ps.
  - destruct t as [|t]; [exact Ps|]. simpl. apply IH; [|apply Hstep; auto|lia].
    + intros u Hu. apply (Hc (S u)). lia.
    + apply (Hc 0%nat). lia.
Qed.

Lemma rx_collecting frame env L : forall n j s,
  fsm s = RxParams -> rxLen s = L -> rxedLen s = Z.of_nat j ->
  Z.of_nat (j + n) <= L <= 7 -> (j + n <= length frame)%nat ->
  (Z.of_nat (length frame) = L \/ (j + n < length frame)%nat) ->
  forall t, (t < n)%nat -> collecting (run (feed frame env) j t s) = true.
Proof.
  induction n as [|n IH]; intros j s E HL Hj Hle Hlen Hend t Ht; [lia|].
  destruct t as [|t].
  - simpl. unfold collecting. rewrite E. apply negb_true_iff, Z.eqb_neq. lia.
  - destruct (nth_error frame j) as [b|] eqn:Hb.
    2:{ apply nth_error_None in Hb. lia. }
    pose proof (feed_at frame env j b Hb) as Hin.
    destruct (step_RxParams_collect (feed frame env j) s E) as (E1 & L1 & R1 & _).
    + lia.
    + lia.
    + rewrite Hin. reflexivity.
    + rewrite Hin, with_byte_last. intros Hlast. apply Nat.eqb_eq in Hlast. lia.
    + simpl. apply (IH (S j) _ E1); try lia.
Qed.

(** The frame is collected without touching the configuration or [go]. *)
Lemma decode_frame_cfg env frame op L s :
  fsm s = IDLE -> nth_error frame 0 = Some op ->
  declared_len (trunc 8 op) = Some L -> Z.of_nat (length frame) = L ->
  forall t, (t <= length frame)%nat ->
    cfg_view (run (feed frame env) 0 t s) = cfg_view s /\
    dbgif_go (run (feed frame env) 0 t s) = dbgif_go s.
Proof.
  intros E Hop HL Hlen.
  apply (run_inv (feed frame env)
           (fun x => cfg_view x = cfg_view s /\ dbgif_go x = dbgif_go s) collecting).
  - intros i x C [Hc Hg]. destruct (step_collecting i x C) as [Hc' Hg']. split; congruence.
  - intros t Ht. destruct t as [|t].
    + simpl. unfold collecting. now rewrite E.
    + pose proof (declared_len_range _ _ HL) as HLr.
      pose proof (feed_at frame env 0 op Hop) as Hin.
      destruct (step_IDLE_accept (feed frame env 0) s L E) as (E1 & L1 & R1 & _).
      * now rewrite Hin.
      * now rewrite Hin.
      * now rewrite Hin, with_byte_payload.
      * rewrite Hin, with_byte_last. intros Hl. apply Nat.eqb_eq in Hl. lia.
      * simpl. apply (rx_collecting frame env L (length frame - 1) 1 _ E1 L1); auto; lia.
  - auto.
Qed.

(** A command whose handler answers at once: the frame is collected, the
    handler runs for one tick and prepares the answer [tb] of [n] bytes, the
    streamer sends it.  [c] is the configuration the handler leaves. *)
Lemma simple_command_at env frame op L s c tb (n : nat) :
  fsm s = IDLE -> consumer_fair env -> nth_error frame 0 = Some op ->
  declared_len (trunc 8 op) = Some L -> Z.of_nat (length frame) = L ->
  let fenv := feed frame env in
  let s1 := run fenv 0 (length frame) s in
  let i := fenv (length frame) in
  (fsm s1 = RxParams -> rxedLen s1 = rxLen s1 -> cfg_view s1 = cfg_view s ->
   tx_view s1 = (tx_default (txBlock s) (trunc 8 op), 2, 0) ->
   (forall k, (k < length frame)%nat ->
      word8 (rxBlock s1) (Z.of_nat k) = trunc 8 (nth k frame 0)) ->
   fsm (step i s1) = RESPOND /\ dbgif_go (step i s1) = dbgif_go s1 /\
   tx_view (step i s1) = (tb, Z.of_nat n, 0) /\ cfg_view (step i s1) = c /\
   out_byte (step i s1) = []) ->
  Z.of_nat n < 65536 ->
  exists T,
    emitted fenv 0 T s = frame_bytes tb 0 n (Z.of_nat n) /\
    fsm (run fenv 0 T s) = IDLE /\ busy (run fenv 0 T s) = false /\
    cfg_view (run fenv 0 T s) = c /\ dbgif_go (run fenv 0 T s) = dbgif_go s.
Proof.
  intros E Hfair Hop HL Hlen fenv s1 i Hh Hn.
  destruct (decode_frame env frame op L s E Hop HL Hlen) as (s1' & X1 & E1 & R1 & V1 & B1).
  destruct (decode_frame_cfg env frame op L s E Hop HL Hlen (length frame) (le_n _))
    as [C1 G1].
  fold fenv in X1, C1, G1. destruct X1 as (Rn1 & Em1 & _).
  fold s1 in Rn1, C1, G1. subst s1'.
  destruct (Hh E1 R1 C1 V1 B1) as (E2 & G2 & V2 & C2 & O2).
  unfold tx_view in V2. injection V2 as HB2 HL2 HE2.
  assert (Hkeep : forall i x, fsm x = RESPOND ->
            cfg_view x = c /\ dbgif_go x = dbgif_go s ->
            cfg_view (step i x) = c /\ dbgif_go (step i x) = dbgif_go s).
  { intros j x Ex [Hc Hg]. destruct (step_RESPOND_cfg j x Ex). split; congruence. }
  destruct (respond_drain_inv fenv _ (feed_fair _ _ Hfair) Hkeep n (S (length frame))
              (step i s1))
    as (T3 & s3 & X3 & E3 & B3); try lia; auto.
  { split; congruence. }
  exists (length frame + (1 + T3))%nat.
  pose proof (exec_end _ _ _ _ _ _ _ X3) as [C3 G3].
  destruct X3 as (Rn3 & Em3 & _).
  rewrite run_add, emitted_add, Em1.
  change (run fenv (0 + length frame) (1 + T3) (run fenv 0 (length frame) s))
    with (run fenv (S (length frame)) T3 (step i s1)).
  change (emitted fenv (0 + length frame) (1 + T3) (run fenv 0 (length frame) s))
    with (out_byte (step i s1) ++ emitted fenv (S (length frame)) T3 (step i s1)).
  rewrite O2, Em3, Rn3, HB2, HL2, HE2. auto.
Qed.

Lemma simple_command env frame op L s c tb (n : nat) :
  fsm s = IDLE -> consumer_fair env -> nth_error frame 0 = Some op ->
  declared_len (trunc 8 op) = Some L -> Z.of_nat (length frame) = L ->
  (forall i s1,
     fsm s1 = RxParams -> rxedLen s1 = rxLen s1 -> cfg_view s1 = cfg_view s ->
     tx_view s1 = (tx_default (txBlock s) (trunc 8 op), 2, 0) ->
     (forall k, (k < length frame)%nat ->
        word8 (rxBlock s1) (Z.of_nat k) = trunc 8 (nth k frame 0)) ->
     fsm (step i s1) = RESPOND /\ dbgif_go (step i s1) = dbgif_go s1 /\
     tx_view (step i s1) = (tb i, Z.of_nat n, 0) /\ cfg_view (step i s1) = c /\
     out_byte (step i s1) = []) ->
  Z.of_nat n < 65536 ->
  let fenv := feed frame env in
  exists T,
    emitted fenv 0 T s = frame_bytes (tb (fenv (length frame))) 0 n (Z.of_nat n) /\
    fsm (run fenv 0 T s) = IDLE /\ busy (run fenv 0 T s) = false /\
    cfg_view (run fenv 0 T s) = c /\ dbgif_go (run fenv 0 T s) = dbgif_go s.
Proof.
  intros E Hfair Hop HL Hlen Hh Hn fenv.
  apply (simple_command_at env frame op L s c _ n E Hfair Hop HL Hlen); [|exact Hn].
  apply Hh.
Qed.


(** ** Commands that configure the debug interface *)

Lemma bits_split v lo w1 w2 :
  0 <= lo -> 0 <= w1 -> 0 <= w2 ->
  bits v lo (w1 + w2) = bits v lo w1 + 2 ^ w1 * bits v (lo + w1) w2.
Proof.
  intros Hlo H1 H2. unfold bits, trunc.
  rewrite !Z.land_ones by lia.
  rewrite <- (Z.shiftr_shiftr v lo w1) by lia.
  rewrite (Z.shiftr_div_pow2 (Z.shiftr v lo) w1) by lia.
  rewrite Z.pow_add_r by lia. apply Z.rem_mul_r; lia.
Qed.

Lemma trunc8_byte b : byte b -> trunc 8 b = b.
Proof. intros H. apply trunc_small. unfold byte in H. lia. Qed.


Lemma rx_bits16 rb lo k :
  lo = 8 * k -> 0 <= k -> bits rb lo 16 = word8 rb k + 256 * word8 rb (k + 1).
Proof.
  intros -> Hk. change 16 with (8 + 8). rewrite bits_split by lia.
  unfold word8. now replace (8 * (k + 1)) with (8 * k + 8) by lia.
Qed.



Lemma frame_bytes_2 tb :
  frame_bytes tb 0 2 2 = [(word8 tb 0, false); (word8 tb 1, true)].
Proof. reflexivity. Qed.
























(** ** Connect and the session flags *)

Lemma step_dispatch_Connect i s :
  fsm s = RxParams -> rxedLen s = rxLen s -> word8 (rxBlock s) 0 = DAP_Connect ->
  let swd := (word8 (rxBlock s) 1 =? 0) || (word8 (rxBlock s) 1 =? 1) in
  fsm (step i s) = (if swd then DAP_Wait_Connect_Done else RESPOND) /\
  dbgif_go (step i s) = (if swd then true else dbgif_go s) /\
  tx_view (step i s)
  = ((if swd
      then trunc 112 (set_bits (tx_invalid (txBlock s)) 0 16
                        (val (Cat [sig DAP_Connect 8; C 1 8])))
      else tx_invalid (txBlock s)),
     (if swd then 2 else 1), txedLen s) /\
  cfg_view (step i s)
  = (waitRetry s, matchRetry s, (if swd then CMD_SET_SWD else dbgif_command s),
     dbgif_dwrite s, dbgif_apndp s, dbgif_rnw s, dbgif_addr32 s,
     running s, connected s, ndev s, irlength s) /\
  out_byte (step i s) = [].
Proof.
  intros E R Hop. cbv zeta. dispatch_to (RESP_Connect_Setup s).
  unfold RESP_Connect_Setup. rewrite Hop.
  change (nonzero (Z.land DAP_CAPABILITIES (Z.shiftl 1 0))) with true.
  change (nonzero (Z.land DAP_CAPABILITIES (Z.shiftl 1 1))) with false.
  change (DAP_CONNECT_DEFAULT =? 1) with true. rewrite andb_true_r.
  unfold RESP_Invalid, andthen, skip, tx_view, cfg_view, out_byte, tx_invalid.
  destruct ((word8 (rxBlock s) 1 =? 0) || (word8 (rxBlock s) 1 =? 1)); simpl; auto 10.
Qed.

Lemma frame_bytes_1 tb : frame_bytes tb 0 1 1 = [(word8 tb 0, true)].
Proof. reflexivity. Qed.



(** X14. DAP_Connect with any other port, JTAG (2) included: the answer is
    the single byte 0xFF, the debug interface is not asked for anything ([go]
    and the command register keep their values). *)
Theorem connect_other_port_refused env s port :
  fsm s = IDLE -> consumer_fair env -> byte port -> 2 <= port ->
  let fenv := feed [DAP_Connect; port] env in
  exists T,
    emitted fenv 0 T s = [(DAP_Invalid, true)] /\
    fsm (run fenv 0 T s) = IDLE /\
    dbgif_command (run fenv 0 T s) = dbgif_command s /\
    dbgif_go (run fenv 0 T s) = dbgif_go s.
Proof.
  intros E Hfair Hb Hp fenv.
  destruct (simple_command env [DAP_Connect; port] DAP_Connect 2 s (cfg_view s)
              (fun _ => tx_invalid (tx_default (txBlock s) DAP_Connect)) 1 E Hfair)
    as (T & Em & E' & _ & C' & G'); try reflexivity; try lia.
  - intros i s1 E1 R1 C1 V1 B.
    frame_byte B 0%nat B0. frame_byte B 1%nat B1. rewrite trunc8_byte in B1 by assumption.
    assert (Hswd : (word8 (rxBlock s1) 1 =? 0) || (word8 (rxBlock s1) 1 =? 1) = false).
    { rewrite B1. apply orb_false_iff. split; apply Z.eqb_neq; lia. }
    destruct (step_dispatch_Connect i s1 E1 R1 B0) as (E2 & G2 & V2 & C2 & O2).
    rewrite Hswd in E2, G2, V2, C2.
    unfold tx_view in V1. injection V1 as HB1 HL1 HE1.
    repeat split; auto.
    + rewrite V2, HB1, HE1. reflexivity.
    + rewrite C2, <- C1. reflexivity.
  - exists T. subst fenv.
    unfold cfg_view in C'. injection C' as _ _ -> _ _ _ _ _ _ _ _.
    rewrite Em, frame_bytes_1, word8_tx_invalid_0. repeat split; auto.
Qed.

Lemma connect_other_port_refused_witness :
  let fenv := feed [DAP_Connect; 2] quiet_env in
  exists T,
    emitted fenv 0 T reset_state = [(DAP_Invalid, true)] /\
    fsm (run fenv 0 T reset_state) = IDLE /\
    dbgif_command (run fenv 0 T reset_state) = dbgif_command reset_state /\
    dbgif_go (run fenv 0 T reset_state) = dbgif_go reset_state.
Proof.
  apply (connect_other_port_refused quiet_env reset_state 2).
  - reflexivity.
  - exact quiet_env_fair.
  - unfold byte; lia.
  - lia.
Defined.

Lemma step_dispatch_HostStatus i s :
  fsm s = RxParams -> rxedLen s = rxLen s -> word8 (rxBlock s) 0 = DAP_HostStatus ->
  let ty := word8 (rxBlock s) 1 in
  let ok := (ty =? 0) || (ty =? 1) in
  fsm (step i s) = RESPOND /\ dbgif_go (step i s) = dbgif_go s /\
  tx_view (step i s)
  = ((if ok then txBlock s else tx_invalid (txBlock s)),
     (if ok then txLen s else 1), txedLen s) /\
  cfg_view (step i s)
  = (waitRetry s, matchRetry s, dbgif_command s,
     dbgif_dwrite s, dbgif_apndp s, dbgif_rnw s, dbgif_addr32 s,
     (if ty =? 1 then word8 (rxBlock s) 2 =? 1 else running s),
     (if ty =? 0 then word8 (rxBlock s) 2 =? 1 else connected s), ndev s, irlength s) /\
  out_byte (step i s) = [].
Proof.
  intros E R Hop. cbv zeta. dispatch_to (RESP_HostStatus s).
  unfold RESP_HostStatus, RESP_Invalid, andthen, skip, tx_view, cfg_view, out_byte, tx_invalid.
  set (st := word8 (rxBlock s) 2 =? 1).
  destruct (word8 (rxBlock s) 1 =? 0) eqn:H0;
    destruct (word8 (rxBlock s) 1 =? 1) eqn:H1; simpl; auto 10.
  apply Z.eqb_eq in H0, H1. congruence.
Qed.

(** X15. DAP_HostStatus: type 0 sets the [connected] flag and type 1 the
    [running] flag, each to whether the status byte is 1, and the answer is
    the opcode followed by 0; any other type changes neither flag and is
    answered with the single byte 0xFF.  The debug interface is not involved. *)
Theorem host_status_sets_flags env s ty st :
  fsm s = IDLE -> consumer_fair env -> byte ty -> byte st ->
  let fenv := feed [DAP_HostStatus; ty; st] env in
  exists T,
    emitted fenv 0 T s
    = (if ty <? 2 then [(DAP_HostStatus, false); (0, true)] else [(DAP_Invalid, true)]) /\
    fsm (run fenv 0 T s) = IDLE /\
    connected (run fenv 0 T s) = (if ty =? 0 then st =? 1 else connected s) /\
    running (run fenv 0 T s) = (if ty =? 1 then st =? 1 else running s) /\
    dbgif_go (run fenv 0 T s) = dbgif_go s.
Proof.
  intros E Hfair Hty Hst fenv.
  set (ok := (ty =? 0) || (ty =? 1)).
  destruct (simple_command env [DAP_HostStatus; ty; st] DAP_HostStatus 3 s
              (waitRetry s, matchRetry s, dbgif_command s,
               dbgif_dwrite s, dbgif_apndp s, dbgif_rnw s, dbgif_addr32 s,
               (if ty =? 1 then st =? 1 else running s),
               (if ty =? 0 then st =? 1 else connected s), ndev s, irlength s)
              (fun _ => if ok then tx_default (txBlock s) DAP_HostStatus
                        else tx_invalid (tx_default (txBlock s) DAP_HostStatus))
              (if ok then 2 else 1) E Hfair)
    as (T & Em & E' & _ & C' & G'); try reflexivity; try (destruct ok; simpl; lia).
  - intros i s1 E1 R1 C1 V1 B.
    frame_byte B 0%nat B0. frame_byte B 1%nat B1. frame_byte B 2%nat B2.
    rewrite trunc8_byte in B1, B2 by assumption.
    destruct (step_dispatch_HostStatus i s1 E1 R1 B0) as (E2 & G2 & V2 & C2 & O2).
    rewrite B1 in V2, C2. rewrite B2 in C2. fold ok in V2.
    unfold tx_view in V1. injection V1 as HB1 HL1 HE1.
    repeat split; auto.
    + rewrite V2, HB1, HL1, HE1. destruct ok; reflexivity.
    + rewrite C2. unfold cfg_view in C1. now injection C1 as -> -> -> -> -> -> -> -> -> -> ->.
  - exists T. subst fenv.
    unfold cfg_view in C'. injection C' as _ _ _ _ _ _ _ -> -> _ _.
    rewrite Em. repeat split; auto. unfold byte in Hty.
    assert (Hok : ok = (ty <? 2)).
    { subst ok. destruct (Z.eqb_spec ty 0), (Z.eqb_spec ty 1), (Z.ltb_spec ty 2);
        simpl; auto; lia. }
    rewrite Hok. destruct (ty <? 2).
    + now rewrite frame_bytes_2, word8_tx_default_0, word8_tx_default_1.
    + now rewrite frame_bytes_1, word8_tx_invalid_0.
Qed.

Lemma host_status_sets_flags_witness :
  let fenv := feed [DAP_HostStatus; 1; 1] quiet_env in
  exists T,
    emitted fenv 0 T reset_state
    = (if 1 <? 2 then [(DAP_HostStatus, false); (0, true)] else [(DAP_Invalid, true)]) /\
    fsm (run fenv 0 T reset_state) = IDLE /\
    connected (run fenv 0 T reset_state) = (if 1 =? 0 then 1 =? 1 else connected reset_state) /\
    running (run fenv 0 T reset_state) = (if 1 =? 1 then 1 =? 1 else running reset_state) /\
    dbgif_go (run fenv 0 T reset_state) = dbgif_go reset_state.
Proof.
  apply (host_status_sets_flags quiet_env reset_state 1 1).
  - reflexivity.
  - exact quiet_env_fair.
  - unfold byte; lia.
  - unfold byte; lia.
Defined.

(** ** Info, SWO and JTAG configuration *)

Lemma step_dispatch_Info_unknown i s :
  fsm s = RxParams -> rxedLen s = rxLen s -> word8 (rxBlock s) 0 = DAP_Info ->
  one_of (word8 (rxBlock s) 1) info_ids = false ->
  fsm (step i s) = RESPOND /\ dbgif_go (step i s) = dbgif_go s /\
  tx_view (step i s) = (tx_invalid (txBlock s), 1, txedLen s) /\
  cfg_view (step i s) = cfg_view s /\ out_byte (step i s) = [].
Proof.
  intros E R Hop Hid. dispatch_to (RESP_Info i s).
  unfold one_of, info_ids, existsb in Hid.
  repeat (apply orb_false_iff in Hid; destruct Hid as [? Hid]).
  unfold RESP_Info, one_of, existsb.
  repeat match goal with H : (word8 _ 1 =? _) = false |- _ => rewrite H; clear H end.
  unfold RESP_Invalid, andthen, tx_view, cfg_view, out_byte, tx_invalid. simpl. auto 10.
Qed.

(** X16. DAP_Info with a sub-ID the handler has no case for (anything but
    0x01..0x06, 0xF0, 0xF1, 0xFD, 0xFE, 0xFF) is answered with the single byte
    0xFF. *)
Theorem info_unknown_id_invalid env s id :
  fsm s = IDLE -> consumer_fair env -> byte id -> one_of id info_ids = false ->
  let fenv := feed [DAP_Info; id] env in
  exists T,
    emitted fenv 0 T s = [(DAP_Invalid, true)] /\
    fsm (run fenv 0 T s) = IDLE /\
    cfg_view (run fenv 0 T s) = cfg_view s /\
    dbgif_go (run fenv 0 T s) = dbgif_go s.
Proof.
  intros E Hfair Hb Hid fenv.
  destruct (simple_command env [DAP_Info; id] DAP_Info 2 s (cfg_view s)
              (fun _ => tx_invalid (tx_default (txBlock s) DAP_Info)) 1 E Hfair)
    as (T & Em & E' & _ & C' & G'); try reflexivity; try lia.
  - intros i s1 E1 R1 C1 V1 B.
    frame_byte B 0%nat B0. frame_byte B 1%nat B1. rewrite trunc8_byte in B1 by assumption.
    rewrite <- B1 in Hid.
    destruct (step_dispatch_Info_unknown i s1 E1 R1 B0 Hid) as (E2 & G2 & V2 & C2 & O2).
    unfold tx_view in V1. injection V1 as HB1 HL1 HE1.
    repeat split; auto.
    + rewrite V2, HB1, HE1. reflexivity.
    + congruence.
  - exists T. subst fenv.
    rewrite Em, frame_bytes_1, word8_tx_invalid_0. repeat split; auto.
Qed.

Lemma info_unknown_id_invalid_witness :
  let fenv := feed [DAP_Info; 0x07] quiet_env in
  exists T,
    emitted fenv 0 T reset_state = [(DAP_Invalid, true)] /\
    fsm (run fenv 0 T reset_state) = IDLE /\
    cfg_view (run fenv 0 T reset_state) = cfg_view reset_state /\
    dbgif_go (run fenv 0 T reset_state) = dbgif_go reset_state.
Proof.
  apply (info_unknown_id_invalid quiet_env reset_state 0x07).
  - reflexivity.
  - exact quiet_env_fair.
  - unfold byte; lia.
  - reflexivity.
Defined.

Lemma step_dispatch_swo_check i s lim :
  fsm s = RxParams -> rxedLen s = rxLen s ->
  In (word8 (rxBlock s) 0, lim)
     [(DAP_SWO_Transport, 2); (DAP_SWO_Mode, 2); (DAP_SWO_Control, 1)] ->
  fsm (step i s) = RESPOND /\ dbgif_go (step i s) = dbgif_go s /\
  tx_view (step i s)
  = ((if word8 (rxBlock s) 1 >? lim
      then trunc 112 (set_bits (txBlock s) 8 8 (val (C 0xff 8))) else txBlock s),
     txLen s, txedLen s) /\
  cfg_view (step i s) = cfg_view s /\ out_byte (step i s) = [].
Proof.
  intros E R Hin. simpl in Hin.
  destruct Hin as [H | [H | [H | []]]]; injection H as Hop <-; symmetry in Hop.
  - dispatch_to (RESP_SWO_Transport s).
    unfold RESP_SWO_Transport, andthen, skip, tx_view, cfg_view, out_byte.
    destruct (word8 (rxBlock s) 1 >? 2); simpl; auto 10.
  - dispatch_to (RESP_SWO_Mode s).
    unfold RESP_SWO_Mode, andthen, skip, tx_view, cfg_view, out_byte.
    destruct (word8 (rxBlock s) 1 >? 2); simpl; auto 10.
  - dispatch_to (RESP_SWO_Control s).
    unfold RESP_SWO_Control, andthen, skip, tx_view, cfg_view, out_byte.
    destruct (word8 (rxBlock s) 1 >? 1); simpl; auto 10.
Qed.

(** X17. DAP_SWO_Transport, DAP_SWO_Mode and DAP_SWO_Control check their
    operand against a limit (2, 2 and 1) and do nothing else: the answer is
    the opcode followed by 0 when the operand is within the limit and by 0xFF
    when it is above, and the configuration and [go] keep their values. *)
Theorem swo_setting_range_checked env s op lim v :
  fsm s = IDLE -> consumer_fair env -> byte v ->
  In (op, lim) [(DAP_SWO_Transport, 2); (DAP_SWO_Mode, 2); (DAP_SWO_Control, 1)] ->
  let fenv := feed [op; v] env in
  exists T,
    emitted fenv 0 T s = [(op, false); ((if v >? lim then 0xFF else 0), true)] /\
    fsm (run fenv 0 T s) = IDLE /\
    cfg_view (run fenv 0 T s) = cfg_view s /\
    dbgif_go (run fenv 0 T s) = dbgif_go s.
Proof.
  intros E Hfair Hb Hin fenv.
  assert (Hop : trunc 8 op = op /\ declared_len (trunc 8 op) = Some 2).
  { simpl in Hin. destruct Hin as [H | [H | [H | []]]]; injection H as <- <-; now split. }
  destruct Hop as [Hop HL].
  destruct (simple_command env [op; v] op 2 s (cfg_view s)
              (fun _ => if v >? lim
                        then trunc 112 (set_bits (tx_default (txBlock s) op) 8 8 (val (C 0xff 8)))
                        else tx_default (txBlock s) op) 2 E Hfair)
    as (T & Em & E' & _ & C' & G'); try reflexivity; try lia; try exact HL.
  - intros i s1 E1 R1 C1 V1 B.
    frame_byte B 0%nat B0. frame_byte B 1%nat B1. rewrite trunc8_byte in B1 by assumption.
    rewrite Hop in B0, V1.
    rewrite <- B0 in Hin.
    destruct (step_dispatch_swo_check i s1 lim E1 R1 Hin) as (E2 & G2 & V2 & C2 & O2).
    unfold tx_view in V1. injection V1 as HB1 HL1 HE1.
    repeat split; auto.
    + rewrite V2, HB1, HL1, HE1, B1. reflexivity.
    + congruence.
  - exists T. subst fenv.
    rewrite Em, frame_bytes_2. repeat split; auto.
    destruct (v >? lim).
    + rewrite (word8_tx_outside _ 8 8 _ 0), (word8_trunc 112 _ 0) by lia.
      rewrite (word8_tx_inside _ 8 8 _ 1) by lia.
      now rewrite word8_tx_default_0, Hop.
    + now rewrite word8_tx_default_0, word8_tx_default_1, Hop.
Qed.

Lemma swo_setting_range_checked_witness :
  let fenv := feed [DAP_SWO_Control; 2] quiet_env in
  exists T,
    emitted fenv 0 T reset_state
    = [(DAP_SWO_Control, false); ((if 2 >? 1 then 0xFF else 0), true)] /\
    fsm (run fenv 0 T reset_state) = IDLE /\
    cfg_view (run fenv 0 T reset_state) = cfg_view reset_state /\
    dbgif_go (run fenv 0 T reset_state) = dbgif_go reset_state.
Proof.
  apply (swo_setting_range_checked quiet_env reset_state DAP_SWO_Control 1 2).
  - reflexivity.
  - exact quiet_env_fair.
  - unfold byte; lia.
  - right. right. left. reflexivity.
Defined.

Lemma step_dispatch_SWO_Baudrate i s :
  fsm s = RxParams -> rxedLen s = rxLen s -> word8 (rxBlock s) 0 = DAP_SWO_Baudrate ->
  fsm (step i s) = RESPOND /\ dbgif_go (step i s) = dbgif_go s /\
  tx_view (step i s) = (trunc 112 (rxBlock s), 5, txedLen s) /\
  cfg_view (step i s) = cfg_view s /\ out_byte (step i s) = [].
Proof.
  intros E R Hop. dispatch_to (RESP_SWO_Baudrate s).
  unfold RESP_SWO_Baudrate, andthen, tx_view, cfg_view, out_byte. simpl. auto 10.
Qed.

Lemma frame_bytes_5 tb :
  frame_bytes tb 0 5 5
  = [(word8 tb 0, false); (word8 tb 1, false); (word8 tb 2, false); (word8 tb 3, false);
     (word8 tb 4, true)].
Proof. reflexivity. Qed.

(** X18. DAP_SWO_Baudrate answers with its own frame: the opcode and the
    four bytes of the requested baudrate, and changes nothing else. *)
Theorem swo_baudrate_echoed env s b0 b1 b2 b3 :
  fsm s = IDLE -> consumer_fair env -> byte b0 -> byte b1 -> byte b2 -> byte b3 ->
  let fenv := feed [DAP_SWO_Baudrate; b0; b1; b2; b3] env in
  exists T,
    emitted fenv 0 T s
    = [(DAP_SWO_Baudrate, false); (b0, false); (b1, false); (b2, false); (b3, true)] /\
    fsm (run fenv 0 T s) = IDLE /\
    cfg_view (run fenv 0 T s) = cfg_view s /\
    dbgif_go (run fenv 0 T s) = dbgif_go s.
Proof.
  intros E Hfair H0 H1 H2 H3 fenv.
  destruct (decode_frame env [DAP_SWO_Baudrate; b0; b1; b2; b3] DAP_SWO_Baudrate 5 s E)
    as (s1 & X1 & E1 & R1 & V1 & B); try reflexivity.
  destruct X1 as (Rn & _ & _). fold fenv in Rn. simpl length in Rn.
  frame_byte B 0%nat B0. frame_byte B 1%nat B1. frame_byte B 2%nat B2.
  frame_byte B 3%nat B3. frame_byte B 4%nat B4.
  rewrite trunc8_byte in B1, B2, B3, B4 by assumption.
  destruct (simple_command_at env [DAP_SWO_Baudrate; b0; b1; b2; b3] DAP_SWO_Baudrate 5 s
              (cfg_view s) (trunc 112 (rxBlock s1)) 5 E Hfair)
    as (T & Em & E' & _ & C' & G'); try reflexivity; try lia.
  - fold fenv. simpl length. rewrite Rn. intros _ _ C1 V1' _.
    destruct (step_dispatch_SWO_Baudrate (fenv 5%nat) s1 E1 R1 B0)
      as (E2 & G2 & V2 & C2 & O2).
    unfold tx_view in V1'. injection V1' as HB1 HL1 HE1.
    repeat split; auto; [|congruence].
    rewrite V2, HE1. reflexivity.
  - exists T. fold fenv in Em, E', C', G'.
    rewrite Em, frame_bytes_5, !word8_trunc by lia.
    rewrite B0, B1, B2, B3, B4. repeat split; auto.
Qed.

Lemma swo_baudrate_echoed_witness :
  let fenv := feed [DAP_SWO_Baudrate; 0x00; 0xC2; 0x01; 0x00] quiet_env in
  exists T,
    emitted fenv 0 T reset_state
    = [(DAP_SWO_Baudrate, false); (0x00, false); (0xC2, false); (0x01, false);
       (0x00, true)] /\
    fsm (run fenv 0 T reset_state) = IDLE /\
    cfg_view (run fenv 0 T reset_state) = cfg_view reset_state /\
    dbgif_go (run fenv 0 T reset_state) = dbgif_go reset_state.
Proof.
  apply (swo_baudrate_echoed quiet_env reset_state 0x00 0xC2 0x01 0x00).
  - reflexivity.
  - exact quiet_env_fair.
  - unfold byte; lia.
  - unfold byte; lia.
  - unfold byte; lia.
  - unfold byte; lia.
Defined.

Lemma step_dispatch_SWO_ExtendedStatus i s :
  fsm s = RxParams -> rxedLen s = rxLen s ->
  word8 (rxBlock s) 0 = DAP_SWO_ExtendedStatus ->
  let bad := nonzero (Z.land (word8 (rxBlock s) 1) 0xf8) in
  fsm (step i s) = RESPOND /\ dbgif_go (step i s) = dbgif_go s /\
  tx_view (step i s)
  = ((if bad then tx_invalid (txBlock s)
      else trunc 112 (set_bits (txBlock s) 8 104
             (val (Cat [C 0 8; C 0x11223344 32; C 0x55667788 32; C 0x99aabbcc 32])))),
     (if bad then 1 else 14), txedLen s) /\
  cfg_view (step i s) = cfg_view s /\ out_byte (step i s) = [].
Proof.
  intros E R Hop. cbv zeta. dispatch_to (RESP_SWO_ExtendedStatus s).
  unfold RESP_SWO_ExtendedStatus, RESP_Invalid, andthen, tx_view, cfg_view, out_byte,
    tx_invalid.
  set (v := val (Cat [C 0 8; C 0x11223344 32; C 0x55667788 32; C 0x99aabbcc 32])).
  destruct (nonzero (Z.land (word8 (rxBlock s) 1) 0xf8)); simpl; auto 10.
Qed.

Lemma frame_bytes_14 tb :
  frame_bytes tb 0 14 14
  = [(word8 tb 0, false); (word8 tb 1, false); (word8 tb 2, false); (word8 tb 3, false);
     (word8 tb 4, false); (word8 tb 5, false); (word8 tb 6, false); (word8 tb 7, false);
     (word8 tb 8, false); (word8 tb 9, false); (word8 tb 10, false); (word8 tb 11, false);
     (word8 tb 12, false); (word8 tb 13, true)].
Proof. reflexivity. Qed.

(** X19. DAP_SWO_ExtendedStatus: a control byte with any of the bits 3..7
    set is answered with the single byte 0xFF; otherwise the answer has 14
    bytes, the opcode, 0, and the three fixed words 0x11223344, 0x55667788 and
    0x99aabbcc, low byte first, whichever of the bits 0..2 are set. *)
Theorem swo_extended_status_answer env s ctl :
  fsm s = IDLE -> consumer_fair env -> byte ctl ->
  let fenv := feed [DAP_SWO_ExtendedStatus; ctl] env in
  exists T,
    emitted fenv 0 T s
    = (if Z.land ctl 0xF8 =? 0
       then [(DAP_SWO_ExtendedStatus, false); (0, false);
             (0x44, false); (0x33, false); (0x22, false); (0x11, false);
             (0x88, false); (0x77, false); (0x66, false); (0x55, false);
             (0xcc, false); (0xbb, false); (0xaa, false); (0x99, true)]
       else [(DAP_Invalid, true)]) /\
    fsm (run fenv 0 T s) = IDLE /\
    cfg_view (run fenv 0 T s) = cfg_view s /\
    dbgif_go (run fenv 0 T s) = dbgif_go s.
Proof.
  intros E Hfair Hb fenv.
  set (bad := nonzero (Z.land ctl 0xf8)).
  destruct (simple_command env [DAP_SWO_ExtendedStatus; ctl] DAP_SWO_ExtendedStatus 2 s
              (cfg_view s)
              (fun _ => if bad then tx_invalid (tx_default (txBlock s) DAP_SWO_ExtendedStatus)
                 else trunc 112 (set_bits (tx_default (txBlock s) DAP_SWO_ExtendedStatus) 8 104
                   (val (Cat [C 0 8; C 0x11223344 32; C 0x55667788 32; C 0x99aabbcc 32]))))
              (if bad then 1 else 14) E Hfair)
    as (T & Em & E' & _ & C' & G'); try reflexivity; try (destruct bad; simpl; lia).
  - intros i s1 E1 R1 C1 V1 B.
    frame_byte B 0%nat B0. frame_byte B 1%nat B1. rewrite trunc8_byte in B1 by assumption.
    destruct (step_dispatch_SWO_ExtendedStatus i s1 E1 R1 B0) as (E2 & G2 & V2 & C2 & O2).
    rewrite B1 in V2. fold bad in V2.
    unfold tx_view in V1. injection V1 as HB1 HL1 HE1.
    repeat split; auto; [|congruence].
    rewrite V2, HB1, HE1. destruct bad; reflexivity.
  - exists T. subst fenv. rewrite Em. repeat split; auto.
    unfold bad, nonzero. destruct (Z.land ctl 0xF8 =? 0); cbn [negb].
    + rewrite frame_bytes_14.
      rewrite (word8_tx_outside _ 8 104 _ 0), (word8_trunc 112 _ 0), word8_tx_default_0 by lia.
      rewrite !(word8_tx_inside _ 8 104) by lia. reflexivity.
    + now rewrite frame_bytes_1, word8_tx_invalid_0.
Qed.

Lemma swo_extended_status_answer_witness :
  let fenv := feed [DAP_SWO_ExtendedStatus; 0x08] quiet_env in
  exists T,
    emitted fenv 0 T reset_state
    = (if Z.land 0x08 0xF8 =? 0
       then [(DAP_SWO_ExtendedStatus, false); (0, false);
             (0x44, false); (0x33, false); (0x22, false); (0x11, false);
             (0x88, false); (0x77, false); (0x66, false); (0x55, false);
             (0xcc, false); (0xbb, false); (0xaa, false); (0x99, true)]
       else [(DAP_Invalid, true)]) /\
    fsm (run fenv 0 T reset_state) = IDLE /\
    cfg_view (run fenv 0 T reset_state) = cfg_view reset_state /\
    dbgif_go (run fenv 0 T reset_state) = dbgif_go reset_state.
Proof.
  apply (swo_extended_status_answer quiet_env reset_state 0x08).
  - reflexivity.
  - exact quiet_env_fair.
  - unfold byte; lia.
Defined.

Lemma step_dispatch_JTAG_Configure i s :
  fsm s = RxParams -> rxedLen s = rxLen s -> word8 (rxBlock s) 0 = DAP_JTAG_Configure ->
  fsm (step i s) = RESPOND /\ dbgif_go (step i s) = dbgif_go s /\
  tx_view (step i s) = tx_view s /\
  cfg_view (step i s)
  = (waitRetry s, matchRetry s, dbgif_command s, dbgif_dwrite s, dbgif_apndp s,
     dbgif_rnw s, dbgif_addr32 s, running s, connected s,
     word8 (rxBlock s) 1, word8 (rxBlock s) 2) /\
  out_byte (step i s) = [].
Proof.
  intros E R Hop. dispatch_to (RESP_JTAG_Configure s).
  unfold RESP_JTAG_Configure, andthen, tx_view, cfg_view, out_byte.
  set (a := word8 (rxBlock s) 1). set (b := word8 (rxBlock s) 2). simpl. auto 10.
Qed.

(** X20. DAP_JTAG_Configure: the three-byte frame <0x15> <count> <IR length>
    stores the device count and the IR length of the first device, and is
    answered with the opcode followed by 0. *)
Theorem jtag_configure_stores_chain env s count irlen :
  fsm s = IDLE -> consumer_fair env -> byte count -> byte irlen ->
  let fenv := feed [DAP_JTAG_Configure; count; irlen] env in
  exists T,
    emitted fenv 0 T s = [(DAP_JTAG_Configure, false); (0, true)] /\
    fsm (run fenv 0 T s) = IDLE /\
    ndev (run fenv 0 T s) = count /\
    irlength (run fenv 0 T s) = irlen /\
    dbgif_go (run fenv 0 T s) = dbgif_go s.
Proof.
  intros E Hfair Hc Hl fenv.
  destruct (simple_command env [DAP_JTAG_Configure; count; irlen] DAP_JTAG_Configure 3 s
              (waitRetry s, matchRetry s, dbgif_command s, dbgif_dwrite s, dbgif_apndp s,
               dbgif_rnw s, dbgif_addr32 s, running s, connected s, count, irlen)
              (fun _ => tx_default (txBlock s) DAP_JTAG_Configure) 2 E Hfair)
    as (T & Em & E' & _ & C' & G'); try reflexivity; try lia.
  - intros i s1 E1 R1 C1 V1 B.
    frame_byte B 0%nat B0. frame_byte B 1%nat B1. frame_byte B 2%nat B2.
    rewrite trunc8_byte in B1, B2 by assumption.
    destruct (step_dispatch_JTAG_Configure i s1 E1 R1 B0) as (E2 & G2 & V2 & C2 & O2).
    repeat split; auto.
    + now rewrite V2, V1.
    + rewrite C2, B1, B2. unfold cfg_view in C1.
      now injection C1 as -> -> -> -> -> -> -> -> -> _ _.
  - exists T. subst fenv.
    unfold cfg_view in C'. injection C' as _ _ _ _ _ _ _ _ _ -> ->.
    rewrite Em, frame_bytes_2, word8_tx_default_0, word8_tx_default_1. repeat split; auto.
Qed.

Lemma jtag_configure_stores_chain_witness :
  let fenv := feed [DAP_JTAG_Configure; 1; 4] quiet_env in
  exists T,
    emitted fenv 0 T reset_state = [(DAP_JTAG_Configure, false); (0, true)] /\
    fsm (run fenv 0 T reset_state) = IDLE /\
    ndev (run fenv 0 T reset_state) = 1 /\
    irlength (run fenv 0 T reset_state) = 4 /\
    dbgif_go (run fenv 0 T reset_state) = dbgif_go reset_state.
Proof.
  apply (jtag_configure_stores_chain quiet_env reset_state 1 4).
  - reflexivity.
  - exact quiet_env_fair.
  - unfold byte; lia.
  - unfold byte; lia.
Defined.

Lemma step_dispatch_TransferAbort i s :
  fsm s = RxParams -> rxedLen s = rxLen s -> word8 (rxBlock s) 0 = DAP_TransferAbort ->
  fsm (step i s) = RESPOND /\ dbgif_go (step i s) = dbgif_go s /\
  tx_view (step i s) = (tx_invalid (txBlock s), 1, txedLen s) /\
  cfg_view (step i s) = cfg_view s /\ out_byte (step i s) = [].
Proof.
  intros E R Hop. dispatch_to RESP_Invalid.
  unfold RESP_Invalid, andthen, tx_view, cfg_view, out_byte, tx_invalid. simpl. auto 10.
Qed.

(** X21. DAP_TransferAbort is taken in as a one-byte frame but has no
    handler: it is answered with the single byte 0xFF, like an unknown
    command, and changes nothing. *)
Theorem transfer_abort_answered_invalid env s :
  fsm s = IDLE -> consumer_fair env ->
  let fenv := feed [DAP_TransferAbort] env in
  exists T,
    emitted fenv 0 T s = [(DAP_Invalid, true)] /\
    fsm (run fenv 0 T s) = IDLE /\
    cfg_view (run fenv 0 T s) = cfg_view s /\
    dbgif_go (run fenv 0 T s) = dbgif_go s.
Proof.
  intros E Hfair fenv.
  destruct (simple_command env [DAP_TransferAbort] DAP_TransferAbort 1 s (cfg_view s)
              (fun _ => tx_invalid (tx_default (txBlock s) DAP_TransferAbort)) 1 E Hfair)
    as (T & Em & E' & _ & C' & G'); try reflexivity; try lia.
  - intros i s1 E1 R1 C1 V1 B.
    frame_byte B 0%nat B0.
    destruct (step_dispatch_TransferAbort i s1 E1 R1 B0) as (E2 & G2 & V2 & C2 & O2).
    unfold tx_view in V1. injection V1 as HB1 HL1 HE1.
    repeat split; auto; [|congruence].
    rewrite V2, HB1, HE1. reflexivity.
  - exists T. subst fenv.
    rewrite Em, frame_bytes_1, word8_tx_invalid_0. repeat split; auto.
Qed.

Lemma transfer_abort_answered_invalid_witness :
  let fenv := feed [DAP_TransferAbort] quiet_env in
  exists T,
    emitted fenv 0 T reset_state = [(DAP_Invalid, true)] /\
    fsm (run fenv 0 T reset_state) = IDLE /\
    cfg_view (run fenv 0 T reset_state) = cfg_view reset_state /\
    dbgif_go (run fenv 0 T reset_state) = dbgif_go reset_state.
Proof.
  apply (transfer_abort_answered_invalid quiet_env reset_state).
  - reflexivity.
  - exact quiet_env_fair.
Defined.

(** ** The response RAM *)





(** ** The SWO data streamer *)

Lemma until_ready env (Q : State -> Prop) :
  consumer_fair env ->
  (forall i x, Q x -> streamIn_ready i = false ->
     Q (step i x) /\ out_byte (step i x) = []) ->
  forall t0 s, Q s ->
    exists T s', exec env Q t0 T s s' [] /\ streamIn_ready (env (t0 + T)%nat) = true.
Proof.
  intros Hfair Hstep t0 s Qs. destruct (Hfair t0) as [d Hd].
  revert t0 s Qs Hd. induction d as [|d IH]; intros t0 s Qs Hd.
  - exists 0%nat, s. split; [now apply exec_nil|exact Hd].
  - destruct (streamIn_ready (env t0)) eqn:R0.
    + exists 0%nat, s. rewrite Nat.add_0_r. split; [now apply exec_nil|exact R0].
    + destruct (Hstep (env t0) s Qs R0) as [Q1 O1].
      destruct (IH (S t0) _ Q1) as (T & s' & X & R'); [now rewrite Nat.add_succ_comm|].
      exists (1 + T)%nat, s'. split.
      * change (@nil (Z * bool)) with (@nil (Z * bool) ++ []).
        eapply exec_app; [rewrite <- O1; now apply exec_step|].
        now rewrite Nat.add_1_r.
      * now rewrite <- Nat.add_succ_comm.
Qed.

Lemma step_dispatch_SWO_Data i s :
  fsm s = RxParams -> rxedLen s = rxLen s -> word8 (rxBlock s) 0 = DAP_SWO_Data ->
  swo_view (step i s)
  = (DAP_SWO_Data_PROCESS, 0,
     (if bits (rxBlock s) 8 16 <? 100 then bits (rxBlock s) 8 16 else 100),
     cfg_view s, dbgif_go s) /\
  out_byte (step i s) = [].
Proof.
  intros E R Hop. dispatch_to (RESP_SWO_Data_Setup s).
  unfold RESP_SWO_Data_Setup, andthen, swo_view, cfg_view, out_byte, Mux, nonzero.
  set (m := bits (rxBlock s) 8 16).
  destruct (m <? 100); simpl; auto.
Qed.

Lemma step_SWO_Data_stall i s :
  fsm s = DAP_SWO_Data_PROCESS -> streamIn_ready i = false ->
  swo_view (step i s) = swo_view s /\ out_byte (step i s) = [].
Proof.
  intros E R. unfold step, decoder. rewrite E. unfold RESP_SWO_Data_Process. rewrite R.
  unfold andthen, skip, swo_view, cfg_view, out_byte. simpl. rewrite E. auto.
Qed.

Lemma step_SWO_Data_header i s :
  fsm s = DAP_SWO_Data_PROCESS -> streamIn_ready i = true -> 0 <= txb s < 4 ->
  swo_view (step i s)
  = (DAP_SWO_Data_PROCESS,
     (if txb s =? 3 then if txLen s =? 0 then 5 else 4 else txb s + 1),
     txLen s, cfg_view s, dbgif_go s) /\
  out_byte (step i s)
  = [(nth (Z.to_nat (txb s)) [DAP_SWO_Data; 0; word8 (txLen s) 0; word8 (txLen s) 1] 0,
      (txb s =? 3) && (txLen s =? 0))].
Proof.
  intros E R Hb. unfold step, decoder. rewrite E. unfold RESP_SWO_Data_Process. rewrite R.
  unfold andthen, skip, swo_view, cfg_view, out_byte, Mux, nonzero.
  set (w0 := word8 (txLen s) 0). set (w1 := word8 (txLen s) 1).
  assert (Hc : txb s = 0 \/ txb s = 1 \/ txb s = 2 \/ txb s = 3) by lia.
  destruct Hc as [H | [H | [H | H]]]; rewrite H; simpl; rewrite ?E; auto.
  destruct (txLen s =? 0); simpl; rewrite ?E; auto.
Qed.

Lemma step_SWO_Data_fill i s :
  fsm s = DAP_SWO_Data_PROCESS -> streamIn_ready i = true -> txb s = 4 ->
  swo_view (step i s)
  = (DAP_SWO_Data_PROCESS, (if txLen s =? 1 then 5 else 4), trunc 16 (txLen s - 1),
     cfg_view s, dbgif_go s) /\
  out_byte (step i s) = [(42, txLen s =? 1)].
Proof.
  intros E R Hb. unfold step, decoder. rewrite E. unfold RESP_SWO_Data_Process. rewrite R, Hb.
  unfold andthen, skip, swo_view, cfg_view, out_byte.
  set (l := trunc 16 (txLen s - 1)).
  destruct (txLen s =? 1); simpl; rewrite ?E, ?Hb; auto.
Qed.

Lemma step_SWO_Data_end i s :
  fsm s = DAP_SWO_Data_PROCESS -> streamIn_ready i = true -> txb s = 5 ->
  fsm (step i s) = IDLE /\ cfg_view (step i s) = cfg_view s /\
  dbgif_go (step i s) = dbgif_go s /\ out_byte (step i s) = [].
Proof.
  intros E R Hb. unfold step, decoder. rewrite E. unfold RESP_SWO_Data_Process. rewrite R, Hb.
  unfold andthen, skip, cfg_view, out_byte. simpl. auto.
Qed.

Lemma swo_view_eq v s :
  swo_view s = v ->
  fsm s = fst (fst (fst (fst v))) /\ txb s = snd (fst (fst (fst v))) /\
  txLen s = snd (fst (fst v)) /\ cfg_view s = snd (fst v) /\ dbgif_go s = snd v.
Proof. intros <-. unfold swo_view. cbn [fst snd]. auto. Qed.

(** One tick of the streamer with the consumer ready, after any number of
    ticks without. *)
Lemma swo_data_next env c g :
  consumer_fair env ->
  forall t0 s,
    fsm s = DAP_SWO_Data_PROCESS -> cfg_view s = c -> dbgif_go s = g ->
    exists T s1,
      exec env (fun x => cfg_view x = c /\ dbgif_go x = g) t0 T s s1 [] /\
      swo_view s1 = swo_view s /\ streamIn_ready (env (t0 + T)%nat) = true.
Proof.
  intros Hfair t0 s E C G.
  destruct (until_ready env (fun x => swo_view x = swo_view s) Hfair) with (t0 := t0) (s := s)
    as (T & s1 & X & R); auto.
  { intros i x Hx Ri. assert (Ex : fsm x = DAP_SWO_Data_PROCESS).
    { apply swo_view_eq in Hx. destruct Hx as (Hf & _). rewrite Hf. exact E. }
    destruct (step_SWO_Data_stall i x Ex Ri) as [V O]. split; [congruence|exact O]. }
  exists T, s1. split; [|split; [exact (exec_end _ _ _ _ _ _ _ X)|exact R]].
  eapply exec_weaken; [|exact X]. intros x Hx.
  apply swo_view_eq in Hx. destruct Hx as (_ & _ & _ & Hc & Hg).
  split; [rewrite Hc; exact C|rewrite Hg; exact G].
Qed.

(** The data bytes: [m] times 42, the last one flagged. *)
Lemma swo_data_fill env c g :
  consumer_fair env ->
  forall m t0 s,
    fsm s = DAP_SWO_Data_PROCESS -> txb s = 4 -> txLen s = Z.of_nat (S m) ->
    txLen s < 65536 -> cfg_view s = c -> dbgif_go s = g ->
    exists T s' out,
      exec env (fun x => cfg_view x = c /\ dbgif_go x = g) t0 T s s' out /\
      map fst out = repeat 42 (S m) /\ map snd out = repeat false m ++ [true] /\
      fsm s' = DAP_SWO_Data_PROCESS /\ txb s' = 5.
Proof.
  intros Hfair. induction m as [|m IH]; intros t0 s E Hb HL Hmax C G.
  all: destruct (swo_data_next env c g Hfair t0 s E C G) as (T1 & s1 & X1 & V1 & R1).
  all: apply swo_view_eq in V1; cbn [swo_view fst snd] in V1;
    destruct V1 as (E1 & B1 & L1 & C1 & G1).
  all: rewrite E in E1; rewrite Hb in B1; rewrite HL in L1.
  all: destruct (step_SWO_Data_fill (env (t0 + T1)%nat) s1 E1 R1 B1) as (V2 & O2).
  all: rewrite L1 in V2, O2.
  all: apply swo_view_eq in V2; cbn [fst snd] in V2; destruct V2 as (E2 & B2 & L2 & C2 & G2).
  all: assert (X2 : exec env (fun x => cfg_view x = c /\ dbgif_go x = g) (t0 + T1) 1 s1
                      (step (env (t0 + T1)%nat) s1) (out_byte (step (env (t0 + T1)%nat) s1)))
         by (apply exec_step; split; congruence).
  - exists (T1 + 1)%nat, (step (env (t0 + T1)%nat) s1), [(42, true)].
    split; [|auto].
    change [(42, true)] with ([] ++ [(42, Z.of_nat 1 =? 1)]). rewrite <- O2.
    eapply exec_app; eauto.
  - assert (Hne : (Z.of_nat (S (S m)) =? 1) = false) by (apply Z.eqb_neq; lia).
    rewrite Hne in B2, O2.
    assert (L2' : txLen (step (env (t0 + T1)%nat) s1) = Z.of_nat (S m)).
    { rewrite L2. rewrite trunc_small; [lia|]. change (2 ^ 16) with 65536. lia. }
    destruct (IH (t0 + T1 + 1)%nat _ E2 B2 L2') as (T3 & s3 & o3 & X3 & F3 & S3 & E3 & B3);
      try congruence; [lia|].
    exists (T1 + (1 + T3))%nat, s3, ([] ++ [(42, false)] ++ o3).
    split; [|repeat split; auto].
    + eapply exec_app; [exact X1|]. eapply exec_app; [rewrite <- O2; exact X2|exact X3].
    + simpl. now rewrite F3.
    + simpl. now rewrite S3.
Qed.

Lemma decode_frame_exec env frame op L s :
  fsm s = IDLE -> nth_error frame 0 = Some op ->
  declared_len (trunc 8 op) = Some L -> Z.of_nat (length frame) = L ->
  exists s1,
    exec (feed frame env) (fun x => cfg_view x = cfg_view s /\ dbgif_go x = dbgif_go s)
         0 (length frame) s s1 [] /\
    fsm s1 = RxParams /\ rxedLen s1 = rxLen s1 /\
    tx_view s1 = (tx_default (txBlock s) (trunc 8 op), 2, 0) /\
    forall k, (k < length frame)%nat ->
      word8 (rxBlock s1) (Z.of_nat k) = trunc 8 (nth k frame 0).
Proof.
  intros E Hop HL Hlen.
  destruct (decode_frame env frame op L s E Hop HL Hlen) as (s1 & X1 & E1 & R1 & V1 & B1).
  exists s1. split; [|auto]. destruct X1 as (Rn & Em & _).
  split; [exact Rn|split; [exact Em|]].
  apply (decode_frame_cfg env frame op L s E Hop HL Hlen).
Qed.

Lemma swo_data_header env c g :
  consumer_fair env ->
  forall t0 s,
    fsm s = DAP_SWO_Data_PROCESS -> 0 <= txb s < 4 -> cfg_view s = c -> dbgif_go s = g ->
    exists T s',
      exec env (fun x => cfg_view x = c /\ dbgif_go x = g) t0 T s s'
        [(nth (Z.to_nat (txb s)) [DAP_SWO_Data; 0; word8 (txLen s) 0; word8 (txLen s) 1] 0,
          (txb s =? 3) && (txLen s =? 0))] /\
      swo_view s'
      = (DAP_SWO_Data_PROCESS,
         (if txb s =? 3 then if txLen s =? 0 then 5 else 4 else txb s + 1),
         txLen s, c, g).
Proof.
  intros Hfair t0 s E Hb C G.
  destruct (swo_data_next env c g Hfair t0 s E C G) as (T1 & s1 & X1 & V1 & R1).
  apply swo_view_eq in V1; cbn [swo_view fst snd] in V1;
    destruct V1 as (E1 & B1 & L1 & C1 & G1).
  rewrite E in E1.
  destruct (step_SWO_Data_header (env (t0 + T1)%nat) s1 E1 R1) as (V2 & O2); [lia|].
  rewrite B1, L1, C1, G1, C, G in V2. rewrite B1, L1 in O2.
  exists (T1 + 1)%nat, (step (env (t0 + T1)%nat) s1). split; [|exact V2].
  rewrite <- (app_nil_l [_]), <- O2.
  eapply exec_app; [exact X1|]. apply exec_step.
  - split; congruence.
  - apply swo_view_eq in V2. cbn [fst snd] in V2. destruct V2 as (_ & _ & _ & -> & ->). auto.
Qed.

Lemma swo_data_end env c g :
  consumer_fair env ->
  forall t0 s,
    fsm s = DAP_SWO_Data_PROCESS -> txb s = 5 -> cfg_view s = c -> dbgif_go s = g ->
    exists T s',
      exec env (fun x => cfg_view x = c /\ dbgif_go x = g) t0 T s s' [] /\ fsm s' = IDLE.
Proof.
  intros Hfair t0 s E Hb C G.
  destruct (swo_data_next env c g Hfair t0 s E C G) as (T1 & s1 & X1 & V1 & R1).
  apply swo_view_eq in V1; cbn [swo_view fst snd] in V1;
    destruct V1 as (E1 & B1 & L1 & C1 & G1).
  rewrite E in E1. rewrite Hb in B1.
  destruct (step_SWO_Data_end (env (t0 + T1)%nat) s1 E1 R1 B1) as (E2 & C2 & G2 & O2).
  exists (T1 + 1)%nat, (step (env (t0 + T1)%nat) s1). split; [|exact E2].
  change (@nil (Z * bool)) with (@nil (Z * bool) ++ []).
  eapply exec_app; [exact X1|]. rewrite <- O2. apply exec_step; split; congruence.
Qed.

(** X23. DAP_SWO_Data: the frame <0x1C> <count, 16 bits> is answered with
    the opcode, a status byte 0, the number of data bytes as 16 bits low byte
    first, and that many bytes of value 42.  The number is the requested
    count, little-endian, capped at 100; the last byte of the answer, and no
    other, carries the end-of-packet flag.  The configuration and [go] are
    not touched. *)
Theorem swo_data_capped_at_100 env s lo hi :
  fsm s = IDLE -> consumer_fair env -> byte lo -> byte hi ->
  let fenv := feed [DAP_SWO_Data; lo; hi] env in
  let n := Z.min (lo + 256 * hi) 100 in
  exists T,
    map fst (emitted fenv 0 T s) = [DAP_SWO_Data; 0; n; 0] ++ repeat 42 (Z.to_nat n) /\
    map snd (emitted fenv 0 T s) = repeat false (Z.to_nat n + 3) ++ [true] /\
    fsm (run fenv 0 T s) = IDLE /\
    cfg_view (run fenv 0 T s) = cfg_view s /\
    dbgif_go (run fenv 0 T s) = dbgif_go s.
Proof.
  intros E Hfair Hlo Hhi fenv n.
  set (P := fun x => cfg_view x = cfg_view s /\ dbgif_go x = dbgif_go s).
  assert (Hf : consumer_fair fenv) by (apply feed_fair; exact Hfair).
  assert (Hn : 0 <= n <= 100) by (unfold byte in *; lia).
  destruct (decode_frame_exec env [DAP_SWO_Data; lo; hi] DAP_SWO_Data 3 s E)
    as (s1 & X1 & E1 & R1 & V1 & B); try reflexivity.
  fold fenv in X1. fold P in X1. simpl length in X1.
  pose proof (exec_end _ _ _ _ _ _ _ X1) as [C1 G1].
  frame_byte B 0%nat B0. frame_byte B 1%nat B1. frame_byte B 2%nat B2.
  rewrite trunc8_byte in B1, B2 by assumption.
  destruct (step_dispatch_SWO_Data (fenv 3%nat) s1 E1 R1 B0) as (V2 & O2).
  rewrite (rx_bits16 _ 8 1), B1 in V2 by lia. change (1 + 1) with 2 in V2. rewrite B2 in V2.
  assert (Hmin : (if lo + 256 * hi <? 100 then lo + 256 * hi else 100) = n)
    by (subst n; destruct (Z.ltb_spec (lo + 256 * hi) 100); lia).
  rewrite Hmin, C1, G1 in V2.
  set (s2 := step (fenv 3%nat) s1) in *.
  apply swo_view_eq in V2. cbn [fst snd] in V2. destruct V2 as (E2 & T2 & L2 & C2 & G2).
  assert (X2 : exec fenv P 0 (3 + 1) s s2 ([] ++ [])).
  { eapply exec_app; [exact X1|]. rewrite <- O2.
    apply exec_step; split; [exact C1|exact G1|exact C2|exact G2]. }
  destruct (swo_data_header fenv _ _ Hf (0 + (3 + 1)) s2 E2 ltac:(lia) C2 G2)
    as (Ta & sa & Xa & Va).
  rewrite T2, L2 in Xa, Va.
  change (Z.to_nat 0) with 0%nat in Xa. change (0 =? 3) with false in Xa, Va.
  cbn [nth andb] in Xa. change (0 + 1) with 1 in Va. cbv iota in Va.
  apply swo_view_eq in Va. cbn [fst snd] in Va. destruct Va as (Ea & Ba & La & Ca & Ga).
  destruct (swo_data_header fenv _ _ Hf (0 + (3 + 1) + Ta) sa Ea ltac:(lia) Ca Ga)
    as (Tb & sb & Xb & Vb).
  rewrite Ba, La in Xb, Vb.
  change (Z.to_nat 1) with 1%nat in Xb. change (1 =? 3) with false in Xb, Vb.
  cbn [nth andb] in Xb. change (1 + 1) with 2 in Vb. cbv iota in Vb.
  apply swo_view_eq in Vb. cbn [fst snd] in Vb. destruct Vb as (Eb & Bb & Lb & Cb & Gb).
  destruct (swo_data_header fenv _ _ Hf (0 + (3 + 1) + Ta + Tb) sb Eb ltac:(lia) Cb Gb)
    as (Tc & sc & Xc & Vc).
  rewrite Bb, Lb in Xc, Vc.
  change (Z.to_nat 2) with 2%nat in Xc. change (2 =? 3) with false in Xc, Vc.
  cbn [nth andb] in Xc. change (2 + 1) with 3 in Vc. cbv iota in Vc.
  apply swo_view_eq in Vc. cbn [fst snd] in Vc. destruct Vc as (Ec & Bc & Lc & Cc & Gc).
  destruct (swo_data_header fenv _ _ Hf (0 + (3 + 1) + Ta + Tb + Tc) sc Ec ltac:(lia) Cc Gc)
    as (Td & sd & Xd & Vd).
  rewrite Bc, Lc in Xd, Vd.
  change (Z.to_nat 3) with 3%nat in Xd. change (3 =? 3) with true in Xd, Vd.
  cbn [nth andb] in Xd. cbv iota in Vd.
  apply swo_view_eq in Vd. cbn [fst snd] in Vd. destruct Vd as (Ed & Bd & Ld & Cd & Gd).
  assert (W0 : word8 n 0 = n).
  { unfold word8, bits. rewrite Z.shiftr_0_r. apply trunc_small. lia. }
  assert (W1 : word8 n 1 = 0).
  { unfold word8, bits. rewrite Z.shiftr_div_pow2 by lia.
    rewrite Z.div_small by (change (2 ^ (8 * 1)) with 256; lia). reflexivity. }
  rewrite W0 in Xc. rewrite W1 in Xd.
  pose proof (exec_app _ _ _ _ _ _ _ _ _ _ X2
               (exec_app _ _ _ _ _ _ _ _ _ _ Xa
                 (exec_app _ _ _ _ _ _ _ _ _ _ Xb
                   (exec_app _ _ _ _ _ _ _ _ _ _ Xc Xd)))) as Xh.
  cbn [app] in Xh.
  destruct (Z.eqb_spec n 0) as [Hz | Hnz].
  - destruct (swo_data_end fenv _ _ Hf (0 + (3 + 1 + (Ta + (Tb + (Tc + Td))))) sd Ed Bd Cd Gd)
      as (Te & se & Xe & Ee).
    pose proof (exec_app _ _ _ _ _ _ _ _ _ _ Xh Xe) as Xt.
    exists (3 + 1 + (Ta + (Tb + (Tc + Td))) + Te)%nat.
    pose proof (exec_end _ _ _ _ _ _ _ Xt) as [Ct Gt].
    destruct Xt as (Rt & Et & _). rewrite Rt, Et, Hz. simpl. auto.
  - destruct (Z.to_nat n) as [|m] eqn:Hm; [lia|].
    destruct (swo_data_fill fenv (cfg_view s) (dbgif_go s) Hf m
                (0 + (3 + 1 + (Ta + (Tb + (Tc + Td))))) sd Ed Bd)
      as (Tf & sf & ob & Xf & Ff & Sf & Ef & Bf); auto; try lia.
    pose proof (exec_end _ _ _ _ _ _ _ Xf) as [Cf Gf].
    destruct (swo_data_end fenv _ _ Hf
                (0 + (3 + 1 + (Ta + (Tb + (Tc + Td)))) + Tf) sf Ef Bf Cf Gf)
      as (Te & se & Xe & Ee).
    pose proof (exec_app _ _ _ _ _ _ _ _ _ _ Xh (exec_app _ _ _ _ _ _ _ _ _ _ Xf Xe)) as Xt.
    exists (3 + 1 + (Ta + (Tb + (Tc + Td))) + (Tf + Te))%nat.
    pose proof (exec_end _ _ _ _ _ _ _ Xt) as [Ct Gt].
    destruct Xt as (Rt & Et & _). rewrite Rt, Et, app_nil_r.
    cbn [map fst snd app]. rewrite Ff, Sf.
    replace (S m + 3)%nat with (4 + m)%nat by lia. simpl. auto.
Qed.

Lemma swo_data_capped_at_100_witness :
  let fenv := feed [DAP_SWO_Data; 0x2C; 0x01] quiet_env in
  let n := Z.min (0x2C + 256 * 0x01) 100 in
  exists T,
    map fst (emitted fenv 0 T reset_state)
    = [DAP_SWO_Data; 0; n; 0] ++ repeat 42 (Z.to_nat n) /\
    map snd (emitted fenv 0 T reset_state) = repeat false (Z.to_nat n + 3) ++ [true] /\
    fsm (run fenv 0 T reset_state) = IDLE /\
    cfg_view (run fenv 0 T reset_state) = cfg_view reset_state /\
    dbgif_go (run fenv 0 T reset_state) = dbgif_go reset_state.
Proof.
  apply (swo_data_capped_at_100 quiet_env reset_state 0x2C 0x01).
  - reflexivity.
  - exact quiet_env_fair.
  - unfold byte; lia.
  - unfold byte; lia.
Defined.

(** ** The SWO PHY and the nmigen wrapper *)

Lemma phy_run_add env n1 : forall n2 t0 last,
  phy_run env t0 (n1 + n2) last = phy_run env (t0 + n1) n2 (phy_run env t0 n1 last).
Proof.
  induction n1 as [|n1 IH]; intros n2 t0 last; simpl.
  - now rewrite Nat.add_0_r.
  - rewrite IH. now rewrite Nat.add_succ_comm.
Qed.


Section WrapperFacts.
Import Stdlib.Strings.String.

Variables M N : Type.
Variable nmigen_name_map : N -> option (string * string).
Variable nmigen_dir_map : N -> option string.

Let port := port_name N nmigen_name_map nmigen_dir_map.






End WrapperFacts.
